(** * netrun-llm: policy enforcement and telemetry

    A shallow embedding of [netrun/llm/policies.py] and
    [netrun/llm/telemetry.py].

    Conventions of the embedding.
    - Python [int] is [Z].
    - Python [float] (cost, latency, [time.time()]) is an exact rational [Q];
      binary64 rounding is not modelled there, so a sum or a product of
      floats is the exact one (the code's [0.1 + 0.2] is
      [0.30000000000000004], and its [int(90 * 0.7)] is 62 where the exact
      product gives 63).  Results over [Q] are compared with [==] ([Qeq]).
      Where a statement is about the digits a float computation returns, the
      computation is embedded a second time over the kernel's binary64
      numbers (module [Binary64]).
    - [datetime] is a number of microseconds ([Z]); the calendar date of a
      [datetime] is its day number.  Clock readings are explicit arguments.
    - Python [str] is [string]; [dict] is [gmap]; [list] is [list].
    - A raised exception keeps its class and which message template it
      carries; the interpolated text of the message is dropped.
    - Objects stored in collections are treated as values: a caller is assumed
      not to mutate a metrics object after handing it to [record]. *)

From Stdlib Require Import ZArith QArith Qround String Ascii List Bool Lia Lqa Sorted.
From Stdlib Require PrimFloat FloatOps SpecFloat Uint63.
From stdpp Require Import gmap strings list fin_maps.

Close Scope Q_scope.
Local Open Scope string_scope.
Local Open Scope list_scope.

(* ===================================================================== *)
(** ** Exceptions and the class hierarchy *)
(* ===================================================================== *)

Module Exceptions.

(** The exception classes that reach a caller of the two modules. *)
Inductive exc_class : Type :=
| BaseException
| Exception
| ValueError
| IndexError
| ArithmeticError
| OverflowError
| ValidationError          (* pydantic: a ValueError *)
| LLMError                 (* netrun.llm.exceptions *)
| PolicyViolationError
| ProviderDisabledError
| BudgetExceededError
| RateLimitExceededError
| FallbackToLocalError.

#[global] Instance exc_class_eq_dec : EqDecision exc_class.
Proof. solve_decision. Defined.

(** The single base class written in each [class C(B)] statement.  LLMError
    is declared in netrun/llm/exceptions.py, outside the two modules; its
    tests show it to be an Exception. *)
Definition base (c : exc_class) : option exc_class :=
  match c with
  | BaseException => None
  | Exception => Some BaseException
  | ValueError => Some Exception
  | IndexError => Some Exception
  | ArithmeticError => Some Exception
  | OverflowError => Some ArithmeticError
  | ValidationError => Some ValueError
  | LLMError => Some Exception
  | PolicyViolationError => Some LLMError
  | ProviderDisabledError => Some PolicyViolationError
  | BudgetExceededError => Some PolicyViolationError
  | RateLimitExceededError => Some PolicyViolationError
  | FallbackToLocalError => Some Exception
  end.

(** Distance to the root; the measure for walking the base chain. *)
Definition depth (c : exc_class) : nat :=
  match c with
  | BaseException => 0
  | Exception => 1
  | ValueError | IndexError | ArithmeticError | LLMError | FallbackToLocalError => 2
  | OverflowError | ValidationError | PolicyViolationError => 3
  | ProviderDisabledError | BudgetExceededError | RateLimitExceededError => 4
  end.

Fixpoint ancestors_upto (fuel : nat) (c : exc_class) : list exc_class :=
  c :: match fuel with
       | O => []
       | S n => match base c with
                | Some b => ancestors_upto n b
                | None => []
                end
       end.

(** The method resolution order of [c] (without [object]). *)
Definition mro (c : exc_class) : list exc_class := ancestors_upto (depth c) c.

(** [issubclass c d]. *)
Definition issubclass (c d : exc_class) : bool := bool_decide (d ∈ mro c).

(** Which message template an exception was built from. *)
Inductive message : Type :=
| MsgInvalidProvider
| MsgProviderDisabled
| MsgModelDenied
| MsgModelNotAllowed
| MsgTierExceedsLimit
| MsgTokensExceedLimit
| MsgCostExceedsLimit
| MsgDailyBudgetFallback
| MsgDailyBudget
| MsgMonthlyBudgetFallback
| MsgMonthlyBudget
| MsgRateLimitRpm
| MsgRateLimitTpm
| MsgReasonRequired
| MsgPeriodEmpty
| MsgPeriodFormat
| MsgPeriodUnit
| MsgListIndex
| MsgOutOfRange.

#[global] Instance message_eq_dec : EqDecision message.
Proof. solve_decision. Defined.

Record exn : Type := Exn { exn_class : exc_class; exn_msg : message }.

#[global] Instance exn_eq_dec : EqDecision exn.
Proof. solve_decision. Defined.

(** [except handler: ...] catches [e] iff the class of [e] is a subclass of
    the handler's class. *)
Definition catches (handler : exc_class) (e : exn) : bool :=
  issubclass (exn_class e) handler.

(** The outcome of a call: it returns a value or raises. *)
Inductive outcome (A : Type) : Type :=
| Returns (a : A)
| Raises (e : exn).
Arguments Returns {A} a.
Arguments Raises {A} e.

End Exceptions.
Export Exceptions.

(** A state-and-exception monad: state changes made before a [raise] stay. *)
Module StateExn.

Definition M (S A : Type) : Type := S -> S * outcome A.

Definition ret {S A} (a : A) : M S A := fun s => (s, Returns a).

Definition bind {S A B} (m : M S A) (k : A -> M S B) : M S B :=
  fun s => match m s with
           | (s', Returns a) => k a s'
           | (s', Raises e) => (s', Raises e)
           end.

Definition raise {S A} (c : exc_class) (msg : message) : M S A :=
  fun s => (s, Raises (Exn c msg)).

Definition get {S} : M S S := fun s => (s, Returns s).

(** A call that touches no state. *)
Definition lift {S A} (o : outcome A) : M S A := fun s => (s, o).

Definition put {S} (s' : S) : M S unit := fun _ => (s', Returns tt).

Definition modify {S} (f : S -> S) : M S unit := fun s => (f s, Returns tt).

(** [if c: raise ...] *)
Definition raise_if {S} (c : bool) (cls : exc_class) (msg : message) : M S unit :=
  if c then raise cls msg else ret tt.

End StateExn.
Import StateExn.

Declare Scope py_scope.
Delimit Scope py_scope with py.
Notation "x <- c1 ;; c2" := (bind c1 (fun x => c2))
  (at level 100, c1 at next level, right associativity) : py_scope.
Notation "c1 ;;; c2" := (bind c1 (fun _ => c2))
  (at level 100, right associativity) : py_scope.

(* ===================================================================== *)
(** ** Python helpers *)
(* ===================================================================== *)

Module Py.

(** [a > b] on floats. *)
Definition Qgtb (a b : Q) : bool := negb (Qle_bool a b).

(** [int(x)] of a float: truncation toward zero. *)
Definition int_of_float (x : Q) : Z := Z.quot (Qnum x) (Zpos (Qden x)).

(** [x.is_integer()]. *)
Definition is_integer (x : Q) : bool := (Qnum x mod Zpos (Qden x) =? 0)%Z.

(** [sum(xs)] over floats and over ints. *)
Definition sumQ (xs : list Q) : Q := fold_left Qplus xs 0%Q.
Definition sumZ (xs : list Z) : Z := fold_left Z.add xs 0%Z.

(** [len(xs)]. *)
Definition len {A} (xs : list A) : Z := Z.of_nat (length xs).

(** [xs[i]]: negative indices count from the end, and an index out of
    range raises IndexError ([None]). *)
Definition index {A} (xs : list A) (i : Z) : option A :=
  if (i <? 0)%Z
  then (if (len xs + i <? 0)%Z then None else xs !! Z.to_nat (len xs + i))
  else xs !! Z.to_nat i.

(** Truthiness of a list and of an optional string. *)
Definition nonempty {A} (xs : list A) : bool :=
  match xs with [] => false | _ => true end.

Definition str_truthy (s : option string) : bool :=
  match s with
  | None => false
  | Some s => negb (String.eqb s "")
  end.

(** [x in xs] for a list of strings. *)
Definition str_in (x : string) (xs : list string) : bool :=
  existsb (String.eqb x) xs.

(** [s.lower()] on ASCII letters. *)
Definition lower_ascii (c : ascii) : ascii :=
  let n := nat_of_ascii c in
  if (65 <=? n)%nat && (n <=? 90)%nat then ascii_of_nat (n + 32) else c.

Fixpoint lower (s : string) : string :=
  match s with
  | EmptyString => EmptyString
  | String c s' => String (lower_ascii c) (lower s')
  end.

(** [int(s)] for a string: surrounding blanks, an optional sign, then
    decimal digits that single underscores may separate, at most 4300 digits
    ([sys.get_int_max_str_digits()]).  The blanks [int] skips are the
    characters 9 to 13 and the space; the characters 28 to 31, which
    [str.strip] would remove, make it raise.  Strings are ASCII here: the
    digits and blanks outside ASCII that [int] also accepts are not
    modelled. *)
Definition is_space (c : ascii) : bool :=
  let n := nat_of_ascii c in
  ((9 <=? n)%nat && (n <=? 13)%nat) || (n =? 32)%nat.

Fixpoint lstrip (s : string) : string :=
  match s with
  | EmptyString => EmptyString
  | String c s' => if is_space c then lstrip s' else s
  end.

Fixpoint rev_append (s acc : string) : string :=
  match s with
  | EmptyString => acc
  | String c s' => rev_append s' (String c acc)
  end.

Definition reverse (s : string) : string := rev_append s EmptyString.

Definition strip (s : string) : string := reverse (lstrip (reverse (lstrip s))).

Definition digit_of (c : ascii) : option Z :=
  let n := nat_of_ascii c in
  if (48 <=? n)%nat && (n <=? 57)%nat then Some (Z.of_nat (n - 48)) else None.

Fixpoint parse_digits (s : string) (acc : Z) (after_digit : bool) : option Z :=
  match s with
  | EmptyString => if after_digit then Some acc else None
  | String c s' =>
      match digit_of c with
      | Some d => parse_digits s' (acc * 10 + d)%Z true
      | None =>
          if Ascii.eqb c "_"%char && after_digit
          then parse_digits s' acc false
          else None
      end
  end.

Fixpoint count_digits (s : string) : nat :=
  match s with
  | EmptyString => 0
  | String c s' =>
      match digit_of c with
      | Some _ => S (count_digits s')
      | None => count_digits s'
      end
  end.

Definition int_max_str_digits : nat := 4300.

Definition parse_int (r : string) : option Z :=
  if (int_max_str_digits <? count_digits r)%nat then None
  else parse_digits r 0 false.

Definition int_of_str (s : string) : option Z :=
  match strip s with
  | String "+" r => parse_int r
  | String "-" r => Z.opp <$> parse_int r
  | r => parse_int r
  end.

(** [s[:-1]] and [s[-1]] of a non-empty string. *)
Fixpoint split_last (s : string) : option (string * ascii) :=
  match s with
  | EmptyString => None
  | String c EmptyString => Some (EmptyString, c)
  | String c s' =>
      match split_last s' with
      | Some (init, l) => Some (String c init, l)
      | None => None
      end
  end.

(** The first alternative that yields a value. *)
Fixpoint first_some {A} (alternatives : list (option A)) : option A :=
  match alternatives with
  | [] => None
  | Some a :: _ => Some a
  | None :: rest => first_some rest
  end.

(** [timedelta(...)] from a number of microseconds: the day count is
    limited to nine digits. *)
Definition timedelta (us : Z) : outcome Z :=
  if (Z.abs (us / 86400000000) <=? 999999999)%Z
  then Returns us
  else Raises (Exn OverflowError MsgOutOfRange).

(** [dt - delta]: the result must be a date of the years 1 to 9999. *)
Definition datetime_min : Z := (-62135596800000000)%Z.
Definition datetime_max : Z := 253402300799999999%Z.

Definition datetime_sub (dt delta : Z) : outcome Z :=
  let r := (dt - delta)%Z in
  if (datetime_min <=? r)%Z && (r <=? datetime_max)%Z
  then Returns r
  else Raises (Exn OverflowError MsgOutOfRange).

(** A stable sort by [<], as [sorted] is. *)
Fixpoint insert_sorted (x : Q) (l : list Q) : list Q :=
  match l with
  | [] => [x]
  | y :: l' => if Qgtb x y then y :: insert_sorted x l' else x :: l
  end.

Definition sorted (l : list Q) : list Q := foldr insert_sorted [] l.

End Py.
Import Py.

(* ===================================================================== *)
(** ** policies.py *)
(* ===================================================================== *)

Module Policies.

Inductive CostTier : Type := FREE | LOW | MEDIUM | HIGH | PREMIUM.

#[global] Instance CostTier_eq_dec : EqDecision CostTier.
Proof. solve_decision. Defined.

(** Model cost per 1K tokens (input, output). *)
Definition MODEL_COSTS : gmap string (Q * Q) :=
  list_to_map
    [ ("gpt-4o-mini", (0.00015, 0.0006)%Q);
      ("gpt-4o", (0.0025, 0.01)%Q);
      ("gpt-4-turbo", (0.01, 0.03)%Q);
      ("gpt-4", (0.03, 0.06)%Q);
      ("o1-preview", (0.015, 0.06)%Q);
      ("o1-mini", (0.003, 0.012)%Q);
      ("gpt-3.5-turbo", (0.0005, 0.0015)%Q);
      ("claude-3-haiku", (0.00025, 0.00125)%Q);
      ("claude-3-5-haiku", (0.0008, 0.004)%Q);
      ("claude-3-5-sonnet", (0.003, 0.015)%Q);
      ("claude-3-sonnet", (0.003, 0.015)%Q);
      ("claude-3-opus", (0.015, 0.075)%Q);
      ("claude-sonnet-4-5-20250929", (0.003, 0.015)%Q);
      ("claude-opus-4-5-20251101", (0.015, 0.075)%Q);
      ("azure-gpt-4o-mini", (0.00015, 0.0006)%Q);
      ("azure-gpt-4o", (0.0025, 0.01)%Q);
      ("azure-gpt-4", (0.03, 0.06)%Q);
      ("llama3.2", (0, 0)%Q);
      ("llama3", (0, 0)%Q);
      ("mistral", (0, 0)%Q);
      ("codellama", (0, 0)%Q);
      ("phi3", (0, 0)%Q);
      ("gemma", (0, 0)%Q) ].

Definition MODEL_COST_TIERS : gmap string CostTier :=
  list_to_map
    [ ("llama3.2", FREE); ("llama3", FREE); ("mistral", FREE);
      ("codellama", FREE); ("phi3", FREE); ("gemma", FREE);
      ("gpt-4o-mini", LOW); ("gpt-3.5-turbo", LOW); ("claude-3-haiku", LOW);
      ("claude-3-5-haiku", LOW); ("azure-gpt-4o-mini", LOW);
      ("gpt-4o", MEDIUM); ("claude-3-5-sonnet", MEDIUM);
      ("claude-3-sonnet", MEDIUM); ("claude-sonnet-4-5-20250929", MEDIUM);
      ("azure-gpt-4o", MEDIUM);
      ("gpt-4-turbo", HIGH); ("gpt-4", HIGH); ("claude-3-opus", HIGH);
      ("claude-opus-4-5-20251101", HIGH); ("azure-gpt-4", HIGH);
      ("o1-preview", PREMIUM); ("o1-mini", PREMIUM) ].

Record ProviderPolicy : Type := {
  provider : string;
  allowed_models : list string;
  denied_models : list string;
  max_tokens_per_request : Z;
  max_cost_per_request : Q;
  rate_limit_rpm : Z;
  rate_limit_tpm : Z;
  cost_tier_limit : option CostTier;
  require_reason : bool;
  enabled : bool
}.

(** The values of [Literal[...]] that the [provider] field accepts. *)
Definition provider_literals : list string :=
  ["openai"; "anthropic"; "azure_openai"; "ollama"; "bedrock"].

(** [ProviderPolicy(provider=provider)]: the field defaults; pydantic
    rejects a provider outside the literal values. *)
Definition ProviderPolicy_default (p : string) : outcome ProviderPolicy :=
  if str_in p provider_literals
  then Returns {| provider := p;
                  allowed_models := [];
                  denied_models := [];
                  max_tokens_per_request := 4096;
                  max_cost_per_request := 1;
                  rate_limit_rpm := 60;
                  rate_limit_tpm := 100000;
                  cost_tier_limit := None;
                  require_reason := false;
                  enabled := true |}
  else Raises (Exn ValidationError MsgInvalidProvider).

Record TenantPolicy : Type := {
  tenant_id : string;
  monthly_budget_usd : Q;
  daily_budget_usd : option Q;
  provider_policies : gmap string ProviderPolicy;
  default_provider : string;
  fallback_to_local : bool;
  track_usage : bool;
  alert_threshold_pct : Q
}.

Record UsageRecord : Type := {
  ur_timestamp : Z;
  ur_tenant_id : string;
  ur_provider : string;
  ur_model : string;
  ur_tokens_input : Z;
  ur_tokens_output : Z;
  ur_tokens_total : Z;
  ur_cost_usd : Q;
  ur_latency_ms : Q;
  ur_success : bool;
  ur_reason : option string
}.

(** One provider's entry of [_rate_limit_state]: the timestamps of the
    requests and the (timestamp, token_count) pairs. *)
Record RateWindow : Type := {
  requests : list Q;
  tokens : list (Q * Z)
}.

Record PolicyEnforcer : Type := {
  policy : TenantPolicy;
  usage_records : list UsageRecord;
  _monthly_spend : Q;
  _daily_spend : Q;
  _last_daily_reset : Z;
  _rate_limit_state : gmap string RateWindow
}.

(** The two clocks the enforcer reads: [datetime.utcnow()] in microseconds
    and [time.time()] in seconds. *)
Record clock : Type := { utcnow : Z; time_time : Q }.

(** [dt.date()] as a day number. *)
Definition date (dt : Z) : Z := (dt / 86400000000)%Z.

(** [PolicyEnforcer(policy)] *)
Definition PolicyEnforcer_init (pol : TenantPolicy) (clk : clock) : PolicyEnforcer :=
  {| policy := pol;
     usage_records := [];
     _monthly_spend := 0;
     _daily_spend := 0;
     _last_daily_reset := date (utcnow clk);
     _rate_limit_state := ∅ |}.

Definition set_spend (monthly daily : Q) (self : PolicyEnforcer) : PolicyEnforcer :=
  {| policy := policy self;
     usage_records := usage_records self;
     _monthly_spend := monthly;
     _daily_spend := daily;
     _last_daily_reset := _last_daily_reset self;
     _rate_limit_state := _rate_limit_state self |}.

Definition set_daily (daily : Q) (day : Z) (self : PolicyEnforcer) : PolicyEnforcer :=
  {| policy := policy self;
     usage_records := usage_records self;
     _monthly_spend := _monthly_spend self;
     _daily_spend := daily;
     _last_daily_reset := day;
     _rate_limit_state := _rate_limit_state self |}.

Definition set_rate_limit_state (st : gmap string RateWindow) (self : PolicyEnforcer)
  : PolicyEnforcer :=
  {| policy := policy self;
     usage_records := usage_records self;
     _monthly_spend := _monthly_spend self;
     _daily_spend := _daily_spend self;
     _last_daily_reset := _last_daily_reset self;
     _rate_limit_state := st |}.

Definition append_usage (r : UsageRecord) (self : PolicyEnforcer) : PolicyEnforcer :=
  {| policy := policy self;
     usage_records := usage_records self ++ [r];
     _monthly_spend := _monthly_spend self;
     _daily_spend := _daily_spend self;
     _last_daily_reset := _last_daily_reset self;
     _rate_limit_state := _rate_limit_state self |}.

(** [estimate_cost(model, tokens, input_ratio)].  The split
    [int(tokens * input_ratio)] is taken on the exact product, where the
    code truncates the rounded binary64 product: with the default ratio the
    two splits differ by one token for some counts (90 tokens: 62 input
    tokens in the code, 63 here).  What is proved about the estimate uses
    only that the input share lies between 0 and the token count. *)
Definition estimate_cost (model : string) (toks : Z) (input_ratio : Q) : Q :=
  match MODEL_COSTS !! model with
  | None => 0
  | Some (input_cost, output_cost) =>
      let input_tokens := int_of_float (inject_Z toks * input_ratio) in
      let output_tokens := (toks - input_tokens)%Z in
      (inject_Z input_tokens * input_cost + inject_Z output_tokens * output_cost)
        / 1000
  end%Q.

(** The default of the [input_ratio] argument. *)
Definition default_input_ratio : Q := 0.7.

(** [tier_order.index(t)] *)
Definition tier_order : list CostTier := [FREE; LOW; MEDIUM; HIGH; PREMIUM].

Fixpoint list_index (t : CostTier) (l : list CostTier) : nat :=
  match l with
  | [] => 0
  | x :: l' => if decide (x = t) then 0 else S (list_index t l')
  end.

Definition _tier_exceeds_limit (model_tier limit_tier : CostTier) : bool :=
  (list_index limit_tier tier_order <? list_index model_tier tier_order)%nat.

(** [reset_monthly_budget()] *)
Definition reset_monthly_budget : M PolicyEnforcer unit :=
  modify (fun self => set_spend 0 (_daily_spend self) self).

(** [_reset_daily_budget_if_needed()] *)
Definition _reset_daily_budget_if_needed (clk : clock) : M PolicyEnforcer unit :=
  (self <- get ;;
   let current_date := date (utcnow clk) in
   if (_last_daily_reset self <? current_date)%Z
   then put (set_daily 0 current_date self)
   else ret tt)%py.

Definition empty_window : RateWindow := {| requests := []; tokens := [] |}.

(** [self._rate_limit_state[provider]] once the entry exists. *)
Definition window_of (self : PolicyEnforcer) (prov : string) : RateWindow :=
  default empty_window (_rate_limit_state self !! prov).

Definition set_window (prov : string) (w : RateWindow) (self : PolicyEnforcer)
  : PolicyEnforcer :=
  set_rate_limit_state (<[prov := w]> (_rate_limit_state self)) self.

(** The two list comprehensions that drop the entries older than a minute. *)
Definition prune (minute_ago : Q) (w : RateWindow) : RateWindow :=
  {| requests := List.filter (fun t => Qgtb t minute_ago) (requests w);
     tokens := List.filter (fun e => Qgtb (fst e) minute_ago) (tokens w) |}.

(** The two [append] calls that record the request. *)
Definition record_request (now : Q) (toks : Z) (w : RateWindow) : RateWindow :=
  {| requests := requests w ++ [now];
     tokens := tokens w ++ [(now, toks)] |}.

(** [_check_rate_limits(provider, policy, tokens)] *)
Definition _check_rate_limits (prov : string) (pol : ProviderPolicy) (toks : Z)
    (clk : clock) : M PolicyEnforcer unit :=
  (modify (fun self =>
     match _rate_limit_state self !! prov with
     | Some _ => self
     | None => set_window prov empty_window self
     end) ;;;
   let now := time_time clk in
   let minute_ago := (now - 60)%Q in
   (* Clean old entries *)
   modify (fun self => set_window prov (prune minute_ago (window_of self prov)) self) ;;;
   self <- get ;;
   let state := window_of self prov in
   (* Check RPM limit *)
   raise_if ((0 <? rate_limit_rpm pol)%Z
             && (rate_limit_rpm pol <=? len (requests state))%Z)
            RateLimitExceededError MsgRateLimitRpm ;;;
   (* Check TPM limit *)
   let tokens_in_window := sumZ (map snd (tokens state)) in
   raise_if ((0 <? rate_limit_tpm pol)%Z
             && (rate_limit_tpm pol <? tokens_in_window + toks)%Z)
            RateLimitExceededError MsgRateLimitTpm ;;;
   (* Record this request *)
   modify (fun self => set_window prov (record_request now toks (window_of self prov)) self))%py.

(** The budget test shared by the daily and the monthly check: which
    exception the branch raises. *)
Definition budget_exceeded (fallback : bool) (msg_fallback msg_hard : message)
  : M PolicyEnforcer unit :=
  if fallback
  then raise FallbackToLocalError msg_fallback
  else raise BudgetExceededError msg_hard.

(** [validate_request(provider, model, estimated_tokens, reason)] *)
Definition validate_request (prov model : string) (estimated_tokens : Z)
    (reason : option string) (clk : clock) : M PolicyEnforcer unit :=
  (self <- get ;;
   (* Get provider policy (or create default); the default is built first *)
   match ProviderPolicy_default prov with
   | Raises e => fun s => (s, Raises e)
   | Returns dflt =>
     let provider_policy := default dflt (provider_policies (policy self) !! prov) in
     (* Check if provider is enabled *)
     raise_if (negb (enabled provider_policy))
              ProviderDisabledError MsgProviderDisabled ;;;
     (* Check model allowed *)
     raise_if (nonempty (denied_models provider_policy)
               && str_in model (denied_models provider_policy))
              PolicyViolationError MsgModelDenied ;;;
     raise_if (nonempty (allowed_models provider_policy)
               && negb (str_in model (allowed_models provider_policy)))
              PolicyViolationError MsgModelNotAllowed ;;;
     (* Check cost tier limit *)
     raise_if (match cost_tier_limit provider_policy with
               | Some limit =>
                   match MODEL_COST_TIERS !! model with
                   | Some model_tier => _tier_exceeds_limit model_tier limit
                   | None => false
                   end
               | None => false
               end)
              PolicyViolationError MsgTierExceedsLimit ;;;
     (* Check token limit *)
     raise_if (max_tokens_per_request provider_policy <? estimated_tokens)%Z
              PolicyViolationError MsgTokensExceedLimit ;;;
     (* Check cost limit *)
     let estimated_cost := estimate_cost model estimated_tokens default_input_ratio in
     raise_if (Qgtb (max_cost_per_request provider_policy) 0
               && Qgtb estimated_cost (max_cost_per_request provider_policy))
              PolicyViolationError MsgCostExceedsLimit ;;;
     (* Check daily budget *)
     _reset_daily_budget_if_needed clk ;;;
     self <- get ;;
     (match daily_budget_usd (policy self) with
      | Some daily =>
          if negb (Qeq_bool daily 0)
             && Qgtb (_daily_spend self + estimated_cost)%Q daily
          then budget_exceeded (fallback_to_local (policy self))
                               MsgDailyBudgetFallback MsgDailyBudget
          else ret tt
      | None => ret tt
      end) ;;;
     (* Check monthly budget *)
     (if Qgtb (_monthly_spend self + estimated_cost)%Q (monthly_budget_usd (policy self))
      then budget_exceeded (fallback_to_local (policy self))
                           MsgMonthlyBudgetFallback MsgMonthlyBudget
      else ret tt) ;;;
     (* Check rate limits *)
     _check_rate_limits prov provider_policy estimated_tokens clk ;;;
     (* Check reason required *)
     raise_if (require_reason provider_policy && negb (str_truthy reason))
              PolicyViolationError MsgReasonRequired
   end)%py.

(** [record_usage(...)]; the alert-threshold test at its end has an empty
    body and is left out.  The two spends are accumulated exactly, where the
    code rounds each addition to binary64. *)
Definition record_usage (prov model : string) (tokens_input tokens_output : Z)
    (cost_usd latency_ms : Q) (success : bool) (reason : option string)
    (clk : clock) : M PolicyEnforcer unit :=
  (self <- get ;;
   if negb (track_usage (policy self)) then ret tt
   else
     let record :=
       {| ur_timestamp := utcnow clk;
          ur_tenant_id := tenant_id (policy self);
          ur_provider := prov;
          ur_model := model;
          ur_tokens_input := tokens_input;
          ur_tokens_output := tokens_output;
          ur_tokens_total := (tokens_input + tokens_output)%Z;
          ur_cost_usd := cost_usd;
          ur_latency_ms := latency_ms;
          ur_success := success;
          ur_reason := reason |} in
     modify (append_usage record) ;;;
     modify (fun self => set_spend (_monthly_spend self + cost_usd)%Q
                                   (_daily_spend self + cost_usd)%Q self))%py.

(** [get_model_pricing(provider, model)] *)
Fixpoint lookup_prefixed (prefixes : list string) (model : string) : option (Q * Q) :=
  match prefixes with
  | [] => None
  | prefix :: rest =>
      match MODEL_COSTS !! (prefix ++ model)%string with
      | Some c => Some c
      | None => lookup_prefixed rest model
      end
  end.

Definition pricing_prefixes : list string := ["azure-"; "claude-"; "gpt-"].

Definition get_model_pricing (prov model : string) : option (Q * Q) :=
  let provider_lower := lower prov in
  match MODEL_COSTS !! model with
  | Some c => Some c
  | None =>
      match lookup_prefixed pricing_prefixes model with
      | Some c => Some c
      | None =>
          if str_in provider_lower ["ollama"; "local"]
          then Some (0, 0)%Q
          else None
      end
  end.

(** The report of [get_usage_report]. *)
Record ProviderStats : Type := {
  ps_requests : Z;
  ps_cost_usd : Q;
  ps_tokens : Z;
  ps_avg_latency_ms : Q;
  ps_success_rate : Q
}.

Record ModelStats : Type := {
  ms_requests : Z;
  ms_cost_usd : Q;
  ms_tokens : Z;
  ms_avg_latency_ms : Q
}.

Record UsageReport : Type := {
  rep_tenant_id : string;
  rep_period_days : Z;
  rep_total_requests : Z;
  rep_total_cost_usd : Q;
  rep_total_tokens : Z;
  rep_by_provider : gmap string ProviderStats;
  rep_by_model : gmap string ModelStats;
  (* the last two keys are absent from the report of an empty window *)
  rep_budget_remaining_usd : option Q;
  rep_budget_used_pct : option Q
}.

Definition add_provider (by_provider : gmap string ProviderStats) (r : UsageRecord)
  : gmap string ProviderStats :=
  let cur := default {| ps_requests := 0; ps_cost_usd := 0; ps_tokens := 0;
                        ps_avg_latency_ms := 0; ps_success_rate := 0 |}
                     (by_provider !! ur_provider r) in
  <[ur_provider r :=
      {| ps_requests := ps_requests cur + 1;
         ps_cost_usd := (ps_cost_usd cur + ur_cost_usd r)%Q;
         ps_tokens := ps_tokens cur + ur_tokens_total r;
         ps_avg_latency_ms := ps_avg_latency_ms cur;
         ps_success_rate := ps_success_rate cur |}]> by_provider.

Definition add_model (by_model : gmap string ModelStats) (r : UsageRecord)
  : gmap string ModelStats :=
  let cur := default {| ms_requests := 0; ms_cost_usd := 0; ms_tokens := 0;
                        ms_avg_latency_ms := 0 |}
                     (by_model !! ur_model r) in
  <[ur_model r :=
      {| ms_requests := ms_requests cur + 1;
         ms_cost_usd := (ms_cost_usd cur + ur_cost_usd r)%Q;
         ms_tokens := ms_tokens cur + ur_tokens_total r;
         ms_avg_latency_ms := ms_avg_latency_ms cur |}]> by_model.

(** [get_usage_report(days)]; it reads the enforcer and assigns nothing. *)
Definition get_usage_report (days : Z) (clk : clock) : M PolicyEnforcer UsageReport :=
  (self <- get ;;
   delta <- lift (timedelta (days * 86400000000)) ;;
   cutoff <- lift (datetime_sub (utcnow clk) delta) ;;
   let recent_records :=
     List.filter (fun r => (cutoff <=? ur_timestamp r)%Z) (usage_records self) in
   match recent_records with
   | [] =>
       ret {| rep_tenant_id := tenant_id (policy self);
              rep_period_days := days;
              rep_total_requests := 0;
              rep_total_cost_usd := 0;
              rep_total_tokens := 0;
              rep_by_provider := ∅;
              rep_by_model := ∅;
              rep_budget_remaining_usd := None;
              rep_budget_used_pct := None |}
   | _ =>
       let by_provider := fold_left add_provider recent_records ∅ in
       let by_model := fold_left add_model recent_records ∅ in
       let n := inject_Z (len recent_records) in
       let avg_all := (sumQ (map ur_latency_ms recent_records) / n)%Q in
       let successes := len (List.filter ur_success recent_records) in
       let by_provider :=
         (fun st => {| ps_requests := ps_requests st;
                       ps_cost_usd := ps_cost_usd st;
                       ps_tokens := ps_tokens st;
                       ps_avg_latency_ms := avg_all;
                       ps_success_rate := (inject_Z successes / n * 100)%Q |})
           <$> by_provider in
       let by_model :=
         map_imap (fun model st =>
           let model_records :=
             List.filter (fun r => String.eqb (ur_model r) model) recent_records in
           Some {| ms_requests := ms_requests st;
                   ms_cost_usd := ms_cost_usd st;
                   ms_tokens := ms_tokens st;
                   ms_avg_latency_ms :=
                     (sumQ (map ur_latency_ms model_records)
                      / inject_Z (len model_records))%Q |}) by_model in
       let remaining := (monthly_budget_usd (policy self) - _monthly_spend self)%Q in
       ret {| rep_tenant_id := tenant_id (policy self);
              rep_period_days := days;
              rep_total_requests := len recent_records;
              rep_total_cost_usd := sumQ (map ur_cost_usd recent_records);
              rep_total_tokens := sumZ (map ur_tokens_total recent_records);
              rep_by_provider := by_provider;
              rep_by_model := by_model;
              rep_budget_remaining_usd :=
                Some (if Qgtb remaining 0 then remaining else 0%Q);
              rep_budget_used_pct :=
                Some (if Qgtb (monthly_budget_usd (policy self)) 0
                      then (_monthly_spend self / monthly_budget_usd (policy self) * 100)%Q
                      else 0%Q) |}
   end)%py.

(** The public operations of an enforcer, with their arguments and the
    clock reading each one sees. *)
Inductive operation : Type :=
| OpValidateRequest (prov model : string) (estimated_tokens : Z)
                    (reason : option string) (clk : clock)
| OpEstimateCost (model : string) (toks : Z) (input_ratio : Q)
| OpRecordUsage (prov model : string) (tokens_input tokens_output : Z)
                (cost_usd latency_ms : Q) (success : bool)
                (reason : option string) (clk : clock)
| OpGetUsageReport (days : Z) (clk : clock)
| OpResetMonthlyBudget.

(** The enforcer after one operation (whether it returned or raised). *)
Definition run (self : PolicyEnforcer) (op : operation) : PolicyEnforcer :=
  match op with
  | OpValidateRequest prov model toks reason clk =>
      fst (validate_request prov model toks reason clk self)
  | OpEstimateCost _ _ _ => self
  | OpRecordUsage prov model ti to_ cost lat ok reason clk =>
      fst (record_usage prov model ti to_ cost lat ok reason clk self)
  | OpGetUsageReport days clk => fst (get_usage_report days clk self)
  | OpResetMonthlyBudget => fst (reset_monthly_budget self)
  end.

Definition run_all (self : PolicyEnforcer) (ops : list operation) : PolicyEnforcer :=
  fold_left run ops self.

End Policies.

(* ===================================================================== *)
(** ** telemetry.py *)
(* ===================================================================== *)

Module Telemetry.

Record LLMRequestMetrics : Type := {
  request_id : string;
  tenant_id : string;
  provider : string;
  model : string;
  user_id : option string;
  input_tokens : Z;
  output_tokens : Z;
  total_tokens : Z;
  latency_ms : Q;
  time_to_first_token_ms : option Q;
  cost_usd : Q;
  timestamp : Z;
  success : bool;
  error_type : option string;
  error_message : option string;
  endpoint : option string;
  streaming : bool;
  cached : bool
}.

(** [metrics.cost_usd = c] *)
Definition set_cost_usd (c : Q) (m : LLMRequestMetrics) : LLMRequestMetrics :=
  {| request_id := request_id m; tenant_id := tenant_id m;
     provider := provider m; model := model m; user_id := user_id m;
     input_tokens := input_tokens m; output_tokens := output_tokens m;
     total_tokens := total_tokens m; latency_ms := latency_ms m;
     time_to_first_token_ms := time_to_first_token_ms m;
     cost_usd := c;
     timestamp := timestamp m; success := success m;
     error_type := error_type m; error_message := error_message m;
     endpoint := endpoint m; streaming := streaming m; cached := cached m |}.

(** One entry of the [by_provider] and [by_model] breakdowns. *)
Record Breakdown : Type := {
  bd_requests : Z;
  bd_cost : Q;
  bd_tokens : Z
}.

Record AggregatedMetrics : Type := {
  period_start : Z;
  period_end : Z;
  agg_tenant_id : option string;
  total_requests : Z;
  successful_requests : Z;
  failed_requests : Z;
  cached_requests : Z;
  total_input_tokens : Z;
  total_output_tokens : Z;
  total_cost_usd : Q;
  latency_p50 : Q;
  latency_p95 : Q;
  latency_p99 : Q;
  latency_avg : Q;
  by_provider : gmap string Breakdown;
  by_model : gmap string Breakdown;
  errors_by_type : gmap string Z
}.

(** The collector.  The export callback and the log line run after the
    history has been updated, outside the lock; [record] below is the part
    of the method up to there, and [Exporting.record_and_export] the whole
    method. *)
Record TelemetryCollector : Type := {
  max_history : Z;
  _metrics : list LLMRequestMetrics;
  _by_tenant : gmap string (list LLMRequestMetrics)
}.

(** [TelemetryCollector(max_history=n)] *)
Definition TelemetryCollector_init (n : Z) : TelemetryCollector :=
  {| max_history := n; _metrics := []; _by_tenant := ∅ |}.

(** [_calculate_cost(provider, model, input_tokens, output_tokens)] *)
Definition _calculate_cost (prov mdl : string) (input_toks output_toks : Z) : Q :=
  match Policies.get_model_pricing prov mdl with
  | None => 0
  | Some (input_rate, output_rate) =>
      (inject_Z input_toks * input_rate + inject_Z output_toks * output_rate) / 1000
  end%Q.

(** The first statement of [record]: calculate cost if not set. *)
Definition with_cost (metrics : LLMRequestMetrics) : LLMRequestMetrics :=
  if Qeq_bool (cost_usd metrics) 0 && (0 <? total_tokens metrics)%Z
  then set_cost_usd (_calculate_cost (provider metrics) (model metrics)
                                     (input_tokens metrics) (output_tokens metrics))
                    metrics
  else metrics.

(** [self._by_tenant[t]] on a defaultdict(list): the value, and the
    dictionary with the key created when it was missing. *)
Definition tenant_list (by_tenant : gmap string (list LLMRequestMetrics)) (t : string)
  : list LLMRequestMetrics :=
  default [] (by_tenant !! t).

Definition touch (t : string) (by_tenant : gmap string (list LLMRequestMetrics))
  : gmap string (list LLMRequestMetrics) :=
  match by_tenant !! t with
  | Some _ => by_tenant
  | None => <[t := []]> by_tenant
  end.

(** The two [append] calls. *)
Definition store (metrics : LLMRequestMetrics) (self : TelemetryCollector)
  : TelemetryCollector :=
  {| max_history := max_history self;
     _metrics := _metrics self ++ [metrics];
     _by_tenant := <[tenant_id metrics :=
                       tenant_list (_by_tenant self) (tenant_id metrics) ++ [metrics]]>
                     (_by_tenant self) |}.

(** The body of [if len(self._metrics) > self.max_history]. *)
Definition trim : M TelemetryCollector unit :=
  (self <- get ;;
   match _metrics self with
   | [] => raise IndexError MsgListIndex            (* pop from empty list *)
   | removed :: rest =>
       let by_tenant := touch (tenant_id removed) (_by_tenant self) in
       let by_tenant :=
         match tenant_list by_tenant (tenant_id removed) with
         | first :: others =>
             if String.eqb (request_id first) (request_id removed)
             then <[tenant_id removed := others]> by_tenant
             else by_tenant
         | [] => by_tenant
         end in
       put {| max_history := max_history self;
              _metrics := rest;
              _by_tenant := by_tenant |}
   end)%py.

(** The entries of one tenant, in history order; the index is consistent
    with the history when every tenant's list is exactly that. *)
Definition of_tenant (t : string) (ms : list LLMRequestMetrics)
  : list LLMRequestMetrics :=
  List.filter (fun m => String.eqb (tenant_id m) t) ms.

Definition indexed (self : TelemetryCollector) : Prop :=
  forall t, tenant_list (_by_tenant self) t = of_tenant t (_metrics self).

(** [record(metrics)] *)
Definition record (metrics : LLMRequestMetrics) : M TelemetryCollector unit :=
  (let metrics := with_cost metrics in
   modify (store metrics) ;;;
   self <- get ;;
   if (max_history self <? len (_metrics self))%Z then trim else ret tt)%py.

(** The collector after one [record] call and after a run of them. *)
Definition after_record (self : TelemetryCollector) (metrics : LLMRequestMetrics)
  : TelemetryCollector :=
  fst (record metrics self).

Definition after_records (self : TelemetryCollector) (ms : list LLMRequestMetrics)
  : TelemetryCollector :=
  fold_left after_record ms self.

(** [_percentile(values, p)] of a sorted list. *)
Definition item (values : list Q) (i : Z) : outcome Q :=
  match index values i with
  | Some v => Returns v
  | None => Raises (Exn IndexError MsgListIndex)
  end.

Definition _percentile (values : list Q) (p : Z) : outcome Q :=
  match values with
  | [] => Returns 0%Q
  | _ =>
      (* Calculate index (0-based) *)
      let idx := (inject_Z ((len values - 1) * p) / 100)%Q in
      if is_integer idx
      then item values (int_of_float idx)
      else
        let lower_idx := int_of_float idx in
        let upper_idx := Z.min (lower_idx + 1) (len values - 1) in
        let fraction := (idx - inject_Z lower_idx)%Q in
        match item values lower_idx with
        | Raises e => Raises e
        | Returns lo =>
            match item values upper_idx with
            | Raises e => Raises e
            | Returns hi =>
                match item values lower_idx with
                | Raises e => Raises e
                | Returns lo' => Returns (lo + (hi - lo') * fraction)%Q
                end
            end
        end
  end.

(** [_parse_period(period)] *)
Definition _parse_period (period : string) : outcome Z :=
  match split_last period with
  | None => Raises (Exn ValueError MsgPeriodEmpty)
  | Some (digits, unit) =>
      match int_of_str digits with
      | None => Raises (Exn ValueError MsgPeriodFormat)
      | Some value =>
          if Ascii.eqb unit "h" then timedelta (value * 3600000000)
          else if Ascii.eqb unit "d" then timedelta (value * 86400000000)
          else if Ascii.eqb unit "m" then timedelta (value * 60000000)
          else Raises (Exn ValueError MsgPeriodUnit)
      end
  end.

Definition add_breakdown (key : LLMRequestMetrics -> string)
    (acc : gmap string Breakdown) (m : LLMRequestMetrics) : gmap string Breakdown :=
  let cur := default {| bd_requests := 0; bd_cost := 0; bd_tokens := 0 |}
                     (acc !! key m) in
  <[key m := {| bd_requests := bd_requests cur + 1;
                bd_cost := (bd_cost cur + cost_usd m)%Q;
                bd_tokens := bd_tokens cur + total_tokens m |}]> acc.

Definition add_error (acc : gmap string Z) (m : LLMRequestMetrics) : gmap string Z :=
  if negb (success m) && str_truthy (error_type m)
  then let k := default "" (error_type m) in
       <[k := (default 0 (acc !! k) + 1)%Z]> acc
  else acc.

(** The list the locked block reads: the tenant's list of the index when a
    tenant is given, the whole history otherwise. *)
Definition history_for (self : TelemetryCollector) (tenant : option string)
  : list LLMRequestMetrics :=
  if str_truthy tenant
  then default [] (_by_tenant self !! default "" tenant)
  else _metrics self.

(** The entries of that list inside the window. *)
Definition select (self : TelemetryCollector) (tenant : option string) (cutoff : Z)
  : list LLMRequestMetrics :=
  List.filter (fun m => (cutoff <=? timestamp m)%Z) (history_for self tenant).

(** The aggregates of a non-empty selection. *)
Definition aggregate (cutoff now : Z) (tenant : option string)
    (metrics : list LLMRequestMetrics) : outcome AggregatedMetrics :=
  let latencies := sorted (map latency_ms metrics) in
  let by_provider := fold_left (add_breakdown provider) metrics ∅ in
  let by_model := fold_left (add_breakdown model) metrics ∅ in
  let errors_by_type := fold_left add_error metrics ∅ in
  match _percentile latencies 50 with
  | Raises e => Raises e
  | Returns p50 =>
      match _percentile latencies 95 with
      | Raises e => Raises e
      | Returns p95 =>
          match _percentile latencies 99 with
          | Raises e => Raises e
          | Returns p99 =>
              Returns
                {| period_start := cutoff;
                   period_end := now;
                   agg_tenant_id := tenant;
                   total_requests := len metrics;
                   successful_requests := len (List.filter success metrics);
                   failed_requests :=
                     len (List.filter (fun m => negb (success m)) metrics);
                   cached_requests := len (List.filter cached metrics);
                   total_input_tokens := sumZ (map input_tokens metrics);
                   total_output_tokens := sumZ (map output_tokens metrics);
                   total_cost_usd := sumQ (map cost_usd metrics);
                   latency_p50 := p50;
                   latency_p95 := p95;
                   latency_p99 := p99;
                   latency_avg :=
                     match latencies with
                     | [] => 0%Q
                     | _ => (sumQ latencies / inject_Z (len latencies))%Q
                     end;
                   by_provider := by_provider;
                   by_model := by_model;
                   errors_by_type := errors_by_type |}
          end
      end
  end.

(** The value [get_stats] returns for a selection. *)
Definition stats (cutoff now : Z) (tenant : option string)
    (metrics : list LLMRequestMetrics) : outcome AggregatedMetrics :=
  match metrics with
  | [] =>
      Returns {| period_start := cutoff;
                 period_end := now;
                 agg_tenant_id := tenant;
                 total_requests := 0;
                 successful_requests := 0;
                 failed_requests := 0;
                 cached_requests := 0;
                 total_input_tokens := 0;
                 total_output_tokens := 0;
                 total_cost_usd := 0;
                 latency_p50 := 0;
                 latency_p95 := 0;
                 latency_p99 := 0;
                 latency_avg := 0;
                 by_provider := ∅;
                 by_model := ∅;
                 errors_by_type := ∅ |}
  | _ => aggregate cutoff now tenant metrics
  end.

(** [get_stats(period, tenant_id)] at the clock reading [now]. *)
Definition get_stats (period : string) (tenant : option string) (now : Z)
  : M TelemetryCollector AggregatedMetrics :=
  (period_delta <- lift (_parse_period period) ;;
   cutoff <- lift (datetime_sub now period_delta) ;;
   self <- get ;;
   let metrics := select self tenant cutoff in
   lift (stats cutoff now tenant metrics))%py.

(** [a] with its two period fields replaced. *)
Definition with_period (start stop : Z) (a : AggregatedMetrics) : AggregatedMetrics :=
  {| period_start := start;
     period_end := stop;
     agg_tenant_id := agg_tenant_id a;
     total_requests := total_requests a;
     successful_requests := successful_requests a;
     failed_requests := failed_requests a;
     cached_requests := cached_requests a;
     total_input_tokens := total_input_tokens a;
     total_output_tokens := total_output_tokens a;
     total_cost_usd := total_cost_usd a;
     latency_p50 := latency_p50 a;
     latency_p95 := latency_p95 a;
     latency_p99 := latency_p99 a;
     latency_avg := latency_avg a;
     by_provider := by_provider a;
     by_model := by_model a;
     errors_by_type := errors_by_type a |}.

(** The percentile as the specification words it: the value at index
    [(n-1)*p/100] when that index is a whole number, and otherwise the
    linear interpolation between the values at its floor and its ceiling. *)
Definition percentile_by_interpolation (values : list Q) (p : Z) : Q :=
  let n := Z.of_nat (length values) in
  let idx := (inject_Z ((n - 1) * p) / 100)%Q in
  let value_at i := nth (Z.to_nat i) values 0%Q in
  if Qeq_bool (inject_Z (Qfloor idx)) idx
  then value_at (Qfloor idx)
  else (value_at (Qfloor idx)
        + (value_at (Qceiling idx) - value_at (Qfloor idx))
          * (idx - inject_Z (Qfloor idx)))%Q.

(** The invariant of a collector built with [max_history = n]. *)
Definition history_ok (n : Z) (self : TelemetryCollector) : Prop :=
  max_history self = n /\ (len (_metrics self) <= n)%Z /\ indexed self.

End Telemetry.

Module TelemetryScenarios.
Import Telemetry.

(** 2025-12-01 00:00:00 UTC in microseconds. *)
Definition now0 : Z := 1764547200000000.

(** [LLMRequestMetrics(request_id=id, tenant_id=t, provider="openai",
    model=mdl, input_tokens=i, output_tokens=o, total_tokens=i+o,
    latency_ms=lat)] made at [now0]. *)
Definition sample (id t mdl : string) (i o : Z) (lat : Q) : LLMRequestMetrics :=
  {| request_id := id; tenant_id := t; provider := "openai"; model := mdl;
     user_id := None; input_tokens := i; output_tokens := o;
     total_tokens := i + o; latency_ms := lat; time_to_first_token_ms := None;
     cost_usd := 0; timestamp := now0; success := true; error_type := None;
     error_message := None; endpoint := None; streaming := false;
     cached := false |}.

(** test_get_stats_latency_percentiles: ten requests with latencies
    100, 200, ..., 1000. *)
Definition ten_latencies : list Q := map inject_Z [100; 200; 300; 400; 500; 600; 700; 800; 900; 1000]%Z.

Definition ten_requests : TelemetryCollector :=
  after_records (TelemetryCollector_init 10000)
    (map (fun lat =>
            {| request_id := "req"; tenant_id := "tenant-123"; provider := "openai";
               model := "gpt-4o"; user_id := None; input_tokens := 100;
               output_tokens := 50; total_tokens := 0; latency_ms := lat;
               time_to_first_token_ms := None; cost_usd := 0; timestamp := now0;
               success := true; error_type := None; error_message := None;
               endpoint := None; streaming := false; cached := false |})
         ten_latencies).

End TelemetryScenarios.

(* ===================================================================== *)
(** ** The rules of [validate_request], one by one

    Each rule is stated on its own, as a test on the enforcer the call
    starts from; [validate_request] is then compared with the first rule of
    the list that fails. *)
(* ===================================================================== *)

Module PolicyRules.
Import Policies.

Inductive rule : Type :=
| ProviderEnabled
| ModelNotDenied
| ModelAllowed
| CostTierLimit
| TokenCeiling
| CostCeiling
| DailyBudget
| MonthlyBudget
| RateLimits
| ReasonRequired.

#[global] Instance rule_eq_dec : EqDecision rule.
Proof. solve_decision. Defined.

Definition rules_in_order : list rule :=
  [ ProviderEnabled; ModelNotDenied; ModelAllowed; CostTierLimit; TokenCeiling;
    CostCeiling; DailyBudget; MonthlyBudget; RateLimits; ReasonRequired ].

Record request : Type := {
  rq_provider : string;
  rq_model : string;
  rq_estimated_tokens : Z;
  rq_reason : option string;
  rq_clock : clock
}.

(** The call [validate_request(...)] for a request. *)
Definition validate (rq : request) : M PolicyEnforcer unit :=
  validate_request (rq_provider rq) (rq_model rq) (rq_estimated_tokens rq)
                   (rq_reason rq) (rq_clock rq).

Definition estimated_cost (rq : request) : Q :=
  estimate_cost (rq_model rq) (rq_estimated_tokens rq) default_input_ratio.

(** The daily spend the budget rule sees: zero once the date has moved
    past the last reset. *)
Definition daily_spend_at (self : PolicyEnforcer) (clk : clock) : Q :=
  if (_last_daily_reset self <? date (utcnow clk))%Z then 0%Q else _daily_spend self.

(** The provider's window restricted to the trailing 60 seconds. *)
Definition window_at (self : PolicyEnforcer) (prov : string) (clk : clock) : RateWindow :=
  prune (time_time clk - 60)%Q (window_of self prov).

Definition budget_error (self : PolicyEnforcer) (msg_fallback msg_hard : message) : exn :=
  if fallback_to_local (policy self)
  then Exn FallbackToLocalError msg_fallback
  else Exn BudgetExceededError msg_hard.

(** [violation r pol rq self]: the exception rule [r] raises for request
    [rq] under the provider policy [pol], or [None] when the rule passes. *)
Definition violation (r : rule) (pol : ProviderPolicy) (rq : request)
    (self : PolicyEnforcer) : option exn :=
  match r with
  | ProviderEnabled =>
      if enabled pol then None
      else Some (Exn ProviderDisabledError MsgProviderDisabled)
  | ModelNotDenied =>
      if str_in (rq_model rq) (denied_models pol)
      then Some (Exn PolicyViolationError MsgModelDenied) else None
  | ModelAllowed =>
      match allowed_models pol with
      | [] => None
      | allowed =>
          if str_in (rq_model rq) allowed then None
          else Some (Exn PolicyViolationError MsgModelNotAllowed)
      end
  | CostTierLimit =>
      match cost_tier_limit pol, MODEL_COST_TIERS !! rq_model rq with
      | Some limit, Some tier =>
          if _tier_exceeds_limit tier limit
          then Some (Exn PolicyViolationError MsgTierExceedsLimit) else None
      | _, _ => None
      end
  | TokenCeiling =>
      if (max_tokens_per_request pol <? rq_estimated_tokens rq)%Z
      then Some (Exn PolicyViolationError MsgTokensExceedLimit) else None
  | CostCeiling =>
      if Qgtb (max_cost_per_request pol) 0
         && Qgtb (estimated_cost rq) (max_cost_per_request pol)
      then Some (Exn PolicyViolationError MsgCostExceedsLimit) else None
  | DailyBudget =>
      match daily_budget_usd (policy self) with
      | Some daily =>
          if negb (Qeq_bool daily 0)
             && Qgtb (daily_spend_at self (rq_clock rq) + estimated_cost rq)%Q daily
          then Some (budget_error self MsgDailyBudgetFallback MsgDailyBudget)
          else None
      | None => None
      end
  | MonthlyBudget =>
      if Qgtb (_monthly_spend self + estimated_cost rq)%Q
              (monthly_budget_usd (policy self))
      then Some (budget_error self MsgMonthlyBudgetFallback MsgMonthlyBudget)
      else None
  | RateLimits =>
      let w := window_at self (rq_provider rq) (rq_clock rq) in
      if (0 <? rate_limit_rpm pol)%Z && (rate_limit_rpm pol <=? len (requests w))%Z
      then Some (Exn RateLimitExceededError MsgRateLimitRpm)
      else if (0 <? rate_limit_tpm pol)%Z
              && (rate_limit_tpm pol <? sumZ (map snd (tokens w)) + rq_estimated_tokens rq)%Z
      then Some (Exn RateLimitExceededError MsgRateLimitTpm)
      else None
  | ReasonRequired =>
      if require_reason pol && negb (str_truthy (rq_reason rq))
      then Some (Exn PolicyViolationError MsgReasonRequired) else None
  end.

(** The rules as the specification words them.  They are the tests above,
    except for the daily budget: the specification applies that rule
    whenever a daily budget is set, where the code tests the budget for
    truth and so takes a budget of 0.0 for none. *)
Definition specified_violation (r : rule) (pol : ProviderPolicy) (rq : request)
    (self : PolicyEnforcer) : option exn :=
  match r with
  | DailyBudget =>
      match daily_budget_usd (policy self) with
      | Some daily =>
          if Qgtb (daily_spend_at self (rq_clock rq) + estimated_cost rq)%Q daily
          then Some (budget_error self MsgDailyBudgetFallback MsgDailyBudget)
          else None
      | None => None
      end
  | _ => violation r pol rq self
  end.

(** The tenant has no daily budget, or one that is not 0.0. *)
Definition daily_budget_enforced (self : PolicyEnforcer) : Prop :=
  match daily_budget_usd (policy self) with
  | Some daily => ~ (daily == 0)%Q
  | None => True
  end.

(** The first rule of [rs] that fails, with its exception. *)
Fixpoint first_violation (rs : list rule) (pol : ProviderPolicy) (rq : request)
    (self : PolicyEnforcer) : option (rule * exn) :=
  match rs with
  | [] => None
  | r :: rs' =>
      match violation r pol rq self with
      | Some e => Some (r, e)
      | None => first_violation rs' pol rq self
      end
  end.

(** Position of a rule in the order above. *)
Definition position (r : rule) : nat :=
  match r with
  | ProviderEnabled => 0 | ModelNotDenied => 1 | ModelAllowed => 2
  | CostTierLimit => 3 | TokenCeiling => 4 | CostCeiling => 5
  | DailyBudget => 6 | MonthlyBudget => 7 | RateLimits => 8
  | ReasonRequired => 9
  end.

(** [reached stop r]: rule [r] is evaluated when the call stops at rule
    [stop] ([None]: no rule fails).  [passed stop r]: it is evaluated and
    passes. *)
Definition reached (stop : option rule) (r : rule) : bool :=
  match stop with
  | None => true
  | Some k => (position r <=? position k)%nat
  end.

Definition passed (stop : option rule) (r : rule) : bool :=
  match stop with
  | None => true
  | Some k => (position r <? position k)%nat
  end.

(** What the rules that were evaluated leave in the enforcer: the daily
    rule resets the daily spend on a new date, the rate-limit rule prunes
    the provider's window and, when it passes, records the request. *)
Definition state_after (stop : option rule) (rq : request) (self : PolicyEnforcer)
  : PolicyEnforcer :=
  let s1 := if reached stop DailyBudget
            then fst (_reset_daily_budget_if_needed (rq_clock rq) self)
            else self in
  let s2 := if reached stop RateLimits
            then set_window (rq_provider rq)
                            (window_at s1 (rq_provider rq) (rq_clock rq)) s1
            else s1 in
  if passed stop RateLimits
  then set_window (rq_provider rq)
                  (record_request (time_time (rq_clock rq)) (rq_estimated_tokens rq)
                                  (window_of s2 (rq_provider rq))) s2
  else s2.

(** The call as the ordered rules describe it. *)
Definition validate_by_rules (pol : ProviderPolicy) (rq : request)
    (self : PolicyEnforcer) : PolicyEnforcer * outcome unit :=
  match first_violation rules_in_order pol rq self with
  | Some (r, e) => (state_after (Some r) rq self, Raises e)
  | None => (state_after None rq self, Returns tt)
  end.

(** The provider policy a request is checked against. *)
Definition policy_for (self : PolicyEnforcer) (prov : string) : outcome ProviderPolicy :=
  match ProviderPolicy_default prov with
  | Raises e => Raises e
  | Returns dflt => Returns (default dflt (provider_policies (policy self) !! prov))
  end.

(** Properties of the operations in a run of an enforcer. *)
Definition explicit_reset (op : operation) : bool :=
  match op with
  | OpResetMonthlyBudget => true
  | _ => false
  end.

Definition recorded_cost_nonneg (op : operation) : Prop :=
  match op with
  | OpRecordUsage _ _ _ _ cost_usd _ _ _ _ => (0 <= cost_usd)%Q
  | _ => True
  end.

(** The operation does not run [validate_request] on a date after [day]. *)
Definition validates_by (day : Z) (op : operation) : Prop :=
  match op with
  | OpValidateRequest _ _ _ _ clk => (date (utcnow clk) <= day)%Z
  | _ => True
  end.

End PolicyRules.

(* ===================================================================== *)
(** ** Scenarios taken from the test suite *)
(* ===================================================================== *)

Module Scenarios.
Import Policies PolicyRules.

(** 2025-12-01 00:00:00 UTC, and the same instant one day later. *)
Definition t0 : clock := {| utcnow := 1764547200000000; time_time := 1764547200 |}.
Definition t0_plus (seconds : Z) : clock :=
  {| utcnow := utcnow t0 + seconds * 1000000;
     time_time := (time_time t0 + inject_Z seconds)%Q |}.

(** [TenantPolicy(tenant_id="test", monthly_budget_usd=m, daily_budget_usd=d,
    fallback_to_local=f, provider_policies=pp)] *)
Definition tenant (m : Q) (d : option Q) (f : bool)
    (pp : gmap string ProviderPolicy) : TenantPolicy :=
  {| tenant_id := "test";
     monthly_budget_usd := m;
     daily_budget_usd := d;
     provider_policies := pp;
     default_provider := "openai";
     fallback_to_local := f;
     track_usage := true;
     alert_threshold_pct := 80 |}.

(** [ProviderPolicy(provider="openai", rate_limit_rpm=rpm, require_reason=rr)] *)
Definition openai_policy (rpm : Z) (rr : bool) : ProviderPolicy :=
  {| provider := "openai";
     allowed_models := [];
     denied_models := [];
     max_tokens_per_request := 4096;
     max_cost_per_request := 1;
     rate_limit_rpm := rpm;
     rate_limit_tpm := 100000;
     cost_tier_limit := None;
     require_reason := rr;
     enabled := true |}.

Definition opus_request (toks : Z) (clk : clock) : request :=
  {| rq_provider := "anthropic"; rq_model := "claude-3-opus";
     rq_estimated_tokens := toks; rq_reason := None; rq_clock := clk |}.

Definition mini_request (toks : Z) (reason : option string) (clk : clock) : request :=
  {| rq_provider := "openai"; rq_model := "gpt-4o-mini";
     rq_estimated_tokens := toks; rq_reason := reason; rq_clock := clk |}.

(** test_budget_enforcement and test_fallback_to_local: a budget of 1.00
    with 0.95 already recorded. *)
Definition nearly_spent (fallback : bool) : PolicyEnforcer :=
  fst (record_usage "anthropic" "claude-3-opus" 500 500 0.95 1000 true None t0
         (PolicyEnforcer_init (tenant 1 None fallback ∅) t0)).

(** test_rate_limit_rpm and test_require_reason. *)
Definition rpm_enforcer (rpm : Z) (rr : bool) : PolicyEnforcer :=
  PolicyEnforcer_init (tenant 100 None true {[ "openai" := openai_policy rpm rr ]}) t0.

(** A tenant whose daily budget is 0.0. *)
Definition zero_daily_budget : PolicyEnforcer :=
  PolicyEnforcer_init (tenant 100 (Some 0%Q) false ∅) t0.

(** [ProviderPolicy(provider="ollama", enabled=False)], and a tenant that
    keeps it under the key "mistral", which is not one of the provider
    names: [provider_policies] is a [Dict[str, ProviderPolicy]]. *)
Definition disabled_policy : ProviderPolicy :=
  {| provider := "ollama";
     allowed_models := [];
     denied_models := [];
     max_tokens_per_request := 4096;
     max_cost_per_request := 1;
     rate_limit_rpm := 60;
     rate_limit_tpm := 100000;
     cost_tier_limit := None;
     require_reason := false;
     enabled := false |}.

Definition mistral_disabled : PolicyEnforcer :=
  PolicyEnforcer_init (tenant 100 None true {[ "mistral" := disabled_policy ]}) t0.

Definition mistral_request : request :=
  {| rq_provider := "mistral"; rq_model := "mistral";
     rq_estimated_tokens := 100; rq_reason := None; rq_clock := t0 |}.

End Scenarios.

(* ===================================================================== *)
(** ** Invariants and views of the enforcer *)
(* ===================================================================== *)

Module PolicyViews.
Import Policies PolicyRules.

(** The two lists of every provider's window describe the same requests:
    the request timestamps are the timestamps of the token entries. *)
Definition aligned (self : PolicyEnforcer) : Prop :=
  forall p w, _rate_limit_state self !! p = Some w ->
              requests w = map fst (tokens w).

(** The usage records a report over [days] days reads at [clk]. *)
Definition recent_records (days : Z) (clk : clock) (self : PolicyEnforcer)
  : list UsageRecord :=
  List.filter (fun r => (utcnow clk - days * 86400000000 <=? ur_timestamp r)%Z)
              (usage_records self).

Definition of_provider (p : string) (rs : list UsageRecord) : list UsageRecord :=
  List.filter (fun r => String.eqb (ur_provider r) p) rs.

Definition of_model (m : string) (rs : list UsageRecord) : list UsageRecord :=
  List.filter (fun r => String.eqb (ur_model r) m) rs.

(** The entry a breakdown starts from. *)
Definition no_provider_stats : ProviderStats :=
  {| ps_requests := 0; ps_cost_usd := 0; ps_tokens := 0;
     ps_avg_latency_ms := 0; ps_success_rate := 0 |}.

Definition no_model_stats : ModelStats :=
  {| ms_requests := 0; ms_cost_usd := 0; ms_tokens := 0; ms_avg_latency_ms := 0 |}.

End PolicyViews.

(* ===================================================================== *)
(** ** Views of a selection of metrics

    The entries that one key of a breakdown of [get_stats] is built from. *)

Module TelemetryViews.
Import Telemetry.

(** The entries whose [key] (provider or model) is [k]. *)
Definition with_key (key : LLMRequestMetrics -> string) (k : string)
    (ms : list LLMRequestMetrics) : list LLMRequestMetrics :=
  List.filter (fun m => String.eqb (key m) k) ms.

(** The entries that [errors_by_type] counts under [k]: failed, with a
    non-empty error type equal to [k]. *)
Definition failures_of (k : string) (ms : list LLMRequestMetrics)
  : list LLMRequestMetrics :=
  List.filter (fun m => negb (success m) && str_truthy (error_type m)
                        && String.eqb (default "" (error_type m)) k) ms.

(** Requests, cost and tokens of a list of entries. *)
Definition breakdown_of (ms : list LLMRequestMetrics) : Breakdown :=
  {| bd_requests := len ms;
     bd_cost := sumQ (map cost_usd ms);
     bd_tokens := sumZ (map total_tokens ms) |}.

End TelemetryViews.

(* ===================================================================== *)
(** ** The end of [record]: export callback and logging

    After the history update [record] calls the export callback, if one is
    configured, under [except Exception], and then [_log_metrics].  The
    callback is the caller's code: a computation on the collector that may
    raise.  [netrun.logging] is outside the two modules: either its import
    raises ImportError, which both logging helpers swallow, or it gives a
    logger whose calls have an outcome of their own, a parameter here.  No
    exception class of this development is an ImportError. *)
(* ===================================================================== *)

Module Exporting.
Import Telemetry.

(** The dictionary of [to_log_context()]. *)
Record LogContext : Type := {
  llm_provider : string;
  llm_model : string;
  llm_tokens : Z;
  llm_latency_ms : Q;
  llm_cost_usd : Q;
  llm_success : bool;
  llm_cached : bool
}.

(** [to_log_context()] *)
Definition to_log_context (self : LLMRequestMetrics) : LogContext :=
  (* Calculate total_tokens if not set *)
  let total := if (0 <? total_tokens self)%Z then total_tokens self
               else (input_tokens self + output_tokens self)%Z in
  {| llm_provider := provider self;
     llm_model := model self;
     llm_tokens := total;
     llm_latency_ms := latency_ms self;
     llm_cost_usd := cost_usd self;
     llm_success := success self;
     llm_cached := cached self |}.

(** [get_logger("netrun.llm.telemetry")] followed by [logger.info(...)] or
    [logger.error(...)]. *)
Record Logger : Type := {
  logger_info : LogContext -> outcome unit;
  logger_error : exn -> outcome unit
}.

(** What a collector is configured with, and whether [netrun.logging] can
    be imported ([None]: the import raises ImportError). *)
Record Hooks : Type := {
  export_callback : option (LLMRequestMetrics -> M TelemetryCollector unit);
  netrun_logging : option Logger
}.

(** [TelemetryCollector()] where [netrun.logging] is not installed. *)
Definition no_hooks : Hooks :=
  {| export_callback := None; netrun_logging := None |}.

(** [_log_metrics(metrics)] *)
Definition _log_metrics (h : Hooks) (metrics : LLMRequestMetrics)
  : M TelemetryCollector unit :=
  match netrun_logging h with
  | Some logger => lift (logger_info logger (to_log_context metrics))
  | None => ret tt                                   (* except ImportError: pass *)
  end.

(** [_log_export_error(error)] *)
Definition _log_export_error (h : Hooks) (error : exn) : M TelemetryCollector unit :=
  match netrun_logging h with
  | Some logger => lift (logger_error logger error)
  | None => ret tt
  end.

(** [if self.export_callback: try: ... except Exception as e: ...] *)
Definition export (h : Hooks) (metrics : LLMRequestMetrics) : M TelemetryCollector unit :=
  match export_callback h with
  | Some callback =>
      fun self =>
        match callback metrics self with
        | (self, Returns _) => (self, Returns tt)
        | (self, Raises e) =>
            if catches Exception e
            then _log_export_error h e self    (* Don't let export errors break telemetry *)
            else (self, Raises e)
        end
  | None => ret tt
  end.

(** What [record] does once the history is updated. *)
Definition after_store (h : Hooks) (metrics : LLMRequestMetrics)
  : M TelemetryCollector unit :=
  (export h metrics ;;; _log_metrics h metrics)%py.

(** The whole of [record(metrics)]; the callback and the logger receive the
    metrics object with its cost filled in. *)
Definition record_and_export (h : Hooks) (metrics : LLMRequestMetrics)
  : M TelemetryCollector unit :=
  (record metrics ;;; after_store h (with_cost metrics))%py.

End Exporting.

(* ===================================================================== *)
(** ** RequestTracker and [track_request]

    [track_request] and [track_request_async] have the same body; the block
    under [with] is a computation on the tracker and the collector, and the
    two readings of [time.perf_counter()], the reading of
    [datetime.utcnow()] that stamps the metrics and the identifier drawn by
    [_generate_request_id] are inputs.  [tracked] is the statement on a
    collector without export callback and without [netrun.logging], and
    [tracked_with] on any collector. *)

Module Tracking.
Import Telemetry Exporting.

(** [type(exc).__name__] *)
Definition class_name (c : exc_class) : string :=
  match c with
  | BaseException => "BaseException"
  | Exception => "Exception"
  | ValueError => "ValueError"
  | IndexError => "IndexError"
  | ArithmeticError => "ArithmeticError"
  | OverflowError => "OverflowError"
  | ValidationError => "ValidationError"
  | LLMError => "LLMError"
  | PolicyViolationError => "PolicyViolationError"
  | ProviderDisabledError => "ProviderDisabledError"
  | BudgetExceededError => "BudgetExceededError"
  | RateLimitExceededError => "RateLimitExceededError"
  | FallbackToLocalError => "FallbackToLocalError"
  end.

Record RequestTracker : Type := {
  metrics : LLMRequestMetrics;
  is_async : bool;
  _start_time : Q
}.

(** [RequestTracker(collector, provider, model, tenant_id, user_id,
    request_id, endpoint, is_async)]; [now] is the [datetime.utcnow()] of
    the metrics' default timestamp. *)
Definition RequestTracker_init (prov mdl tenant : string) (user : option string)
    (rid : string) (endp : option string) (async : bool) (now : Z) : RequestTracker :=
  {| metrics :=
       {| request_id := rid; tenant_id := tenant; provider := prov; model := mdl;
          user_id := user; input_tokens := 0; output_tokens := 0; total_tokens := 0;
          latency_ms := 0; time_to_first_token_ms := None; cost_usd := 0;
          timestamp := now; success := true; error_type := None;
          error_message := None; endpoint := endp; streaming := false;
          cached := false |};
     is_async := async;
     _start_time := 0 |}.

Definition on_metrics (f : LLMRequestMetrics -> LLMRequestMetrics) (t : RequestTracker)
  : RequestTracker :=
  {| metrics := f (metrics t); is_async := is_async t; _start_time := _start_time t |}.

(** [tracker._start_time = t] *)
Definition set_start_time (t0 : Q) (t : RequestTracker) : RequestTracker :=
  {| metrics := metrics t; is_async := is_async t; _start_time := t0 |}.

(** [set_tokens(input_tokens, output_tokens)] *)
Definition set_tokens (i o : Z) : RequestTracker -> RequestTracker :=
  on_metrics (fun m =>
    {| request_id := request_id m; tenant_id := tenant_id m;
       provider := provider m; model := model m; user_id := user_id m;
       input_tokens := i; output_tokens := o;
       total_tokens := total_tokens m; latency_ms := latency_ms m;
       time_to_first_token_ms := time_to_first_token_ms m;
       cost_usd := cost_usd m;
       timestamp := timestamp m; success := success m;
       error_type := error_type m; error_message := error_message m;
       endpoint := endpoint m; streaming := streaming m; cached := cached m |}).

(** [set_cached(cached)] *)
Definition set_cached (c : bool) : RequestTracker -> RequestTracker :=
  on_metrics (fun m =>
    {| request_id := request_id m; tenant_id := tenant_id m;
       provider := provider m; model := model m; user_id := user_id m;
       input_tokens := input_tokens m; output_tokens := output_tokens m;
       total_tokens := total_tokens m; latency_ms := latency_ms m;
       time_to_first_token_ms := time_to_first_token_ms m;
       cost_usd := cost_usd m;
       timestamp := timestamp m; success := success m;
       error_type := error_type m; error_message := error_message m;
       endpoint := endpoint m; streaming := streaming m; cached := c |}).

(** [set_streaming(ttft_ms)] *)
Definition set_streaming (ttft_ms : option Q) : RequestTracker -> RequestTracker :=
  on_metrics (fun m =>
    {| request_id := request_id m; tenant_id := tenant_id m;
       provider := provider m; model := model m; user_id := user_id m;
       input_tokens := input_tokens m; output_tokens := output_tokens m;
       total_tokens := total_tokens m; latency_ms := latency_ms m;
       time_to_first_token_ms := ttft_ms;
       cost_usd := cost_usd m;
       timestamp := timestamp m; success := success m;
       error_type := error_type m; error_message := error_message m;
       endpoint := endpoint m; streaming := true; cached := cached m |}).

(** [set_cost(cost_usd)] *)
Definition set_cost (c : Q) : RequestTracker -> RequestTracker :=
  on_metrics (set_cost_usd c).

(** The three assignments of the [except Exception as exc] clause. *)
Definition failed (name message : string) (m : LLMRequestMetrics) : LLMRequestMetrics :=
  {| request_id := request_id m; tenant_id := tenant_id m;
     provider := provider m; model := model m; user_id := user_id m;
     input_tokens := input_tokens m; output_tokens := output_tokens m;
     total_tokens := total_tokens m; latency_ms := latency_ms m;
     time_to_first_token_ms := time_to_first_token_ms m;
     cost_usd := cost_usd m;
     timestamp := timestamp m; success := false;
     error_type := Some name; error_message := Some message;
     endpoint := endpoint m; streaming := streaming m; cached := cached m |}.

(** The two assignments of the [finally] clause. *)
Definition finished (latency : Q) (m : LLMRequestMetrics) : LLMRequestMetrics :=
  {| request_id := request_id m; tenant_id := tenant_id m;
     provider := provider m; model := model m; user_id := user_id m;
     input_tokens := input_tokens m; output_tokens := output_tokens m;
     total_tokens := input_tokens m + output_tokens m; latency_ms := latency;
     time_to_first_token_ms := time_to_first_token_ms m;
     cost_usd := cost_usd m;
     timestamp := timestamp m; success := success m;
     error_type := error_type m; error_message := error_message m;
     endpoint := endpoint m; streaming := streaming m; cached := cached m |}.

(** A call of a tracker method inside the block. *)
Definition call (f : RequestTracker -> RequestTracker)
  : M (RequestTracker * TelemetryCollector) unit :=
  modify (fun s => (f (fst s), snd s)).

Section TrackRequest.

(** [str(exc)] *)
Variable str : exn -> string.

Context {A : Type}.

(** The tracker the block receives. *)
Definition entered (async : bool) (prov mdl tenant : string)
    (user rid endp : option string) (fresh_id : string) (now : Z) (t_start : Q)
  : RequestTracker :=
  set_start_time t_start
    (RequestTracker_init prov mdl tenant user
       (if str_truthy rid then default "" rid else fresh_id) endp async now).

(** The body that [track_request] and [track_request_async] share, around
    the block [body] of the [with] statement. *)
Definition tracked (async : bool) (prov mdl tenant : string)
    (user rid endp : option string) (fresh_id : string) (now : Z) (t_start t_end : Q)
    (body : M (RequestTracker * TelemetryCollector) A) : M TelemetryCollector A :=
  fun self =>
    let tracker := entered async prov mdl tenant user rid endp fresh_id now t_start in
    (* try: yield tracker *)
    let '((tracker, self), result) := body (tracker, self) in
    (* except Exception as exc: ...; raise *)
    let tracker :=
      match result with
      | Raises exc =>
          if catches Exception exc
          then on_metrics (failed (class_name (exn_class exc)) (str exc)) tracker
          else tracker
      | Returns _ => tracker
      end in
    (* finally *)
    let tracker :=
      on_metrics (finished ((t_end - _start_time tracker) * 1000)%Q) tracker in
    match record (metrics tracker) self with
    | (self, Raises e) => (self, Raises e)
    | (self, Returns _) => (self, result)
    end.

(** The same around the whole of [record]. *)
Definition tracked_with (h : Hooks) (async : bool) (prov mdl tenant : string)
    (user rid endp : option string) (fresh_id : string) (now : Z) (t_start t_end : Q)
    (body : M (RequestTracker * TelemetryCollector) A) : M TelemetryCollector A :=
  fun self =>
    let tracker := entered async prov mdl tenant user rid endp fresh_id now t_start in
    (* try: yield tracker *)
    let '((tracker, self), result) := body (tracker, self) in
    (* except Exception as exc: ...; raise *)
    let tracker :=
      match result with
      | Raises exc =>
          if catches Exception exc
          then on_metrics (failed (class_name (exn_class exc)) (str exc)) tracker
          else tracker
      | Returns _ => tracker
      end in
    (* finally *)
    let tracker :=
      on_metrics (finished ((t_end - _start_time tracker) * 1000)%Q) tracker in
    match record_and_export h (metrics tracker) self with
    | (self, Raises e) => (self, Raises e)
    | (self, Returns _) => (self, result)
    end.

(** [with collector.track_request(provider, model, tenant_id, user_id,
    request_id, endpoint) as tracker: body] *)
Definition track_request := tracked false.

(** [async with collector.track_request_async(...) as tracker: body] *)
Definition track_request_async := tracked true.

End TrackRequest.

End Tracking.

(* ===================================================================== *)
(** ** [get_cost_breakdown]

    The dictionary it returns, as a record; the values under "by_provider"
    and "by_model" are dictionaries keyed like the breakdowns of
    [get_stats]. *)

Module CostReports.
Import Telemetry.

Record ProviderCost : Type := {
  pc_cost_usd : Q;
  pc_percentage : Q
}.

Record ModelCost : Type := {
  mc_cost_usd : Q;
  mc_requests : Z;
  mc_avg_cost : Q
}.

Record CostBreakdown : Type := {
  cb_total_cost_usd : Q;
  cb_by_provider : gmap string ProviderCost;
  cb_by_model : gmap string ModelCost
}.

Definition provider_cost (total : Q) (d : Breakdown) : ProviderCost :=
  {| pc_cost_usd := bd_cost d;
     pc_percentage := if Qgtb total 0 then (bd_cost d / total * 100)%Q else 0%Q |}.

Definition model_cost (d : Breakdown) : ModelCost :=
  {| mc_cost_usd := bd_cost d;
     mc_requests := bd_requests d;
     mc_avg_cost := if (0 <? bd_requests d)%Z
                    then (bd_cost d / inject_Z (bd_requests d))%Q else 0%Q |}.

(** [get_cost_breakdown(period, tenant_id)] at the clock reading [now]. *)
Definition get_cost_breakdown (period : string) (tenant : option string) (now : Z)
  : M TelemetryCollector CostBreakdown :=
  (stats <- get_stats period tenant now ;;
   ret {| cb_total_cost_usd := total_cost_usd stats;
          cb_by_provider := provider_cost (total_cost_usd stats) <$> by_provider stats;
          cb_by_model := model_cost <$> by_model stats |})%py.

End CostReports.

(* ===================================================================== *)
(** ** [_percentile] on binary64 floats

    The percentile computation once more, on the kernel's binary64 numbers:
    every operation on a float is the correctly rounded one, as in the code.
    An int is converted as Python converts it; the conversion below is exact
    for ints under 2^53 in absolute value, which covers the product
    [(n - 1) * p] for every list that fits in memory and every [p] that
    [get_stats] passes (50, 95, 99), and then [idx] is finite. *)
(* ===================================================================== *)

Module Binary64.
Import PrimFloat.

(** [float(n)] *)
Definition float_of_int (n : Z) : float :=
  if (n <? 0)%Z then opp (of_uint63 (Uint63.of_Z (- n)))
  else of_uint63 (Uint63.of_Z n).

(** [x.is_integer()] *)
Definition is_integer (x : float) : bool :=
  match FloatOps.Prim2SF x with
  | SpecFloat.S754_zero _ => true
  | SpecFloat.S754_finite _ m e => (0 <=? e)%Z || (Z.pos m mod 2 ^ (- e) =? 0)%Z
  | _ => false
  end.

(** [int(x)]: truncation toward zero; it raises for an infinity or a NaN
    ([None]). *)
Definition int_of_float (x : float) : option Z :=
  match FloatOps.Prim2SF x with
  | SpecFloat.S754_zero _ => Some 0%Z
  | SpecFloat.S754_finite s m e =>
      let magnitude := if (0 <=? e)%Z then (Z.pos m * 2 ^ e)%Z
                       else (Z.pos m / 2 ^ (- e))%Z in
      Some (if s then (- magnitude)%Z else magnitude)
  | _ => None
  end.

Definition item (values : list float) (i : Z) : outcome float :=
  match index values i with
  | Some v => Returns v
  | None => Raises (Exn IndexError MsgListIndex)
  end.

(** [_percentile(values, p)] *)
Definition _percentile (values : list float) (p : Z) : outcome float :=
  match values with
  | [] => Returns zero
  | _ =>
      (* Calculate index (0-based) *)
      let idx := div (float_of_int ((len values - 1) * p)) (float_of_int 100) in
      match int_of_float idx with
      | None => Raises (Exn OverflowError MsgOutOfRange)
      | Some lower_idx =>
          if is_integer idx
          then item values lower_idx
          else
            let upper_idx := Z.min (lower_idx + 1) (len values - 1) in
            let fraction := sub idx (float_of_int lower_idx) in
            match item values lower_idx with
            | Raises e => Raises e
            | Returns lo =>
                match item values upper_idx with
                | Raises e => Raises e
                | Returns hi => Returns (add lo (mul (sub hi lo) fraction))
                end
            end
      end
  end.

(** [sum(latencies) / len(latencies) if latencies else 0.0], adding from
    left to right. *)
Definition latency_avg (latencies : list float) : float :=
  match latencies with
  | [] => zero
  | _ => div (fold_left add latencies (float_of_int 0))
             (float_of_int (len latencies))
  end.

(** The ten latencies 100.0, 200.0, ..., 1000.0. *)
Definition ten_latencies : list float :=
  map float_of_int [100; 200; 300; 400; 500; 600; 700; 800; 900; 1000]%Z.

End Binary64.

(* ===================================================================== *)
(** ** Facts: steps of the state-and-exception monad *)
(* ===================================================================== *)

Section MonadSteps.
Context {S : Type}.

Lemma bind_raise_if (c : bool) cls msg {B} (k : M S B) (s : S) :
  bind (raise_if c cls msg) (fun _ => k) s
  = if c then (s, Raises (Exn cls msg)) else k s.
Proof. destruct c; reflexivity. Qed.

Lemma bind_modify (f : S -> S) {B} (k : M S B) (s : S) :
  bind (modify f) (fun _ => k) s = k (f s).
Proof. reflexivity. Qed.

Lemma bind_get {B} (k : S -> M S B) (s : S) : bind get k s = k s s.
Proof. reflexivity. Qed.
End MonadSteps.

(* ===================================================================== *)
(** ** Facts: the exception hierarchy *)
(* ===================================================================== *)

Module ExceptionFacts.
Import Policies PolicyRules.

(** C9.  FallbackToLocalError is not a subclass of PolicyViolationError: a
    handler for PolicyViolationError, or for any of its subclasses
    ProviderDisabledError, BudgetExceededError and RateLimitExceededError,
    does not catch it, while a handler for FallbackToLocalError does.  The
    budget rules raise it exactly when the tenant allows the fallback, so a
    PolicyViolationError handler catches a budget rejection only when the
    fallback is off. *)
Theorem fallback_is_not_a_policy_violation :
  issubclass FallbackToLocalError PolicyViolationError = false
  /\ Forall (fun handler =>
               issubclass handler PolicyViolationError = true
               /\ forall msg, catches handler (Exn FallbackToLocalError msg) = false)
            [ PolicyViolationError; ProviderDisabledError; BudgetExceededError;
              RateLimitExceededError ]
  /\ (forall msg, catches FallbackToLocalError (Exn FallbackToLocalError msg) = true)
  /\ (forall self msg_fallback msg_hard,
        catches PolicyViolationError (budget_error self msg_fallback msg_hard)
        = negb (fallback_to_local (policy self))
        /\ catches FallbackToLocalError (budget_error self msg_fallback msg_hard)
           = fallback_to_local (policy self)).
Proof.
  split; [reflexivity|]. split.
  - repeat constructor.
  - split; [reflexivity|].
    intros self m1 m2. unfold budget_error.
    destruct (fallback_to_local (policy self)); split; reflexivity.
Qed.

End ExceptionFacts.

(* ===================================================================== *)
(** ** Facts: the policy enforcer *)
(* ===================================================================== *)

Module PolicyFacts.
Import Policies PolicyRules Scenarios.

Lemma nonempty_in (x : string) (l : list string) :
  nonempty l && str_in x l = str_in x l.
Proof. destruct l; reflexivity. Qed.

Lemma set_window_twice prov w w' self :
  set_window prov w (set_window prov w' self) = set_window prov w self.
Proof.
  unfold set_window, set_rate_limit_state; cbn. by rewrite insert_insert_eq.
Qed.

Lemma window_of_set_window prov w self : window_of (set_window prov w self) prov = w.
Proof. unfold window_of, set_window; cbn. by rewrite lookup_insert_eq. Qed.

Lemma reset_daily_spec clk self :
  exists s1, _reset_daily_budget_if_needed clk self = (s1, Returns tt)
    /\ policy s1 = policy self
    /\ _monthly_spend s1 = _monthly_spend self
    /\ _daily_spend s1 = daily_spend_at self clk
    /\ _rate_limit_state s1 = _rate_limit_state self.
Proof.
  unfold _reset_daily_budget_if_needed, daily_spend_at, bind, get.
  destruct (_last_daily_reset self <? date (utcnow clk))%Z; eexists; (split; [reflexivity|]); auto.
Qed.

Lemma check_rate_limits_spec prov pol toks clk s rq :
  rq_provider rq = prov -> rq_estimated_tokens rq = toks -> rq_clock rq = clk ->
  _check_rate_limits prov pol toks clk s
  = let s2 := set_window prov (window_at s prov clk) s in
    match violation RateLimits pol rq s with
    | Some e => (s2, Raises e)
    | None => (set_window prov (record_request (time_time clk) toks (window_of s2 prov)) s2,
               Returns tt)
    end.
Proof.
  intros <- <- <-. unfold _check_rate_limits.
  rewrite bind_modify, bind_modify, bind_get.
  set (s' := match _rate_limit_state s !! rq_provider rq with Some _ => s | None => _ end).
  assert (Hs : set_window (rq_provider rq) (prune (time_time (rq_clock rq) - 60)%Q (window_of s' (rq_provider rq))) s'
               = set_window (rq_provider rq) (window_at s (rq_provider rq) (rq_clock rq)) s).
  { unfold s', window_at. destruct (_rate_limit_state s !! rq_provider rq) eqn:E; [reflexivity|].
    rewrite window_of_set_window, set_window_twice.
    unfold window_of. by rewrite E. }
  rewrite Hs. cbn zeta.
  rewrite !bind_raise_if, window_of_set_window. cbn [violation].
  destruct (_ && _); [reflexivity|].
  destruct (_ && _); [reflexivity|].
  unfold modify. by rewrite window_of_set_window.
Qed.

Lemma validate_refines_rules (self : PolicyEnforcer) (pol : ProviderPolicy)
    (rq : request) :
  policy_for self (rq_provider rq) = Returns pol ->
  validate rq self = validate_by_rules pol rq self.
Proof.
  destruct rq as [prov model toks reason clk].
  unfold validate, policy_for.
  cbn [rq_provider rq_model rq_estimated_tokens rq_reason rq_clock].
  destruct (ProviderPolicy_default prov) as [dflt|e] eqn:Hd; [|discriminate].
  intros [= <-].
  set (rq := {| rq_provider := prov |}).
  unfold validate_request, validate_by_rules, rules_in_order, first_violation.
  rewrite bind_get, Hd.
  set (pp := default dflt (provider_policies (policy self) !! prov)).
  rewrite bind_raise_if. cbn [violation].
  change (rq_model rq) with model; change (rq_estimated_tokens rq) with toks;
  change (rq_reason rq) with reason; change (rq_clock rq) with clk;
  change (rq_provider rq) with prov.
  destruct (enabled pp); cbn [negb]; [|reflexivity].
  rewrite bind_raise_if, nonempty_in.
  destruct (str_in model (denied_models pp)) eqn:Hden; [reflexivity|].
  rewrite bind_raise_if.
  destruct (allowed_models pp) as [|a al] eqn:Hal.
  all: cbn [nonempty andb].
  2: destruct (str_in model (a :: al)); cbn [negb]; [|reflexivity].
  all: rewrite bind_raise_if.
  all: destruct (cost_tier_limit pp) as [limit|];
       [destruct (MODEL_COST_TIERS !! model) as [tier|];
        [destruct (_tier_exceeds_limit tier limit); [reflexivity|]|]|].
  all: rewrite bind_raise_if.
  all: destruct (max_tokens_per_request pp <? toks)%Z; [reflexivity|].
  all: rewrite bind_raise_if.
  all: change (estimate_cost model toks default_input_ratio) with (estimated_cost rq).
  all: destruct (Qgtb (max_cost_per_request pp) 0
                 && Qgtb (estimated_cost rq) (max_cost_per_request pp)); [reflexivity|].
  all: destruct (reset_daily_spec clk self) as (s1 & Hr & Hpol & Hmon & Hday & Hrl).
  all: unfold bind at 1; rewrite Hr; rewrite bind_get.
  all: rewrite Hpol, Hmon, Hday.
  all: unfold state_after;
       cbn [reached passed position Nat.leb Nat.ltb rq_clock rq rq_provider
            rq_estimated_tokens fst];
       rewrite ?Hr; cbn [fst].
  all: unfold bind at 1.
  all: destruct (daily_budget_usd (policy self)) as [daily|];
       [destruct (negb (Qeq_bool daily 0)
                  && Qgtb (daily_spend_at self clk + estimated_cost rq)%Q daily);
        [unfold budget_exceeded, budget_error;
         destruct (fallback_to_local (policy self)); reflexivity|]|].
  all: cbn [ret].
  all: unfold bind at 1.
  all: destruct (Qgtb (_monthly_spend self + estimated_cost rq)%Q
                      (monthly_budget_usd (policy self)));
       [unfold budget_exceeded, budget_error;
        destruct (fallback_to_local (policy self)); reflexivity|].
  all: cbn [ret].
  all: unfold bind at 1.
  all: rewrite (check_rate_limits_spec prov pp toks clk s1 rq eq_refl eq_refl eq_refl).
  all: cbn zeta.
  all: assert (Hv : violation RateLimits pp rq s1 = violation RateLimits pp rq self)
         by (cbn [violation]; unfold window_at, window_of; rewrite Hrl; reflexivity).
  all: rewrite Hv; cbn [violation].
  all: change (rq_estimated_tokens rq) with toks; change (rq_clock rq) with clk;
       change (rq_provider rq) with prov.
  all: destruct (_ && _); [reflexivity|].
  all: destruct (_ && _); [reflexivity|].
  all: unfold raise_if.
  all: destruct (require_reason pp && negb (str_truthy reason)); reflexivity.
Qed.

Lemma Qgtb_true (a b : Q) : Qgtb a b = true <-> (b < a)%Q.
Proof.
  unfold Qgtb. rewrite negb_true_iff. split.
  - intros H. apply Qnot_le_lt. intros Hle. apply Qle_bool_iff in Hle. congruence.
  - intros H. destruct (Qle_bool a b) eqn:E; [|reflexivity].
    apply Qle_bool_iff in E. exfalso. exact (Qlt_not_le _ _ H E).
Qed.

(** *** What a call leaves unchanged *)

Lemma reset_daily_fst clk self :
  let s1 := fst (_reset_daily_budget_if_needed clk self) in
  policy s1 = policy self /\ _monthly_spend s1 = _monthly_spend self
  /\ _daily_spend s1 = daily_spend_at self clk
  /\ _rate_limit_state s1 = _rate_limit_state self
  /\ usage_records s1 = usage_records self
  /\ _last_daily_reset s1 = Z.max (_last_daily_reset self) (date (utcnow clk)).
Proof.
  unfold _reset_daily_budget_if_needed, daily_spend_at, bind, get.
  destruct (_last_daily_reset self <? date (utcnow clk))%Z eqn:E; cbn;
    repeat split; try reflexivity.
  - apply Z.ltb_lt in E. lia.
  - apply Z.ltb_ge in E. lia.
Qed.

Lemma state_after_policy stop rq self : policy (state_after stop rq self) = policy self.
Proof.
  unfold state_after.
  destruct (reset_daily_fst (rq_clock rq) self) as (Hp & _).
  destruct (passed stop RateLimits), (reached stop RateLimits), (reached stop DailyBudget);
    cbn; auto.
Qed.

Lemma state_after_monthly stop rq self :
  _monthly_spend (state_after stop rq self) = _monthly_spend self.
Proof.
  unfold state_after.
  destruct (reset_daily_fst (rq_clock rq) self) as (_ & Hm & _).
  destruct (passed stop RateLimits), (reached stop RateLimits), (reached stop DailyBudget);
    cbn; auto.
Qed.

Lemma date_mono (a b : Z) : (a <= b)%Z -> (date a <= date b)%Z.
Proof. intros H. unfold date. apply Z.div_le_mono; lia. Qed.

Lemma state_after_daily stop rq self clk' :
  (utcnow (rq_clock rq) <= utcnow clk')%Z ->
  daily_spend_at (state_after stop rq self) clk' = daily_spend_at self clk'.
Proof.
  intros Hclk. apply date_mono in Hclk.
  assert (Hr : daily_spend_at (fst (_reset_daily_budget_if_needed (rq_clock rq) self)) clk'
               = daily_spend_at self clk').
  { unfold _reset_daily_budget_if_needed, bind, get.
    destruct (_last_daily_reset self <? date (utcnow (rq_clock rq)))%Z eqn:E; [|reflexivity].
    apply Z.ltb_lt in E. unfold daily_spend_at; cbn.
    replace (_last_daily_reset self <? date (utcnow clk'))%Z with true
      by (symmetry; apply Z.ltb_lt; lia).
    by destruct (_ <? _)%Z. }
  unfold state_after.
  destruct (passed stop RateLimits), (reached stop RateLimits), (reached stop DailyBudget);
    unfold daily_spend_at in *; cbn; auto.
Qed.

Lemma violation_state_after r pol rq rq' stop self :
  r <> RateLimits ->
  (utcnow (rq_clock rq) <= utcnow (rq_clock rq'))%Z ->
  violation r pol rq' (state_after stop rq self) = violation r pol rq' self.
Proof.
  intros Hr Hclk. destruct r; try reflexivity; try congruence; cbn [violation];
    unfold budget_error;
    rewrite ?state_after_policy, ?state_after_monthly, ?state_after_daily by assumption;
    reflexivity.
Qed.

Lemma window_of_state_after stop rq self :
  window_of (state_after stop rq self) (rq_provider rq)
  = if passed stop RateLimits
    then record_request (time_time (rq_clock rq)) (rq_estimated_tokens rq)
                        (window_at self (rq_provider rq) (rq_clock rq))
    else if reached stop RateLimits
         then window_at self (rq_provider rq) (rq_clock rq)
         else window_of self (rq_provider rq).
Proof.
  unfold state_after.
  destruct (reset_daily_fst (rq_clock rq) self) as (_ & _ & _ & Hrl & _).
  assert (Hw : forall s, _rate_limit_state s = _rate_limit_state self ->
                 window_at s (rq_provider rq) (rq_clock rq)
                 = window_at self (rq_provider rq) (rq_clock rq)
                 /\ window_of s (rq_provider rq) = window_of self (rq_provider rq)).
  { intros s Hs. unfold window_at, window_of. by rewrite Hs. }
  destruct (passed stop RateLimits) eqn:Hp, (reached stop RateLimits) eqn:Hre,
           (reached stop DailyBudget);
    rewrite ?window_of_set_window; try reflexivity;
    try (f_equal; apply Hw; assumption); try (apply Hw; assumption).
  all: destruct stop as [[]|]; cbn in Hp, Hre; discriminate.
Qed.

Lemma first_violation_rate_only pol rq self :
  (forall r, r <> RateLimits -> violation r pol rq self = None) ->
  first_violation rules_in_order pol rq self
  = match violation RateLimits pol rq self with
    | Some e => Some (RateLimits, e)
    | None => None
    end.
Proof.
  intros H. unfold rules_in_order, first_violation.
  rewrite !H by discriminate.
  destruct (violation RateLimits pol rq self); [reflexivity|].
  by rewrite H.
Qed.

Lemma policy_for_state_after stop rq self prov :
  policy_for (state_after stop rq self) prov = policy_for self prov.
Proof. unfold policy_for. by rewrite state_after_policy. Qed.

Lemma validate_passes pol rq self :
  policy_for self (rq_provider rq) = Returns pol ->
  first_violation rules_in_order pol rq self = None ->
  validate rq self = (state_after None rq self, Returns tt).
Proof.
  intros Hp Hv. rewrite (validate_refines_rules self pol rq Hp).
  unfold validate_by_rules. by rewrite Hv.
Qed.

Lemma validate_fails pol rq self r e :
  policy_for self (rq_provider rq) = Returns pol ->
  first_violation rules_in_order pol rq self = Some (r, e) ->
  validate rq self = (state_after (Some r) rq self, Raises e).
Proof.
  intros Hp Hv. rewrite (validate_refines_rules self pol rq Hp).
  unfold validate_by_rules. by rewrite Hv.
Qed.

Lemma first_violation_at pol rq self r e :
  violation r pol rq self = Some e ->
  (forall r', (position r' < position r)%nat -> violation r' pol rq self = None) ->
  first_violation rules_in_order pol rq self = Some (r, e).
Proof.
  intros Hr Hbefore. unfold rules_in_order, first_violation.
  destruct r; rewrite ?Hbefore by (cbn; lia); rewrite Hr; reflexivity.
Qed.

Lemma first_violation_none pol rq self :
  (forall r, violation r pol rq self = None) ->
  first_violation rules_in_order pol rq self = None.
Proof. intros H. unfold rules_in_order, first_violation. by rewrite !H. Qed.

Lemma specified_violation_code (r : rule) (pol : ProviderPolicy) (rq : request)
    (self : PolicyEnforcer) :
  daily_budget_enforced self ->
  specified_violation r pol rq self = violation r pol rq self.
Proof.
  intros Hd. destruct r; try reflexivity. unfold daily_budget_enforced in Hd.
  cbn [specified_violation violation].
  destruct (daily_budget_usd (policy self)) as [daily|]; [|reflexivity].
  destruct (Qeq_bool daily 0) eqn:E; [|reflexivity].
  apply Qeq_bool_iff in E. contradiction.
Qed.

Lemma validate_unlisted_provider (rq : request) (self : PolicyEnforcer) :
  str_in (rq_provider rq) provider_literals = false ->
  validate rq self = (self, Raises (Exn ValidationError MsgInvalidProvider)).
Proof.
  intros H. unfold validate, validate_request, ProviderPolicy_default.
  rewrite bind_get, H. reflexivity.
Qed.

Lemma policy_for_listed (self : PolicyEnforcer) (prov : string) :
  str_in prov provider_literals = true ->
  exists pol, policy_for self prov = Returns pol.
Proof.
  intros H. unfold policy_for, ProviderPolicy_default. rewrite H. eauto.
Qed.

(** C1.  A call of [validate_request] for a provider name outside the five
    that [ProviderPolicy] accepts raises pydantic's ValidationError before
    any rule is looked at, whatever the tenant keeps under that name.  For
    one of the five names, and a tenant whose daily budget is not 0.0, the
    call raises the exception of the first rule that fails, taking the rules
    in the order provider enabled, model denied, model allowed, cost tier,
    token ceiling, cost ceiling, daily budget, monthly budget, rate limits,
    reason required; the enforcer it leaves behind carries the effects of the
    rules up to that one only (no later rule was evaluated).  When no rule
    fails the call returns.  The rules are the specification's. *)
Theorem validate_request_rule_order (self : PolicyEnforcer) (rq : request) :
  (str_in (rq_provider rq) provider_literals = false ->
   validate rq self = (self, Raises (Exn ValidationError MsgInvalidProvider)))
  /\ (str_in (rq_provider rq) provider_literals = true ->
      daily_budget_enforced self ->
      exists pol,
        policy_for self (rq_provider rq) = Returns pol
        /\ rules_in_order
           = [ ProviderEnabled; ModelNotDenied; ModelAllowed; CostTierLimit;
               TokenCeiling; CostCeiling; DailyBudget; MonthlyBudget; RateLimits;
               ReasonRequired ]
        /\ (forall r e,
              specified_violation r pol rq self = Some e ->
              (forall r', (position r' < position r)%nat ->
                          specified_violation r' pol rq self = None) ->
              validate rq self = (state_after (Some r) rq self, Raises e))
        /\ ((forall r, specified_violation r pol rq self = None) ->
            validate rq self = (state_after None rq self, Returns tt))).
Proof.
  split; [apply validate_unlisted_provider|].
  intros Hlisted Hdaily.
  destruct (policy_for_listed self (rq_provider rq) Hlisted) as [pol Hp].
  exists pol. split; [exact Hp|]. split; [reflexivity|]. split.
  - intros r e Hr Hbefore. rewrite specified_violation_code in Hr by assumption.
    apply (validate_fails pol); [assumption|].
    apply first_violation_at; [assumption|].
    intros r' Hlt. rewrite <- (specified_violation_code r' pol rq self Hdaily).
    by apply Hbefore.
  - intros Hall. apply (validate_passes pol); [assumption|].
    apply first_violation_none. intros r.
    rewrite <- (specified_violation_code r pol rq self Hdaily). apply Hall.
Qed.

(** C1, counterexample.  The tenant keeps a disabled policy under "mistral",
    so the first rule fails for it, and yet the call raises ValidationError,
    which is no policy error, instead of ProviderDisabledError: the default
    policy [ProviderPolicy(provider="mistral")] is built before the lookup. *)
Lemma unlisted_provider_raises_before_the_rules :
  provider_policies (policy mistral_disabled) !! "mistral" = Some disabled_policy
  /\ specified_violation ProviderEnabled disabled_policy mistral_request mistral_disabled
     = Some (Exn ProviderDisabledError MsgProviderDisabled)
  /\ validate mistral_request mistral_disabled
     = (mistral_disabled, Raises (Exn ValidationError MsgInvalidProvider))
  /\ issubclass ValidationError PolicyViolationError = false.
Proof. repeat split; vm_compute; reflexivity. Qed.

(** *** Rate limiting *)

Lemma prune_keeps (minute_ago : Q) (w : RateWindow) :
  Forall (fun t => (minute_ago < t)%Q) (requests w) ->
  Forall (fun e => (minute_ago < fst e)%Q) (tokens w) ->
  prune minute_ago w = w.
Proof.
  intros Hr Ht. destruct w as [rs ts]; cbn in *. unfold prune; cbn. f_equal.
  - induction Hr as [|t l Hlt _ IH]; [reflexivity|]. cbn.
    apply Qgtb_true in Hlt. rewrite Hlt. by rewrite IH.
  - induction Ht as [|t l Hlt _ IH]; [reflexivity|]. cbn.
    apply Qgtb_true in Hlt. rewrite Hlt. by rewrite IH.
Qed.

Ltac decide_limits :=
  repeat match goal with
         | |- context [(?x <? ?y)%Z] => destruct (Z.ltb_spec x y)
         | |- context [(?x <=? ?y)%Z] => destruct (Z.leb_spec x y)
         end;
  cbn in *; try reflexivity; try lia.

(** C3.  With [rate_limit_rpm = 2], an empty window for the provider and no
    other rule binding, the first two [validate_request] calls for the
    provider return and a third call raises RateLimitExceededError when the
    first call is still inside the 60 seconds that end at the third. *)
Theorem rpm_two_third_call_rejected (self : PolicyEnforcer) (prov : string)
    (pol : ProviderPolicy) (rq1 rq2 rq3 : request) :
  rq_provider rq1 = prov -> rq_provider rq2 = prov -> rq_provider rq3 = prov ->
  policy_for self prov = Returns pol ->
  rate_limit_rpm pol = 2%Z ->
  window_of self prov = empty_window ->
  (forall r rq, r <> RateLimits -> In rq [rq1; rq2; rq3] ->
                violation r pol rq self = None) ->
  (rate_limit_tpm pol <= 0
   \/ rq_estimated_tokens rq1 <= rate_limit_tpm pol
      /\ rq_estimated_tokens rq1 + rq_estimated_tokens rq2 <= rate_limit_tpm pol)%Z ->
  (utcnow (rq_clock rq1) <= utcnow (rq_clock rq2) <= utcnow (rq_clock rq3))%Z ->
  (time_time (rq_clock rq1) <= time_time (rq_clock rq2))%Q ->
  (time_time (rq_clock rq2) <= time_time (rq_clock rq3))%Q ->
  (time_time (rq_clock rq3) - 60 < time_time (rq_clock rq1))%Q ->
  exists s1 s2 s3,
    validate rq1 self = (s1, Returns tt)
    /\ validate rq2 s1 = (s2, Returns tt)
    /\ validate rq3 s2 = (s3, Raises (Exn RateLimitExceededError MsgRateLimitRpm)).
Proof.
  intros P1 P2 P3 Hpol Hrpm Hwin Hother Htpm [Hu12 Hu23] Ht12 Ht23 Ht31.
  set (t1 := time_time (rq_clock rq1)) in *.
  set (t2 := time_time (rq_clock rq2)) in *.
  set (t3 := time_time (rq_clock rq3)) in *.
  assert (Ht21 : (t2 - 60 < t1)%Q).
  { apply Qle_lt_trans with (t3 - 60)%Q; [|assumption].
    apply Qplus_le_l. assumption. }
  assert (Ht32 : (t3 - 60 < t2)%Q) by (eapply Qlt_le_trans; eassumption).
  (* first call *)
  set (s1 := state_after None rq1 self).
  assert (W0 : window_at self prov (rq_clock rq1) = empty_window).
  { unfold window_at. by rewrite Hwin. }
  assert (V1 : first_violation rules_in_order pol rq1 self = None).
  { rewrite first_violation_rate_only by (intros r Hr; apply Hother; [assumption|cbn; tauto]).
    cbn [violation]. rewrite P1, W0, Hrpm.
    unfold len, sumZ; cbn [empty_window requests tokens length map fold_left].
    decide_limits. }
  assert (C1 : validate rq1 self = (s1, Returns tt)).
  { apply (validate_passes pol); [by rewrite P1|assumption]. }
  assert (W1 : window_of s1 prov
               = {| requests := [t1]; tokens := [(t1, rq_estimated_tokens rq1)] |}).
  { unfold s1. rewrite <- P1. rewrite window_of_state_after. cbn [passed].
    rewrite P1, W0. reflexivity. }
  (* second call *)
  set (s2 := state_after None rq2 s1).
  assert (Hpol1 : policy_for s1 prov = Returns pol)
    by (unfold s1; by rewrite policy_for_state_after).
  assert (W1' : window_at s1 prov (rq_clock rq2) = window_of s1 prov).
  { unfold window_at. apply prune_keeps; rewrite W1; cbn; repeat constructor; assumption. }
  assert (V2 : first_violation rules_in_order pol rq2 s1 = None).
  { rewrite first_violation_rate_only.
    2: { intros r Hr. unfold s1. rewrite violation_state_after by assumption.
         apply Hother; [assumption|cbn; tauto]. }
    cbn [violation]. rewrite P2, W1', W1, Hrpm.
    unfold len, sumZ; cbn [requests tokens length map fold_left snd].
    decide_limits. }
  assert (C2 : validate rq2 s1 = (s2, Returns tt)).
  { apply (validate_passes pol); [by rewrite P2|assumption]. }
  assert (W2 : window_of s2 prov
               = {| requests := [t1; t2];
                    tokens := [(t1, rq_estimated_tokens rq1); (t2, rq_estimated_tokens rq2)] |}).
  { unfold s2. rewrite <- P2. rewrite window_of_state_after. cbn [passed].
    rewrite P2, W1', W1. reflexivity. }
  (* third call *)
  assert (Hpol2 : policy_for s2 prov = Returns pol)
    by (unfold s2; by rewrite policy_for_state_after).
  assert (W2' : window_at s2 prov (rq_clock rq3) = window_of s2 prov).
  { unfold window_at. apply prune_keeps; rewrite W2; cbn; repeat constructor; assumption. }
  assert (V3 : first_violation rules_in_order pol rq3 s2
               = Some (RateLimits, Exn RateLimitExceededError MsgRateLimitRpm)).
  { rewrite first_violation_rate_only.
    2: { intros r Hr. unfold s2, s1.
         rewrite !violation_state_after by (assumption || lia).
         apply Hother; [assumption|cbn; tauto]. }
    cbn [violation]. rewrite P3, W2', W2, Hrpm. reflexivity. }
  exists s1, s2, (state_after (Some RateLimits) rq3 s2).
  split; [assumption|]. split; [assumption|].
  apply (validate_fails pol); [by rewrite P3|assumption].
Qed.

(** C10.  When every rule but the last passes and the request is rejected
    because a reason is required and none was given, the provider's window
    already holds the request: its timestamp and token count were appended
    to the pruned window, and a later validation still counts them while the
    timestamp is less than 60 seconds old. *)
Theorem reason_rejection_keeps_rate_entry (self : PolicyEnforcer)
    (pol : ProviderPolicy) (rq : request) :
  policy_for self (rq_provider rq) = Returns pol ->
  (forall r, r <> ReasonRequired -> violation r pol rq self = None) ->
  require_reason pol = true ->
  str_truthy (rq_reason rq) = false ->
  exists s',
    validate rq self = (s', Raises (Exn PolicyViolationError MsgReasonRequired))
    /\ window_of s' (rq_provider rq)
       = record_request (time_time (rq_clock rq)) (rq_estimated_tokens rq)
                        (window_at self (rq_provider rq) (rq_clock rq))
    /\ forall later : clock,
         (time_time later - 60 < time_time (rq_clock rq))%Q ->
         In (time_time (rq_clock rq))
            (requests (window_at s' (rq_provider rq) later))
         /\ In (time_time (rq_clock rq), rq_estimated_tokens rq)
               (tokens (window_at s' (rq_provider rq) later)).
Proof.
  intros Hpol Hpass Hreq Hnone.
  exists (state_after (Some ReasonRequired) rq self).
  assert (Hw : window_of (state_after (Some ReasonRequired) rq self) (rq_provider rq)
               = record_request (time_time (rq_clock rq)) (rq_estimated_tokens rq)
                   (window_at self (rq_provider rq) (rq_clock rq)))
    by (rewrite window_of_state_after; reflexivity).
  split; [|split; [exact Hw|]].
  - apply (validate_fails pol); [assumption|].
    apply first_violation_at.
    + cbn [violation]. by rewrite Hreq, Hnone.
    + intros r' Hlt. apply Hpass. intros ->. cbn in Hlt. lia.
  - intros later Hlater. apply Qgtb_true in Hlater.
    unfold window_at. rewrite Hw. unfold prune, record_request; cbn [requests tokens].
    split; apply filter_In; (split; [apply in_or_app; right; left; reflexivity|]);
      cbn [fst]; exact Hlater.
Qed.

(** *** Budgets *)

Lemma monthly_budget_rule (self : PolicyEnforcer) (pol : ProviderPolicy) (rq : request) :
  policy_for self (rq_provider rq) = Returns pol ->
  (forall r, (position r < position MonthlyBudget)%nat -> violation r pol rq self = None) ->
  (monthly_budget_usd (policy self) < _monthly_spend self + estimated_cost rq)%Q ->
  snd (validate rq self)
  = Raises (if fallback_to_local (policy self)
            then Exn FallbackToLocalError MsgMonthlyBudgetFallback
            else Exn BudgetExceededError MsgMonthlyBudget).
Proof.
  intros Hpol Hpass Hover. apply Qgtb_true in Hover.
  rewrite (validate_fails pol rq self MonthlyBudget
             (budget_error self MsgMonthlyBudgetFallback MsgMonthlyBudget)); try assumption.
  - reflexivity.
  - apply first_violation_at; [|assumption]. cbn [violation]. by rewrite Hover.
Qed.

Lemma daily_budget_rule (self : PolicyEnforcer) (pol : ProviderPolicy) (rq : request)
    (daily : Q) :
  policy_for self (rq_provider rq) = Returns pol ->
  (forall r, (position r < position DailyBudget)%nat -> violation r pol rq self = None) ->
  daily_budget_usd (policy self) = Some daily ->
  ~ (daily == 0)%Q ->
  (daily < daily_spend_at self (rq_clock rq) + estimated_cost rq)%Q ->
  snd (validate rq self)
  = Raises (if fallback_to_local (policy self)
            then Exn FallbackToLocalError MsgDailyBudgetFallback
            else Exn BudgetExceededError MsgDailyBudget).
Proof.
  intros Hpol Hpass Hd Hnz Hover. apply Qgtb_true in Hover.
  rewrite (validate_fails pol rq self DailyBudget
             (budget_error self MsgDailyBudgetFallback MsgDailyBudget)); try assumption.
  - reflexivity.
  - apply first_violation_at; [|assumption]. cbn [violation]. rewrite Hd, Hover.
    destruct (Qeq_bool daily 0) eqn:E; [|reflexivity].
    apply Qeq_bool_iff in E. contradiction.
Qed.

(** The scenario of test_budget_enforcement and test_fallback_to_local:
    0.95 + 0.066 > 1.00. *)
Lemma nearly_spent_request_rejected (fallback : bool) :
  (_monthly_spend (nearly_spent fallback) == 0.95)%Q
  /\ (estimated_cost (opus_request 2000 t0) == 0.066)%Q
  /\ snd (validate (opus_request 2000 t0) (nearly_spent fallback))
     = Raises (if fallback
               then Exn FallbackToLocalError MsgMonthlyBudgetFallback
               else Exn BudgetExceededError MsgMonthlyBudget).
Proof. destruct fallback; vm_compute; repeat split. Qed.

(** C2 (defect).  A daily budget of 0.0 is a set budget that any priced
    request exceeds, yet [validate_request] returns: the truth test on
    [daily_budget_usd] takes 0.0 for an unset budget. *)
Theorem daily_budget_zero_is_skipped :
  let self := zero_daily_budget in
  let rq := mini_request 1000 None t0 in
  daily_budget_usd (policy self) = Some 0%Q
  /\ (0 < daily_spend_at self (rq_clock rq) + estimated_cost rq)%Q
  /\ (forall r, (position r < position DailyBudget)%nat ->
                violation r (openai_policy 60 false) rq self = None)
  /\ validate rq self = (state_after None rq self, Returns tt).
Proof.
  cbn zeta. split; [reflexivity|]. split; [vm_compute; reflexivity|]. split.
  - intros r Hr. destruct r; cbn in Hr; try lia; vm_compute; reflexivity.
  - vm_compute. reflexivity.
Qed.

(** *** Spend counters *)

Lemma state_after_daily_fields stop rq self :
  let s' := state_after stop rq self in
  _daily_spend s' = (if reached stop DailyBudget
                     then daily_spend_at self (rq_clock rq) else _daily_spend self)
  /\ _last_daily_reset s'
     = (if reached stop DailyBudget
        then Z.max (_last_daily_reset self) (date (utcnow (rq_clock rq)))
        else _last_daily_reset self).
Proof.
  unfold state_after.
  destruct (reset_daily_fst (rq_clock rq) self) as (_ & _ & Hd & _ & _ & Hl).
  destruct (passed stop RateLimits), (reached stop RateLimits), (reached stop DailyBudget);
    cbn; auto.
Qed.

Lemma validate_state (rq : request) (self : PolicyEnforcer) :
  fst (validate rq self) = self
  \/ exists stop, fst (validate rq self) = state_after stop rq self.
Proof.
  destruct (policy_for self (rq_provider rq)) as [pol|e] eqn:Hp.
  - right. rewrite (validate_refines_rules self pol rq Hp). unfold validate_by_rules.
    destruct (first_violation rules_in_order pol rq self) as [[r e]|]; eauto.
  - left. unfold policy_for in Hp. unfold validate, validate_request.
    rewrite bind_get.
    destruct (ProviderPolicy_default (rq_provider rq)); [discriminate|reflexivity].
Qed.

Lemma get_usage_report_state (days : Z) (clk : clock) (self : PolicyEnforcer) :
  fst (get_usage_report days clk self) = self.
Proof.
  unfold get_usage_report, bind, get, lift.
  destruct (timedelta _); [|reflexivity].
  destruct (datetime_sub _ _); [|reflexivity].
  destruct (List.filter _ _); reflexivity.
Qed.

Lemma run_monthly (self : PolicyEnforcer) (op : operation) :
  explicit_reset op = false -> recorded_cost_nonneg op ->
  (_monthly_spend self <= _monthly_spend (run self op))%Q.
Proof.
  intros Hreset Hcost. destruct op; cbn [run]; try discriminate.
  - pose (rq := Build_request prov model estimated_tokens reason clk).
    change (validate_request prov model estimated_tokens reason clk) with (validate rq).
    destruct (validate_state rq self) as [->|[stop ->]].
    + apply Qle_refl.
    + rewrite state_after_monthly. apply Qle_refl.
  - apply Qle_refl.
  - unfold record_usage. rewrite bind_get.
    destruct (track_usage (policy self)); cbn in *; lra.
  - rewrite get_usage_report_state. apply Qle_refl.
Qed.

Lemma run_daily (self : PolicyEnforcer) (op : operation) :
  explicit_reset op = false -> recorded_cost_nonneg op ->
  validates_by (_last_daily_reset self) op ->
  (_daily_spend self <= _daily_spend (run self op))%Q
  /\ _last_daily_reset (run self op) = _last_daily_reset self.
Proof.
  intros Hreset Hcost Hday. destruct op; cbn [run]; try discriminate.
  - pose (rq := Build_request prov model estimated_tokens reason clk).
    change (validate_request prov model estimated_tokens reason clk) with (validate rq).
    destruct (validate_state rq self) as [->|[stop ->]].
    + split; [apply Qle_refl|reflexivity].
    + destruct (state_after_daily_fields stop rq self) as [-> ->].
      cbn in Hday. unfold daily_spend_at. subst rq. cbn [rq_clock].
      replace (_last_daily_reset self <? date (utcnow clk))%Z with false
        by (symmetry; apply Z.ltb_ge; lia).
      destruct (reached stop DailyBudget); split; try apply Qle_refl; lia.
  - split; [apply Qle_refl|reflexivity].
  - unfold record_usage. rewrite bind_get.
    destruct (track_usage (policy self)); cbn in *; split; try reflexivity; lra.
  - rewrite get_usage_report_state. split; [apply Qle_refl|reflexivity].
Qed.

(** C7, as amended.  Over a run of operations with no explicit reset and no
    negative recorded cost, the monthly spend never decreases; the daily
    spend never decreases either as long as no [validate_request] of the run
    happens on a date after the last daily reset (such a call sets the daily
    spend back to zero by itself). *)
Theorem spend_monotone_without_reset (self : PolicyEnforcer) (ops : list operation) :
  Forall (fun op => explicit_reset op = false) ops ->
  Forall recorded_cost_nonneg ops ->
  (_monthly_spend self <= _monthly_spend (run_all self ops))%Q
  /\ (Forall (validates_by (_last_daily_reset self)) ops ->
      (_daily_spend self <= _daily_spend (run_all self ops))%Q).
Proof.
  intros Hreset Hcost. revert self.
  induction ops as [|op ops IH]; intros self.
  - cbn. split; [apply Qle_refl|intros _; apply Qle_refl].
  - apply Forall_cons_1 in Hreset as [Hr Hrs]. apply Forall_cons_1 in Hcost as [Hc Hcs].
    specialize (IH Hrs Hcs (run self op)) as [IHm IHd].
    cbn [run_all fold_left] in *. split.
    + eapply Qle_trans; [exact (run_monthly self op Hr Hc)|exact IHm].
    + intros Hdays. apply Forall_cons_1 in Hdays as [Hd Hds].
      destruct (run_daily self op Hr Hc Hd) as [Hle Hlast].
      eapply Qle_trans; [exact Hle|]. apply IHd. by rewrite Hlast.
Qed.

(** C7, counterexample.  No reset is called, yet the daily spend falls from
    5 to 0 when [validate_request] runs on the next day; and a negative
    recorded cost lowers the monthly spend. *)
Lemma spend_can_decrease_without_reset :
  let self := PolicyEnforcer_init (tenant 100 (Some 10%Q) true ∅) t0 in
  let spend := OpRecordUsage "openai" "gpt-4o-mini" 500 300 5 1000 true None t0 in
  let next_day := OpValidateRequest "openai" "gpt-4o-mini" 100 None (t0_plus 86400) in
  let refund := OpRecordUsage "openai" "gpt-4o-mini" 500 300 (-1) 1000 true None t0 in
  Forall (fun op => explicit_reset op = false) [spend; next_day; refund]
  /\ ~ (_daily_spend (run_all self [spend])
        <= _daily_spend (run_all self [spend; next_day]))%Q
  /\ ~ (_monthly_spend self <= _monthly_spend (run_all self [refund]))%Q.
Proof.
  cbn zeta. split; [repeat constructor|]. split.
  - vm_compute. intros H. apply H. reflexivity.
  - vm_compute. intros H. apply H. reflexivity.
Qed.

(** *** The theorems on the test scenarios *)

Lemma validate_request_rule_order_witness :
  validate (opus_request 2000 t0) (nearly_spent false)
  = (state_after (Some MonthlyBudget) (opus_request 2000 t0) (nearly_spent false),
     Raises (Exn BudgetExceededError MsgMonthlyBudget))
  /\ validate mistral_request mistral_disabled
     = (mistral_disabled, Raises (Exn ValidationError MsgInvalidProvider)).
Proof.
  split.
  - destruct (validate_request_rule_order (nearly_spent false) (opus_request 2000 t0))
      as (_ & Hrules).
    destruct Hrules as (pol & Hp & _ & Hfail & _); [reflexivity|exact I|].
    vm_compute in Hp. injection Hp as <-.
    apply Hfail.
    + vm_compute. reflexivity.
    + intros r' Hlt. destruct r'; cbn in Hlt; try lia; vm_compute; reflexivity.
  - destruct (validate_request_rule_order mistral_disabled mistral_request) as (Hout & _).
    apply Hout. reflexivity.
Defined.

Lemma rpm_two_third_call_rejected_witness :
  exists s1 s2 s3,
    validate (mini_request 100 None t0) (rpm_enforcer 2 false) = (s1, Returns tt)
    /\ validate (mini_request 100 None (t0_plus 1)) s1 = (s2, Returns tt)
    /\ validate (mini_request 100 None (t0_plus 2)) s2
       = (s3, Raises (Exn RateLimitExceededError MsgRateLimitRpm)).
Proof.
  apply (rpm_two_third_call_rejected (rpm_enforcer 2 false) "openai" (openai_policy 2 false)).
  - reflexivity.
  - reflexivity.
  - reflexivity.
  - vm_compute. reflexivity.
  - reflexivity.
  - vm_compute. reflexivity.
  - intros r rq Hr [<-|[<-|[<-|[]]]]; destruct r; try congruence; vm_compute; reflexivity.
  - right. cbn. lia.
  - cbn. lia.
  - vm_compute. discriminate.
  - vm_compute. discriminate.
  - vm_compute. reflexivity.
Defined.

Lemma reason_rejection_keeps_rate_entry_witness :
  exists s',
    validate (mini_request 1000 None t0) (rpm_enforcer 60 true)
    = (s', Raises (Exn PolicyViolationError MsgReasonRequired))
    /\ window_of s' "openai"
       = {| requests := [time_time t0]; tokens := [(time_time t0, 1000%Z)] |}.
Proof.
  destruct (reason_rejection_keeps_rate_entry (rpm_enforcer 60 true) (openai_policy 60 true)
              (mini_request 1000 None t0)) as (s' & Hv & Hw & _).
  - vm_compute. reflexivity.
  - intros r Hr. destruct r; try congruence; vm_compute; reflexivity.
  - reflexivity.
  - reflexivity.
  - exists s'. split; [exact Hv|].
    change "openai" with (rq_provider (mini_request 1000 None t0)).
    rewrite Hw. vm_compute. reflexivity.
Defined.

Lemma spend_monotone_without_reset_witness :
  let self := rpm_enforcer 60 false in
  let ops := [ OpRecordUsage "openai" "gpt-4o-mini" 500 300 5 1000 true None t0;
               OpValidateRequest "openai" "gpt-4o-mini" 100 None (t0_plus 60);
               OpGetUsageReport 30 (t0_plus 61) ] in
  (_monthly_spend self <= _monthly_spend (run_all self ops))%Q
  /\ (_daily_spend self <= _daily_spend (run_all self ops))%Q.
Proof.
  cbn zeta.
  match goal with
  | |- (_ <= _monthly_spend (run_all ?s ?ops))%Q /\ _ =>
      destruct (spend_monotone_without_reset s ops) as [Hm Hd]
  end.
  - repeat constructor.
  - repeat constructor. vm_compute. discriminate.
  - split; [exact Hm|]. apply Hd. repeat constructor; vm_compute; discriminate.
Defined.

End PolicyFacts.

(* ===================================================================== *)
(** ** Facts: the telemetry collector *)
(* ===================================================================== *)

Module TelemetryFacts.
Import Telemetry TelemetryScenarios.

Lemma of_tenant_app t ms ms' : of_tenant t (ms ++ ms') = of_tenant t ms ++ of_tenant t ms'.
Proof. apply List.filter_app. Qed.

Lemma tenant_list_insert bt t l t' :
  tenant_list (<[t := l]> bt) t' = if decide (t = t') then l else tenant_list bt t'.
Proof.
  unfold tenant_list. rewrite lookup_insert. by destruct (decide (t = t')).
Qed.

Lemma tenant_list_touch bt t t' : tenant_list (touch t bt) t' = tenant_list bt t'.
Proof.
  unfold touch. destruct (bt !! t) eqn:E; [reflexivity|].
  rewrite tenant_list_insert. destruct (decide (t = t')) as [<-|]; [|reflexivity].
  unfold tenant_list. by rewrite E.
Qed.

Lemma store_indexed m self : indexed self -> indexed (store m self).
Proof.
  intros H t. unfold store; cbn [_metrics _by_tenant].
  rewrite tenant_list_insert, of_tenant_app, H.
  unfold of_tenant at 2 3; cbn [List.filter]. destruct (decide (tenant_id m = t)) as [<-|Hne].
  - by rewrite String.eqb_refl.
  - apply String.eqb_neq in Hne. rewrite Hne. by rewrite app_nil_r.
Qed.

Lemma trim_indexed self :
  indexed self -> _metrics self <> [] ->
  exists removed rest,
    _metrics self = removed :: rest
    /\ trim self = ({| max_history := max_history self; _metrics := rest;
                       _by_tenant := <[tenant_id removed := of_tenant (tenant_id removed) rest]>
                                       (touch (tenant_id removed) (_by_tenant self)) |},
                    Returns tt).
Proof.
  intros H Hne. destruct (_metrics self) as [|removed rest] eqn:E; [congruence|].
  exists removed, rest. split; [reflexivity|].
  unfold trim. rewrite bind_get, E.
  rewrite tenant_list_touch, H, E. unfold of_tenant at 1; cbn [List.filter].
  rewrite !String.eqb_refl. reflexivity.
Qed.

Lemma trimmed_indexed self removed rest :
  indexed self -> _metrics self = removed :: rest ->
  indexed {| max_history := max_history self; _metrics := rest;
             _by_tenant := <[tenant_id removed := of_tenant (tenant_id removed) rest]>
                             (touch (tenant_id removed) (_by_tenant self)) |}.
Proof.
  intros H E t. cbn [_metrics _by_tenant].
  rewrite tenant_list_insert. destruct (decide (tenant_id removed = t)) as [<-|Hne];
    [reflexivity|].
  rewrite tenant_list_touch, H, E. unfold of_tenant; cbn [List.filter].
  apply String.eqb_neq in Hne. by rewrite Hne.
Qed.

(** One [record] call from a collector whose index is consistent. *)
Lemma record_step (self : TelemetryCollector) (m : LLMRequestMetrics) :
  indexed self ->
  exists self',
    record m self = (self', Returns tt)
    /\ max_history self' = max_history self
    /\ _metrics self'
       = (if (max_history self <? len (_metrics self) + 1)%Z
          then tail (_metrics self ++ [with_cost m])
          else _metrics self ++ [with_cost m])
    /\ indexed self'.
Proof.
  intros H. unfold record. rewrite bind_modify, bind_get.
  pose proof (store_indexed (with_cost m) self H) as Hs.
  assert (Hlen : len (_metrics (store (with_cost m) self)) = (len (_metrics self) + 1)%Z).
  { unfold store, len; cbn [_metrics]. rewrite length_app. cbn. lia. }
  assert (Hmax : max_history (store (with_cost m) self) = max_history self) by reflexivity.
  rewrite Hlen, Hmax.
  destruct (max_history self <? len (_metrics self) + 1)%Z.
  - destruct (trim_indexed (store (with_cost m) self) Hs) as (removed & rest & E & Ht).
    { unfold store; cbn [_metrics]. by destruct (_metrics self). }
    rewrite Ht. eexists. split; [reflexivity|]. cbn [max_history _metrics].
    split; [reflexivity|]. split.
    + unfold store in E; cbn [_metrics] in E. by rewrite E.
    + by apply trimmed_indexed.
  - eexists. split; [reflexivity|]. repeat split; assumption.
Qed.

Lemma init_indexed n : indexed (TelemetryCollector_init n).
Proof. intros t. reflexivity. Qed.

Lemma record_history_ok n self m :
  (0 <= n)%Z -> history_ok n self -> history_ok n (after_record self m).
Proof.
  intros Hn (Hmax & Hlen & Hidx). unfold after_record.
  destruct (record_step self m Hidx) as (self' & -> & Hmax' & Hms & Hidx').
  cbn [fst]. split; [congruence|]. split; [|assumption].
  rewrite Hms, Hmax.
  assert (Happ : len (_metrics self ++ [with_cost m]) = (len (_metrics self) + 1)%Z).
  { unfold len. rewrite length_app. cbn. lia. }
  destruct (Z.ltb_spec n (len (_metrics self) + 1)).
  - destruct (_metrics self ++ [with_cost m]) eqn:E; cbn [tail].
    + unfold len in *; cbn in *; lia.
    + unfold len in *; cbn [length] in *. lia.
  - lia.
Qed.

Lemma records_history_ok n ms self :
  (0 <= n)%Z -> history_ok n self -> history_ok n (after_records self ms).
Proof.
  intros Hn. revert self. induction ms as [|m ms IH]; intros self H; [exact H|].
  cbn. apply IH. by apply record_history_ok.
Qed.

(** C5.  In a collector built with a non-negative [max_history] and used
    through [record] only, every [record] call returns and leaves at most
    [max_history] entries in the history: the new entry is appended and, when
    that exceeds the bound, the oldest entry is dropped.  Each tenant's list
    of the index is exactly the history entries of that tenant, in history
    order, so a dropped entry is gone from its tenant's list too. *)
Theorem record_keeps_history_bounded_and_indexed (n : Z)
    (ms : list LLMRequestMetrics) (m : LLMRequestMetrics) :
  (0 <= n)%Z ->
  let before := after_records (TelemetryCollector_init n) ms in
  let after := after_record before m in
  record m before = (after, Returns tt)
  /\ (len (_metrics after) <= n)%Z
  /\ _metrics after
     = (if (n <? len (_metrics before) + 1)%Z
        then tail (_metrics before ++ [with_cost m])
        else _metrics before ++ [with_cost m])
  /\ forall t, tenant_list (_by_tenant after) t
               = List.filter (fun x => String.eqb (tenant_id x) t) (_metrics after).
Proof.
  intros Hn before after.
  assert (Hb : history_ok n before).
  { apply records_history_ok; [assumption|].
    split; [reflexivity|]. split; [exact Hn|apply init_indexed]. }
  pose proof (record_history_ok n before m Hn Hb) as (_ & Hlen & Hidx).
  destruct Hb as (Hmax & _ & Hidxb).
  destruct (record_step before m Hidxb) as (self' & Hrec & _ & Hms & _).
  assert (Hafter : after = self') by (unfold after, after_record; by rewrite Hrec).
  split; [by rewrite Hafter|]. split; [exact Hlen|]. split.
  - rewrite Hafter, Hms, Hmax. reflexivity.
  - exact Hidx.
Qed.

Lemma record_keeps_history_bounded_and_indexed_witness :
  let before := after_records (TelemetryCollector_init 2)
                              [sample "req-0" "a" "gpt-4o" 100 50 120; sample "req-1" "b" "gpt-4o" 100 50 120] in
  let after := after_record before (sample "req-2" "a" "gpt-4o" 100 50 120) in
  map request_id (_metrics after) = ["req-1"; "req-2"]
  /\ map request_id (tenant_list (_by_tenant after) "a") = ["req-2"]
  /\ (len (_metrics after) <= 2)%Z.
Proof.
  cbn zeta.
  destruct (record_keeps_history_bounded_and_indexed 2
              [sample "req-0" "a" "gpt-4o" 100 50 120; sample "req-1" "b" "gpt-4o" 100 50 120] (sample "req-2" "a" "gpt-4o" 100 50 120))
    as (_ & Hlen & Hms & Hidx); [lia|].
  cbn zeta in *. split; [|split; [|exact Hlen]].
  - rewrite Hms. vm_compute. reflexivity.
  - rewrite Hidx, Hms. vm_compute. reflexivity.
Defined.

(** *** Cost calculation *)

Lemma get_model_pricing_alternatives prov mdl :
  Policies.get_model_pricing prov mdl
  = first_some
      [ Policies.MODEL_COSTS !! mdl;
        Policies.MODEL_COSTS !! ("azure-" ++ mdl)%string;
        Policies.MODEL_COSTS !! ("claude-" ++ mdl)%string;
        Policies.MODEL_COSTS !! ("gpt-" ++ mdl)%string;
        if str_in (lower prov) ["ollama"; "local"] then Some (0, 0)%Q else None ].
Proof.
  unfold Policies.get_model_pricing, Policies.pricing_prefixes.
  cbn [Policies.lookup_prefixed first_some].
  repeat (destruct (Policies.MODEL_COSTS !! _); [reflexivity|]).
  destruct (str_in _ _); reflexivity.
Qed.

Lemma get_model_pricing_unknown prov mdl :
  Policies.MODEL_COSTS !! mdl = None ->
  Forall (fun prefix => Policies.MODEL_COSTS !! (prefix ++ mdl)%string = None)
         Policies.pricing_prefixes ->
  str_in (lower prov) ["ollama"; "local"] = false ->
  Policies.get_model_pricing prov mdl = None.
Proof.
  intros Hm Hp Hl. unfold Policies.get_model_pricing. rewrite Hm, Hl.
  unfold Policies.pricing_prefixes in *.
  repeat (apply Forall_cons_1 in Hp as [? Hp]).
  cbn [Policies.lookup_prefixed].
  repeat match goal with H : _ !! _ = None |- _ => rewrite H; clear H end.
  reflexivity.
Qed.

(** C6, as amended.  When [record] receives metrics whose cost is zero and
    whose total token count is positive, the entry it stores has the cost
    [(input_tokens * input_rate + output_tokens * output_rate) / 1000] for the
    rates [get_model_pricing] finds: the table's rates of the model when it is
    listed, otherwise those of the first listed name among the model prefixed
    with "azure-", "claude-" and "gpt-", otherwise zero rates for the
    providers ollama and local.  When none of these applies the cost is 0. *)
Theorem record_prices_by_model_pricing (m : LLMRequestMetrics) :
  (cost_usd m == 0)%Q ->
  (0 < total_tokens m)%Z ->
  (forall self, indexed self -> (len (_metrics self) < max_history self)%Z ->
                _metrics (after_record self m) = _metrics self ++ [with_cost m])
  /\ match Policies.get_model_pricing (provider m) (model m) with
     | Some (input_rate, output_rate) =>
         cost_usd (with_cost m)
         = ((inject_Z (input_tokens m) * input_rate
             + inject_Z (output_tokens m) * output_rate) / 1000)%Q
     | None => cost_usd (with_cost m) = 0%Q
     end
  /\ Policies.get_model_pricing (provider m) (model m)
     = first_some
         [ Policies.MODEL_COSTS !! model m;
           Policies.MODEL_COSTS !! ("azure-" ++ model m)%string;
           Policies.MODEL_COSTS !! ("claude-" ++ model m)%string;
           Policies.MODEL_COSTS !! ("gpt-" ++ model m)%string;
           if str_in (lower (provider m)) ["ollama"; "local"]
           then Some (0, 0)%Q else None ]
  /\ (Policies.MODEL_COSTS !! model m = None ->
      Forall (fun prefix => Policies.MODEL_COSTS !! (prefix ++ model m)%string = None)
             Policies.pricing_prefixes ->
      str_in (lower (provider m)) ["ollama"; "local"] = false ->
      cost_usd (with_cost m) = 0%Q).
Proof.
  intros Hzero Htok.
  assert (Hw : with_cost m
               = set_cost_usd (_calculate_cost (provider m) (model m)
                                 (input_tokens m) (output_tokens m)) m).
  { unfold with_cost. apply Qeq_bool_iff in Hzero. rewrite Hzero.
    apply Z.ltb_lt in Htok. by rewrite Htok. }
  split; [|split; [|split]].
  - intros self Hidx Hroom.
    destruct (record_step self m Hidx) as (self' & Hrec & _ & Hms & _).
    unfold after_record. rewrite Hrec. cbn [fst]. rewrite Hms.
    replace (max_history self <? len (_metrics self) + 1)%Z with false
      by (symmetry; apply Z.ltb_ge; lia).
    reflexivity.
  - rewrite Hw. unfold _calculate_cost; cbn [cost_usd set_cost_usd].
    destruct (Policies.get_model_pricing (provider m) (model m)) as [[ir or_]|]; reflexivity.
  - apply get_model_pricing_alternatives.
  - intros Hm Hp Hl. rewrite Hw. unfold _calculate_cost; cbn [cost_usd set_cost_usd].
    by rewrite get_model_pricing_unknown.
Qed.

Lemma record_prices_by_model_pricing_witness :
  cost_usd (with_cost (sample "req-1" "tenant-123" "gpt-4o" 1000 500 0))
  = ((inject_Z 1000 * 0.0025 + inject_Z 500 * 0.01) / 1000)%Q.
Proof.
  destruct (record_prices_by_model_pricing (sample "req-1" "tenant-123" "gpt-4o" 1000 500 0))
    as (_ & Hcost & _).
  - reflexivity.
  - reflexivity.
  - assert (Hp : Policies.get_model_pricing "openai" "gpt-4o" = Some (0.0025, 0.01)%Q)
      by (vm_compute; reflexivity).
    cbn [provider model sample] in Hcost. rewrite Hp in Hcost. exact Hcost.
Defined.

(** C6, counterexample.  The model "4o" is not in the pricing table, yet
    [record] prices it with the rates listed for "gpt-4o". *)
Lemma unlisted_model_gets_prefixed_rates :
  let m := sample "req-1" "tenant-123" "4o" 1000 0 0 in
  Policies.MODEL_COSTS !! model m = None
  /\ (cost_usd m == 0)%Q /\ (0 < total_tokens m)%Z
  /\ _metrics (after_record (TelemetryCollector_init 10000) m) = [with_cost m]
  /\ (cost_usd (with_cost m) == 0.0025)%Q
  /\ ~ (cost_usd (with_cost m) == 0)%Q.
Proof.
  cbn zeta. repeat split; try (vm_compute; reflexivity).
  vm_compute. discriminate.
Qed.

(** *** Aggregation *)

Lemma get_stats_run period tenant now self :
  get_stats period tenant now self
  = (self,
     match _parse_period period with
     | Raises e => Raises e
     | Returns delta =>
         match datetime_sub now delta with
         | Raises e => Raises e
         | Returns cutoff => stats cutoff now tenant (select self tenant cutoff)
         end
     end).
Proof.
  unfold get_stats, bind, lift, get.
  destruct (_parse_period period); [|reflexivity].
  destruct (datetime_sub now a); reflexivity.
Qed.

Lemma stats_period cutoff now tenant ms a :
  stats cutoff now tenant ms = Returns a ->
  period_start a = cutoff /\ period_end a = now
  /\ forall cutoff' now',
       stats cutoff' now' tenant ms = Returns (with_period cutoff' now' a).
Proof.
  unfold stats. destruct ms as [|m ms].
  - intros [= <-]. repeat split.
  - unfold aggregate.
    destruct (_percentile _ 50); [|discriminate].
    destruct (_percentile _ 95); [|discriminate].
    destruct (_percentile _ 99); [|discriminate].
    intros [= <-]. repeat split.
Qed.

Lemma datetime_sub_value dt delta r : datetime_sub dt delta = Returns r -> r = (dt - delta)%Z.
Proof. unfold datetime_sub. destruct (_ && _); [by intros [= <-]|discriminate]. Qed.

(** C8, as amended.  Two [get_stats] calls with the same period and tenant
    filter and no [record] in between leave the collector as it was.  Their
    results are equal in every field when both calls read the same clock
    value; when the clock has moved they are equal in every field but
    [period_start] and [period_end], provided the same history entries fall
    inside both windows. *)
Theorem get_stats_twice (self s1 s2 : TelemetryCollector) (period : string)
    (tenant : option string) (now1 now2 : Z) (a1 a2 : AggregatedMetrics) :
  get_stats period tenant now1 self = (s1, Returns a1) ->
  get_stats period tenant now2 s1 = (s2, Returns a2) ->
  s1 = self /\ s2 = self
  /\ period_end a1 = now1 /\ period_end a2 = now2
  /\ (period_start a2 - period_start a1 = now2 - now1)%Z
  /\ (now1 = now2 -> a1 = a2)
  /\ ((forall m, In m (history_for self tenant) ->
                 (period_start a1 <=? timestamp m)%Z = (period_start a2 <=? timestamp m)%Z) ->
      a2 = with_period (period_start a2) (period_end a2) a1).
Proof.
  rewrite get_stats_run. intros [= <- H1]. rewrite get_stats_run. intros [= <- H2].
  destruct (_parse_period period) as [delta|]; [|discriminate].
  destruct (datetime_sub now1 delta) as [c1|] eqn:E1; [|discriminate].
  destruct (datetime_sub now2 delta) as [c2|] eqn:E2; [|discriminate].
  apply datetime_sub_value in E1, E2.
  destruct (stats_period _ _ _ _ _ H1) as (Hs1 & He1 & Hany1).
  destruct (stats_period _ _ _ _ _ H2) as (Hs2 & He2 & _).
  repeat split; try assumption.
  - lia.
  - intros <-. subst c1 c2. congruence.
  - intros Hsame. rewrite Hs1, Hs2 in Hsame.
    assert (Hsel : select self tenant c1 = select self tenant c2).
    { unfold select. apply List.filter_ext_in. exact Hsame. }
    rewrite Hsel in Hany1. rewrite Hs2, He2. specialize (Hany1 c2 now2). congruence.
Qed.

Lemma get_stats_twice_witness :
  exists a1 a2,
    get_stats "1h" None now0 ten_requests = (ten_requests, Returns a1)
    /\ get_stats "1h" None (now0 + 5000000) ten_requests = (ten_requests, Returns a2)
    /\ a2 = with_period (period_start a2) (period_end a2) a1
    /\ period_end a1 = now0 /\ period_end a2 = (now0 + 5000000)%Z.
Proof.
  destruct (stats (now0 - 3600000000) now0 None
              (select ten_requests None (now0 - 3600000000))) as [a1|e1] eqn:S1;
    [|vm_compute in S1; discriminate].
  destruct (stats (now0 + 5000000 - 3600000000) (now0 + 5000000) None
              (select ten_requests None (now0 + 5000000 - 3600000000))) as [a2|e2] eqn:S2;
    [|vm_compute in S2; discriminate].
  assert (E1 : get_stats "1h" None now0 ten_requests = (ten_requests, Returns a1)).
  { rewrite get_stats_run. rewrite <- S1. reflexivity. }
  assert (E2 : get_stats "1h" None (now0 + 5000000) ten_requests
               = (ten_requests, Returns a2)).
  { rewrite get_stats_run. rewrite <- S2. reflexivity. }
  destruct (get_stats_twice _ _ _ _ _ _ _ _ _ E1 E2) as (_ & _ & He1 & He2 & _ & _ & Hsame).
  exists a1, a2. repeat split; try assumption.
  apply Hsame. intros m Hm.
  destruct (stats_period _ _ _ _ _ S1) as (-> & _).
  destruct (stats_period _ _ _ _ _ S2) as (-> & _).
  vm_compute in Hm.
  repeat (destruct Hm as [<-|Hm]; [vm_compute; reflexivity|]). destruct Hm.
Defined.

(** C8, counterexample.  With nothing recorded in between, two calls five
    seconds apart return different values: [period_end] is the clock. *)
Lemma get_stats_differs_with_clock :
  fst (get_stats "1h" None now0 ten_requests) = ten_requests
  /\ snd (get_stats "1h" None now0 ten_requests)
     <> snd (get_stats "1h" None (now0 + 5000000) ten_requests).
Proof.
  split; [rewrite get_stats_run; reflexivity|].
  vm_compute. discriminate.
Qed.

(** *** Percentiles *)

Lemma int_of_float_floor (x : Q) : (0 <= Qnum x)%Z -> int_of_float x = Qfloor x.
Proof.
  destruct x as [n d]; cbn. intros H. apply Z.quot_div_nonneg; lia.
Qed.

Lemma is_integer_floor (x : Q) : is_integer x = Qeq_bool (inject_Z (Qfloor x)) x.
Proof.
  apply eq_true_iff_eq. unfold is_integer.
  rewrite Z.eqb_eq, Qeq_bool_iff.
  destruct x as [n d]; unfold Qeq, Qfloor, inject_Z; cbn [Qnum Qden].
  rewrite <- (Z.div_exact n (Zpos d)) by lia. lia.
Qed.

Lemma Qceiling_not_integer (x : Q) :
  is_integer x = false -> Qceiling x = (Qfloor x + 1)%Z.
Proof.
  destruct x as [n d]; unfold is_integer, Qceiling, Qfloor, Qopp; cbn [Qnum Qden].
  intros H. apply Z.eqb_neq in H. rewrite Z.div_opp_l_nz by lia. lia.
Qed.

Lemma item_in_range (values : list Q) (i : Z) :
  (0 <= i < len values)%Z ->
  item values i = Returns (nth (Z.to_nat i) values 0%Q).
Proof.
  intros [Hlo Hhi]. unfold item, index.
  replace (i <? 0)%Z with false by (symmetry; apply Z.ltb_ge; lia).
  rewrite nth_lookup.
  destruct (lookup_lt_is_Some_2 values (Z.to_nat i)) as [v ->]; [|reflexivity].
  unfold len in Hhi. lia.
Qed.

Lemma percentile_index (n p : Z) :
  let idx := (inject_Z ((n - 1) * p) / 100)%Q in
  Qnum idx = ((n - 1) * p * 1)%Z /\ Qden idx = 100%positive.
Proof. split; reflexivity. Qed.

Lemma percentile_general (values : list Q) (p : Z) :
  values <> [] -> (0 <= p <= 100)%Z ->
  _percentile values p = Returns (percentile_by_interpolation values p).
Proof.
  intros Hne Hp. unfold _percentile, percentile_by_interpolation.
  destruct values as [|v vs] eqn:Ev; [congruence|]. rewrite <- Ev in *. clear Hne.
  fold (len values).
  assert (Hn : (1 <= len values)%Z) by (rewrite Ev; unfold len; cbn; lia).
  set (idx := (inject_Z ((len values - 1) * p) / 100)%Q).
  destruct (percentile_index (len values) p) as [Hnum Hden]. fold idx in Hnum, Hden.
  assert (Hnn : (0 <= Qnum idx)%Z) by (rewrite Hnum; nia).
  assert (Hfl : Qfloor idx = ((len values - 1) * p / 100)%Z).
  { destruct idx as [a d]; cbn in *. subst. f_equal. lia. }
  assert (Hfl_lo : (0 <= Qfloor idx)%Z) by (rewrite Hfl; apply Z.div_pos; nia).
  assert (Hfl_hi : (Qfloor idx <= len values - 1)%Z).
  { rewrite Hfl. apply Z.div_le_upper_bound; nia. }
  assert (Hvalues : match values with [] => False | _ => True end) by (rewrite Ev; exact I).
  rewrite <- is_integer_floor, (int_of_float_floor idx Hnn).
  destruct values as [|v' vs']; [contradiction|]. clear Hvalues.
  set (values := v' :: vs') in *.
  destruct (is_integer idx) eqn:Hint.
  - apply item_in_range. lia.
  - assert (Hlt : (Qfloor idx < len values - 1)%Z).
    { unfold is_integer in Hint. apply Z.eqb_neq in Hint.
      rewrite Hnum, Hden in Hint. rewrite Hfl.
      apply Z.div_lt_upper_bound; [lia|].
      assert ((len values - 1) * p <> 100 * (len values - 1))%Z; [|nia].
      intros Heq. apply Hint. rewrite Z.mul_1_r, Heq, Z.mul_comm. apply Z.mod_mul. lia. }
    rewrite (Qceiling_not_integer idx Hint).
    rewrite Z.min_l by lia.
    rewrite !item_in_range by lia. reflexivity.
Qed.

End TelemetryFacts.

(* ===================================================================== *)
(** ** Facts: percentiles in exact and in binary64 arithmetic *)
(* ===================================================================== *)

Module PercentileFacts.
Import Telemetry TelemetryScenarios TelemetryFacts.
Import PrimFloat.

(** C4.  For a non-empty list of [n] values and a percentile [p] between 0
    and 100, [_percentile] returns the value at index [(n-1)*p/100] when the
    index is a whole number and otherwise interpolates linearly between the
    values at its floor and its ceiling.  For the ten latencies 100, 200,
    ..., 1000 the interpolation gives 550, 955 and 991 in exact arithmetic;
    on binary64 floats [_percentile] returns p50 = 550.0 and p99 = 991.0, the
    average is 550.0, and p95 = 955.0000000000001 (one unit in the last place
    above 955.0, because the index 8.55 is not a binary64 number), less than
    1e-12 away from 955. *)
Theorem percentile_interpolates :
  (forall (values : list Q) (p : Z),
      values <> [] -> (0 <= p <= 100)%Z ->
      Telemetry._percentile values p = Returns (percentile_by_interpolation values p))
  /\ ((percentile_by_interpolation ten_latencies 50 == 550)%Q
      /\ (percentile_by_interpolation ten_latencies 95 == 955)%Q
      /\ (percentile_by_interpolation ten_latencies 99 == 991)%Q)
  /\ Binary64._percentile Binary64.ten_latencies 50 = Returns 550%float
  /\ Binary64._percentile Binary64.ten_latencies 95
     = Returns 0x1.dd80000000001p+9%float
  /\ Binary64._percentile Binary64.ten_latencies 99 = Returns 991%float
  /\ Binary64.latency_avg Binary64.ten_latencies = 550%float
  /\ ltb (abs (sub 0x1.dd80000000001p+9 955)) 0x1p-40 = true.
Proof.
  split; [exact percentile_general|].
  split; [repeat split; vm_compute; reflexivity|].
  repeat split; vm_compute; reflexivity.
Qed.

(** C4, counterexample.  On binary64 floats the p95 of the ten latencies is
    not 955.0. *)
Lemma p95_of_ten_latencies_is_not_955 :
  Binary64._percentile Binary64.ten_latencies 95 = Returns 0x1.dd80000000001p+9%float
  /\ Binary64._percentile Binary64.ten_latencies 95 <> Returns 955%float.
Proof.
  assert (H : Binary64._percentile Binary64.ten_latencies 95
              = Returns 0x1.dd80000000001p+9%float) by (vm_compute; reflexivity).
  split; [exact H|]. rewrite H. intros E.
  pose (is_955 := fun o : outcome float =>
                    match o with Returns x => eqb x 955 | Raises _ => false end).
  assert (Hb : is_955 (Returns 0x1.dd80000000001p+9%float) = is_955 (Returns 955%float))
    by (by rewrite E).
  vm_compute in Hb. discriminate.
Qed.

Lemma percentile_interpolates_witness :
  Telemetry._percentile [100; 200; 300]%Q 50
  = Returns (percentile_by_interpolation [100; 200; 300]%Q 50)
  /\ Binary64._percentile Binary64.ten_latencies 95
     = Returns 0x1.dd80000000001p+9%float.
Proof.
  destruct percentile_interpolates as (Hgen & _ & _ & H95 & _).
  split; [apply Hgen; [discriminate|lia]|exact H95].
Defined.

End PercentileFacts.


(* ===================================================================== *)
(** ** Further facts: the policy enforcer *)
(* ===================================================================== *)

Module PolicyMore.
Import Policies PolicyRules Scenarios PolicyFacts PolicyViews.

(** *** What [validate_request] leaves alone *)

Lemma state_after_usage_records stop rq self :
  usage_records (state_after stop rq self) = usage_records self.
Proof.
  unfold state_after.
  destruct (reset_daily_fst (rq_clock rq) self) as (_ & _ & _ & _ & Hu & _).
  destruct (passed stop RateLimits), (reached stop RateLimits), (reached stop DailyBudget);
    cbn; auto.
Qed.

Lemma state_after_other_window stop rq self p :
  p <> rq_provider rq ->
  _rate_limit_state (state_after stop rq self) !! p = _rate_limit_state self !! p.
Proof.
  intros Hp. unfold state_after.
  destruct (reset_daily_fst (rq_clock rq) self) as (_ & _ & _ & Hrl & _).
  destruct (passed stop RateLimits), (reached stop RateLimits), (reached stop DailyBudget);
    cbn [set_window set_rate_limit_state _rate_limit_state];
    rewrite ?lookup_insert_ne by congruence; rewrite ?Hrl; reflexivity.
Qed.

Lemma validate_request_frame_records (rq : request) (self : PolicyEnforcer) :
  usage_records (fst (validate rq self)) = usage_records self.
Proof.
  destruct (validate_state rq self) as [->|[stop ->]]; [reflexivity|].
  apply state_after_usage_records.
Qed.

Lemma validate_leaves (rq : request) (self : PolicyEnforcer) :
  policy (fst (validate rq self)) = policy self
  /\ usage_records (fst (validate rq self)) = usage_records self
  /\ _monthly_spend (fst (validate rq self)) = _monthly_spend self
  /\ forall p, p <> rq_provider rq ->
               _rate_limit_state (fst (validate rq self)) !! p
               = _rate_limit_state self !! p.
Proof.
  destruct (validate_state rq self) as [->|[stop ->]].
  - repeat split.
  - split; [apply state_after_policy|]. split; [apply state_after_usage_records|].
    split; [apply state_after_monthly|]. intros p Hp. by apply state_after_other_window.
Qed.

(** X1.  Whether it returns or raises, [validate_request] changes neither
    the tenant policy, nor the usage records, nor the monthly spend, and the
    rate-limit window of every provider other than the requested one stays
    as it was. *)
Theorem validate_request_frame (rq : request) (self : PolicyEnforcer) :
  let s' := fst (validate rq self) in
  policy s' = policy self
  /\ usage_records s' = usage_records self
  /\ _monthly_spend s' = _monthly_spend self
  /\ forall p, p <> rq_provider rq ->
               _rate_limit_state s' !! p = _rate_limit_state self !! p.
Proof. exact (validate_leaves rq self). Qed.

(** *** Rate limits after an accepted call *)

Lemma first_violation_none_all pol rq self :
  first_violation rules_in_order pol rq self = None ->
  forall r, violation r pol rq self = None.
Proof.
  unfold rules_in_order, first_violation. intros H r.
  repeat match type of H with
         | match violation ?x pol rq self with _ => _ end = None =>
             destruct (violation x pol rq self) eqn:?; [discriminate|]
         end.
  destruct r; assumption.
Qed.

Lemma validate_returns_inv pol rq self s' :
  policy_for self (rq_provider rq) = Returns pol ->
  validate rq self = (s', Returns tt) ->
  s' = state_after None rq self /\ forall r, violation r pol rq self = None.
Proof.
  intros Hp. rewrite (validate_refines_rules self pol rq Hp). unfold validate_by_rules.
  destruct (first_violation rules_in_order pol rq self) as [[r e]|] eqn:E; [discriminate|].
  intros [= <-]. split; [reflexivity|]. by apply first_violation_none_all.
Qed.

Lemma sumZ_from (l : list Z) (a : Z) : fold_left Z.add l a = (a + sumZ l)%Z.
Proof.
  unfold sumZ. revert a. induction l as [|x l IH]; intros a; cbn; [lia|].
  rewrite IH, (IH (0 + x)%Z). lia.
Qed.

Lemma sumZ_snoc (l : list Z) (x : Z) : sumZ (l ++ [x]) = (sumZ l + x)%Z.
Proof. unfold sumZ. rewrite fold_left_app. reflexivity. Qed.

Lemma prune_fresh (minute_ago : Q) (w : RateWindow) :
  Forall (fun t => (minute_ago < t)%Q) (requests (prune minute_ago w))
  /\ Forall (fun e => (minute_ago < fst e)%Q) (tokens (prune minute_ago w)).
Proof.
  unfold prune; cbn [requests tokens]. split; apply List.Forall_forall; intros x Hx;
    apply List.filter_In in Hx as [_ Hx]; by apply Qgtb_true.
Qed.

(** X2.  After a [validate_request] call that returns, the provider's window
    holds the trailing 60 seconds only (every timestamp in it is newer than
    [now - 60]), ends with the accepted request, and is within the limits
    that are set: at most [rate_limit_rpm] requests and at most
    [rate_limit_tpm] tokens. *)
Theorem accepted_request_within_limits (self s' : PolicyEnforcer)
    (pol : ProviderPolicy) (rq : request) :
  policy_for self (rq_provider rq) = Returns pol ->
  validate rq self = (s', Returns tt) ->
  let w := window_of s' (rq_provider rq) in
  let now := time_time (rq_clock rq) in
  ((0 < rate_limit_rpm pol)%Z -> (len (requests w) <= rate_limit_rpm pol)%Z)
  /\ ((0 < rate_limit_tpm pol)%Z ->
      (sumZ (map snd (tokens w)) <= rate_limit_tpm pol)%Z)
  /\ Forall (fun t => (now - 60 < t)%Q) (requests w)
  /\ Forall (fun e => (now - 60 < fst e)%Q) (tokens w)
  /\ last (requests w) = Some now
  /\ last (tokens w) = Some (now, rq_estimated_tokens rq).
Proof.
  intros Hp Hv. destruct (validate_returns_inv pol rq self s' Hp Hv) as [-> Hall].
  cbn zeta. rewrite window_of_state_after. cbn [passed].
  specialize (Hall RateLimits). cbn [violation] in Hall.
  set (w := window_at self (rq_provider rq) (rq_clock rq)) in *.
  unfold record_request; cbn [requests tokens].
  destruct ((0 <? rate_limit_rpm pol)%Z && (rate_limit_rpm pol <=? len (requests w))%Z)
    eqn:Hrpm; [discriminate|].
  destruct ((0 <? rate_limit_tpm pol)%Z
            && (rate_limit_tpm pol <? sumZ (map snd (tokens w)) + rq_estimated_tokens rq)%Z)
    eqn:Htpm; [discriminate|].
  destruct (prune_fresh (time_time (rq_clock rq) - 60)%Q (window_of self (rq_provider rq)))
    as [Hfr Hft]. fold (window_at self (rq_provider rq) (rq_clock rq)) in Hfr, Hft.
  fold w in Hfr, Hft.
  assert (Hnow : (time_time (rq_clock rq) - 60 < time_time (rq_clock rq))%Q) by lra.
  repeat split.
  - intros H. apply andb_false_iff in Hrpm as [Hc|Hc].
    + apply Z.ltb_ge in Hc. lia.
    + apply Z.leb_gt in Hc. unfold len in *.
      rewrite length_app, Nat2Z.inj_add. cbn [length]. lia.
  - intros H. apply andb_false_iff in Htpm as [Hc|Hc].
    + apply Z.ltb_ge in Hc. lia.
    + apply Z.ltb_ge in Hc. rewrite map_app. cbn [map snd]. rewrite sumZ_snoc. lia.
  - apply Forall_app. split; [exact Hfr|]. by constructor.
  - apply Forall_app. split; [exact Hft|]. by constructor.
  - apply last_snoc.
  - apply last_snoc.
Qed.

Lemma accepted_request_within_limits_witness :
  exists s',
    validate (mini_request 100 None t0) (rpm_enforcer 2 false) = (s', Returns tt)
    /\ (len (requests (window_of s' "openai")) <= 2)%Z.
Proof.
  destruct (validate (mini_request 100 None t0) (rpm_enforcer 2 false)) as [s' o] eqn:E.
  assert (Ho : o = Returns tt) by (apply (f_equal snd) in E; vm_compute in E; congruence).
  subst o. exists s'. split; [reflexivity|].
  destruct (accepted_request_within_limits (rpm_enforcer 2 false) s' (openai_policy 2 false)
              (mini_request 100 None t0)) as (Hrpm & _).
  - vm_compute. reflexivity.
  - exact E.
  - apply Hrpm. reflexivity.
Defined.

(** *** The two lists of a window stay in step *)

Lemma prune_aligned (minute_ago : Q) (w : RateWindow) :
  requests w = map fst (tokens w) ->
  requests (prune minute_ago w) = map fst (tokens (prune minute_ago w)).
Proof.
  destruct w as [rs ts]; unfold prune; cbn [requests tokens]. intros ->.
  induction ts as [|e ts IH]; [reflexivity|]. cbn [map List.filter].
  destruct (Qgtb (fst e) minute_ago); cbn [map]; by rewrite IH.
Qed.

Lemma record_request_aligned (now : Q) (toks : Z) (w : RateWindow) :
  requests w = map fst (tokens w) ->
  requests (record_request now toks w) = map fst (tokens (record_request now toks w)).
Proof.
  unfold record_request; cbn [requests tokens]. intros ->. by rewrite map_app.
Qed.

Lemma window_of_aligned self p :
  aligned self -> requests (window_of self p) = map fst (tokens (window_of self p)).
Proof.
  intros H. unfold window_of. destruct (_rate_limit_state self !! p) as [w|] eqn:E; cbn.
  - by apply (H p).
  - reflexivity.
Qed.

Lemma state_after_aligned stop rq self : aligned self -> aligned (state_after stop rq self).
Proof.
  intros H p w Hw. destruct (decide (p = rq_provider rq)) as [->|Hne].
  - assert (Hwo : window_of (state_after stop rq self) (rq_provider rq) = w)
      by (unfold window_of; by rewrite Hw).
    rewrite window_of_state_after in Hwo. subst w.
    destruct (passed stop RateLimits); [|destruct (reached stop RateLimits)].
    + apply record_request_aligned, prune_aligned, window_of_aligned, H.
    + apply prune_aligned, window_of_aligned, H.
    + apply window_of_aligned, H.
  - rewrite state_after_other_window in Hw by assumption. by apply (H p).
Qed.

Lemma run_rate_limit_state self op :
  (forall prov model toks reason clk, op <> OpValidateRequest prov model toks reason clk) ->
  _rate_limit_state (run self op) = _rate_limit_state self.
Proof.
  intros Hop. destruct op; cbn [run].
  - exfalso. by eapply Hop.
  - reflexivity.
  - unfold record_usage. rewrite bind_get. by destruct (track_usage (policy self)).
  - by rewrite get_usage_report_state.
  - reflexivity.
Qed.

Lemma run_aligned self op : aligned self -> aligned (run self op).
Proof.
  intros H. destruct op.
  - cbn [run]. pose (rq := Build_request prov model estimated_tokens reason clk).
    change (validate_request prov model estimated_tokens reason clk) with (validate rq).
    destruct (validate_state rq self) as [->|[stop ->]]; [assumption|].
    by apply state_after_aligned.
  - exact H.
  - intros p w. rewrite run_rate_limit_state by discriminate. apply H.
  - intros p w. rewrite run_rate_limit_state by discriminate. apply H.
  - intros p w. rewrite run_rate_limit_state by discriminate. apply H.
Qed.

Lemma run_all_aligned self ops : aligned self -> aligned (run_all self ops).
Proof.
  unfold run_all. revert self. induction ops as [|op ops IH]; intros self H; [exact H|].
  cbn. apply IH. by apply run_aligned.
Qed.

Lemma init_aligned pol clk : aligned (PolicyEnforcer_init pol clk).
Proof. intros p w H. cbn in H. by rewrite lookup_empty in H. Qed.

(** X3.  In every enforcer reached from a new one by any operations, each
    provider's window keeps its two lists in step: the request timestamps are
    exactly the timestamps of the (timestamp, tokens) entries, so both hold
    the same number of requests. *)
Theorem rate_window_lists_in_step (pol : TenantPolicy) (clk : clock)
    (ops : list operation) (p : string) :
  let w := window_of (run_all (PolicyEnforcer_init pol clk) ops) p in
  requests w = map fst (tokens w) /\ length (requests w) = length (tokens w).
Proof.
  cbn zeta.
  pose proof (window_of_aligned _ p (run_all_aligned _ ops (init_aligned pol clk))) as H.
  split; [exact H|]. rewrite H. apply length_map.
Qed.

(** *** A window that has aged out *)

Lemma prune_stale (minute_ago : Q) (w : RateWindow) :
  Forall (fun t => (t <= minute_ago)%Q) (requests w) ->
  Forall (fun e => (fst e <= minute_ago)%Q) (tokens w) ->
  prune minute_ago w = empty_window.
Proof.
  intros Hr Ht. destruct w as [rs ts]; cbn in *. unfold prune, empty_window; cbn. f_equal.
  - induction Hr as [|t l Hle _ IH]; [reflexivity|]. cbn.
    replace (Qgtb t minute_ago) with false; [exact IH|].
    symmetry. unfold Qgtb. apply negb_false_iff. by apply Qle_bool_iff.
  - induction Ht as [|t l Hle _ IH]; [reflexivity|]. cbn.
    replace (Qgtb (fst t) minute_ago) with false; [exact IH|].
    symmetry. unfold Qgtb. apply negb_false_iff. by apply Qle_bool_iff.
Qed.

(** X4.  Entries that are 60 seconds old or older no longer count: when
    every entry of the provider's window is that old and every other rule
    passes, [validate_request] returns whatever the RPM limit, provided the
    request's own tokens fit the TPM limit; the window then holds this
    request alone. *)
Theorem rate_limit_window_expires (self : PolicyEnforcer) (pol : ProviderPolicy)
    (rq : request) :
  policy_for self (rq_provider rq) = Returns pol ->
  (forall r, r <> RateLimits -> violation r pol rq self = None) ->
  Forall (fun t => (t <= time_time (rq_clock rq) - 60)%Q)
         (requests (window_of self (rq_provider rq))) ->
  Forall (fun e => (fst e <= time_time (rq_clock rq) - 60)%Q)
         (tokens (window_of self (rq_provider rq))) ->
  (rate_limit_tpm pol <= 0 \/ rq_estimated_tokens rq <= rate_limit_tpm pol)%Z ->
  exists s',
    validate rq self = (s', Returns tt)
    /\ window_of s' (rq_provider rq)
       = {| requests := [time_time (rq_clock rq)];
            tokens := [(time_time (rq_clock rq), rq_estimated_tokens rq)] |}.
Proof.
  intros Hp Hother Hr Ht Htpm.
  assert (Hw : window_at self (rq_provider rq) (rq_clock rq) = empty_window)
    by (unfold window_at; by apply prune_stale).
  exists (state_after None rq self). split.
  - apply (validate_passes pol); [assumption|].
    rewrite first_violation_rate_only by assumption.
    cbn [violation]. rewrite Hw. unfold len, sumZ; cbn [empty_window requests tokens length map fold_left].
    decide_limits.
  - rewrite window_of_state_after. cbn [passed]. by rewrite Hw.
Qed.

Lemma rate_limit_window_expires_witness :
  exists s1 s2,
    validate (mini_request 100 None t0) (rpm_enforcer 1 false) = (s1, Returns tt)
    /\ validate (mini_request 100 None (t0_plus 60)) s1 = (s2, Returns tt).
Proof.
  destruct (validate (mini_request 100 None t0) (rpm_enforcer 1 false)) as [s1 o] eqn:E.
  assert (E' := E). vm_compute in E'. injection E' as E1 E2. subst o.
  destruct (rate_limit_window_expires s1 (openai_policy 1 false)
              (mini_request 100 None (t0_plus 60))) as (s2 & Hv & _).
  - subst s1. vm_compute. reflexivity.
  - intros r Hr. subst s1. destruct r; try congruence; vm_compute; reflexivity.
  - subst s1. vm_compute. repeat constructor. discriminate.
  - subst s1. vm_compute. repeat constructor. discriminate.
  - right. cbn. lia.
  - exists s1, s2. split; [reflexivity|exact Hv].
Defined.

(** *** Cost tiers *)

(** X5.  [_tier_exceeds_limit] is the strict order
    FREE < LOW < MEDIUM < HIGH < PREMIUM: each tier of this chain exceeds the
    one before it, no tier exceeds itself, exceeding is transitive, and of
    two different tiers exactly one exceeds the other (so FREE exceeds
    nothing and nothing exceeds PREMIUM).  Hence a model allowed under a
    limit stays allowed under every higher limit. *)
Theorem tier_order_is_strict_and_total (a b c : CostTier) :
  (_tier_exceeds_limit LOW FREE = true
   /\ _tier_exceeds_limit MEDIUM LOW = true
   /\ _tier_exceeds_limit HIGH MEDIUM = true
   /\ _tier_exceeds_limit PREMIUM HIGH = true)
  /\ _tier_exceeds_limit a a = false
  /\ (_tier_exceeds_limit a b = true -> _tier_exceeds_limit b c = true ->
      _tier_exceeds_limit a c = true)
  /\ (a <> b -> _tier_exceeds_limit a b = negb (_tier_exceeds_limit b a))
  /\ _tier_exceeds_limit FREE a = false
  /\ _tier_exceeds_limit a PREMIUM = false
  /\ (_tier_exceeds_limit a b = false -> _tier_exceeds_limit c b = true ->
      _tier_exceeds_limit c a = true).
Proof.
  split; [|split; [|split; [|split; [|split; [|split]]]]].
  - repeat split; vm_compute; reflexivity.
  - destruct a; vm_compute; reflexivity.
  - destruct a, b, c; vm_compute; congruence.
  - destruct a, b; vm_compute; congruence.
  - destruct a; vm_compute; reflexivity.
  - destruct a; vm_compute; reflexivity.
  - destruct a, b, c; vm_compute; congruence.
Qed.

Lemma tier_order_is_strict_and_total_witness :
  _tier_exceeds_limit HIGH LOW = true /\ _tier_exceeds_limit LOW HIGH = false.
Proof.
  destruct (tier_order_is_strict_and_total HIGH MEDIUM LOW)
    as ((_ & Hml & Hhm & _) & _ & Htrans & _).
  destruct (tier_order_is_strict_and_total LOW HIGH LOW) as (_ & _ & _ & Hasym & _).
  assert (H : _tier_exceeds_limit HIGH LOW = true) by (apply Htrans; assumption).
  split; [exact H|]. rewrite Hasym by discriminate. by rewrite H.
Defined.

(** *** Cost estimates *)

Lemma model_costs_ordered model input_cost output_cost :
  MODEL_COSTS !! model = Some (input_cost, output_cost) ->
  (0 <= input_cost)%Q /\ (input_cost <= output_cost)%Q.
Proof.
  intros H. unfold MODEL_COSTS in H. apply elem_of_list_to_map_2 in H.
  repeat (apply elem_of_cons in H as [[= -> -> ->]|H];
          [split; vm_compute; discriminate|]).
  by apply elem_of_nil in H.
Qed.

Lemma Qnum_nonneg (x : Q) : (0 <= x)%Q -> (0 <= Qnum x)%Z.
Proof. destruct x as [n d]. unfold Qle; cbn. lia. Qed.

Lemma int_of_float_share (toks : Z) (ratio : Q) :
  (0 <= toks)%Z -> (0 <= ratio)%Q -> (ratio <= 1)%Q ->
  (0 <= int_of_float (inject_Z toks * ratio) <= toks)%Z.
Proof.
  intros Ht H0 H1.
  assert (Htq : (0 <= inject_Z toks)%Q)
    by (change 0%Q with (inject_Z 0); by rewrite <- Zle_Qle).
  assert (Hx0 : (0 <= inject_Z toks * ratio)%Q) by (by apply Qmult_le_0_compat).
  assert (Hx1 : (inject_Z toks * ratio <= inject_Z toks)%Q).
  { rewrite Qmult_comm. rewrite <- (Qmult_1_l (inject_Z toks)) at 2.
    by apply Qmult_le_compat_r. }
  assert (Hn : (0 <= Qnum (inject_Z toks * ratio))%Z) by (by apply Qnum_nonneg).
  rewrite (TelemetryFacts.int_of_float_floor _ Hn). split.
  - exact (Qfloor_resp_le _ _ Hx0).
  - pose proof (Qfloor_resp_le _ _ Hx1) as H. by rewrite Qfloor_Z in H.
Qed.

(** X6.  For a token count that is not negative and an input ratio between
    0 and 1, [estimate_cost] is never negative; for a model of the pricing
    table it lies between the whole count priced at the input rate and the
    whole count priced at the output rate (every entry of the table has
    0 <= input rate <= output rate), and for any other model it is 0. *)
Theorem estimate_cost_bounds (model : string) (toks : Z) (ratio : Q) :
  (0 <= toks)%Z -> (0 <= ratio)%Q -> (ratio <= 1)%Q ->
  (0 <= estimate_cost model toks ratio)%Q
  /\ match MODEL_COSTS !! model with
     | Some (input_cost, output_cost) =>
         (inject_Z toks * input_cost / 1000 <= estimate_cost model toks ratio)%Q
         /\ (estimate_cost model toks ratio <= inject_Z toks * output_cost / 1000)%Q
     | None => estimate_cost model toks ratio = 0%Q
     end.
Proof.
  intros Ht H0 H1. unfold estimate_cost.
  destruct (MODEL_COSTS !! model) as [[i o]|] eqn:E; [|split; [apply Qle_refl|reflexivity]].
  destruct (model_costs_ordered _ _ _ E) as [Hi Hio].
  destruct (int_of_float_share toks ratio Ht H0 H1) as [Hlo Hhi].
  set (it := int_of_float (inject_Z toks * ratio)) in *.
  assert (Ha : (0 <= inject_Z it)%Q)
    by (change 0%Q with (inject_Z 0); by rewrite <- Zle_Qle).
  assert (Hb : (0 <= inject_Z (toks - it))%Q)
    by (change 0%Q with (inject_Z 0); rewrite <- Zle_Qle; lia).
  assert (Hsum : (inject_Z toks == inject_Z it + inject_Z (toks - it))%Q).
  { rewrite <- inject_Z_plus. apply inject_Z_injective. lia. }
  set (a := inject_Z it) in *. set (b := inject_Z (toks - it)) in *.
  assert (Hai : (0 <= a * i)%Q) by (by apply Qmult_le_0_compat).
  assert (Hbo : (0 <= b * (o - i))%Q) by (apply Qmult_le_0_compat; [assumption|lra]).
  assert (Hao : (0 <= a * (o - i))%Q) by (apply Qmult_le_0_compat; [assumption|lra]).
  assert (Hbi : (0 <= b * i)%Q) by (by apply Qmult_le_0_compat).
  assert (Hbo' : (b * (o - i) == b * o - b * i)%Q) by ring.
  assert (Hao' : (a * (o - i) == a * o - a * i)%Q) by ring.
  rewrite Hbo' in Hbo. rewrite Hao' in Hao.
  assert (Hl : ((a + b) * i == a * i + b * i)%Q) by ring.
  assert (Hr : ((a + b) * o == a * o + b * o)%Q) by ring.
  rewrite Hsum, Hl, Hr.
  set (ai := (a * i)%Q) in *. set (bi := (b * i)%Q) in *.
  set (ao := (a * o)%Q) in *. set (bo := (b * o)%Q) in *.
  clearbody ai bi ao bo. clear Hbo' Hao' Hl Hr Hsum.
  unfold Qdiv. change (/ 1000)%Q with (1 # 1000)%Q.
  split; [|split]; lra.
Qed.

Lemma estimate_cost_bounds_witness :
  (inject_Z 2000 * 0.015 / 1000 <= estimate_cost "claude-3-opus" 2000 default_input_ratio)%Q
  /\ (estimate_cost "claude-3-opus" 2000 default_input_ratio
      <= inject_Z 2000 * 0.075 / 1000)%Q.
Proof.
  destruct (estimate_cost_bounds "claude-3-opus" 2000 default_input_ratio) as [_ H].
  - lia.
  - vm_compute. discriminate.
  - vm_compute. discriminate.
  - assert (E : MODEL_COSTS !! "claude-3-opus" = Some (0.015, 0.075)%Q)
      by (vm_compute; reflexivity).
    rewrite E in H. exact H.
Defined.


(** *** Usage records and spend *)

Lemma record_usage_state prov model ti to_ cost lat ok reason clk self :
  let s' := fst (record_usage prov model ti to_ cost lat ok reason clk self) in
  if track_usage (policy self)
  then exists r,
         usage_records s' = usage_records self ++ [r]
         /\ ur_cost_usd r = cost
         /\ ur_tokens_total r = (ti + to_)%Z
         /\ ur_provider r = prov /\ ur_model r = model
         /\ ur_timestamp r = utcnow clk
         /\ ur_latency_ms r = lat /\ ur_success r = ok
         /\ _monthly_spend s' = (_monthly_spend self + cost)%Q
         /\ _daily_spend s' = (_daily_spend self + cost)%Q
         /\ policy s' = policy self
  else s' = self.
Proof.
  cbn zeta. unfold record_usage. rewrite bind_get.
  destruct (track_usage (policy self)); [|reflexivity].
  eexists. cbn. repeat split.
Qed.

Lemma run_usage_records self op :
  usage_records (run self op) = usage_records self
  \/ exists r, usage_records (run self op) = usage_records self ++ [r].
Proof.
  destruct op; cbn [run].
  - pose (rq := Build_request prov model estimated_tokens reason clk).
    change (validate_request prov model estimated_tokens reason clk) with (validate rq).
    left. apply (validate_request_frame_records rq self).
  - by left.
  - pose proof (record_usage_state prov model tokens_input tokens_output cost_usd
                  latency_ms success reason clk self) as H. cbn zeta in H.
    destruct (track_usage (policy self)).
    + destruct H as (r & Hr & _). right. eauto.
    + left. by rewrite H.
  - left. by rewrite get_usage_report_state.
  - by left.
Qed.

(** X7.  Usage records are append-only: whatever operations run on an
    enforcer (resets included), the records it held are still there,
    unchanged and in the same order, at the front of the list. *)
Theorem usage_records_append_only (self : PolicyEnforcer) (ops : list operation) :
  usage_records self `prefix_of` usage_records (run_all self ops).
Proof.
  unfold run_all. revert self. induction ops as [|op ops IH]; intros self; [done|].
  cbn [fold_left]. etrans; [|apply IH].
  destruct (run_usage_records self op) as [->|[r ->]]; [done|]. by apply prefix_app_r.
Qed.

Lemma sumQ_snoc (l : list Q) (x : Q) : sumQ (l ++ [x]) = (sumQ l + x)%Q.
Proof. unfold sumQ. by rewrite fold_left_app. Qed.

Lemma run_spend_accounted self op :
  explicit_reset op = false ->
  (_monthly_spend self == sumQ (map ur_cost_usd (usage_records self)))%Q ->
  (_monthly_spend (run self op) == sumQ (map ur_cost_usd (usage_records (run self op))))%Q.
Proof.
  intros Hreset H. destruct op; cbn [run]; try discriminate.
  - pose (rq := Build_request prov model estimated_tokens reason clk).
    change (validate_request prov model estimated_tokens reason clk) with (validate rq).
    destruct (validate_leaves rq self) as (_ & -> & -> & _). exact H.
  - exact H.
  - pose proof (record_usage_state prov model tokens_input tokens_output cost_usd
                  latency_ms success reason clk self) as Hs. cbn zeta in Hs.
    destruct (track_usage (policy self)).
    + destruct Hs as (r & -> & Hc & _ & _ & _ & _ & _ & _ & -> & _).
      rewrite map_app. cbn [map]. rewrite sumQ_snoc, Hc, H. reflexivity.
    + by rewrite Hs.
  - by rewrite get_usage_report_state.
Qed.

(** X8.  In an enforcer built by [PolicyEnforcer(policy)] and used without
    [reset_monthly_budget], the monthly spend is always the sum of the costs
    of the usage records. *)
Theorem monthly_spend_is_recorded_cost (pol : TenantPolicy) (clk : clock)
    (ops : list operation) :
  Forall (fun op => explicit_reset op = false) ops ->
  let self := run_all (PolicyEnforcer_init pol clk) ops in
  (_monthly_spend self == sumQ (map ur_cost_usd (usage_records self)))%Q.
Proof.
  intros Hops. cbn zeta. unfold run_all.
  assert (H : (_monthly_spend (PolicyEnforcer_init pol clk)
               == sumQ (map ur_cost_usd (usage_records (PolicyEnforcer_init pol clk))))%Q)
    by reflexivity.
  revert H. generalize (PolicyEnforcer_init pol clk).
  induction Hops as [|op ops Hop _ IH]; intros self H; [exact H|].
  cbn [fold_left]. apply IH. by apply run_spend_accounted.
Qed.

Lemma monthly_spend_is_recorded_cost_witness :
  let self := run_all (PolicyEnforcer_init (tenant 100 None true ∅) t0)
                [ OpRecordUsage "openai" "gpt-4o" 1500 500 0.0045 1200 true None t0;
                  OpValidateRequest "openai" "gpt-4o" 2000 None (t0_plus 5);
                  OpRecordUsage "anthropic" "claude-3-opus" 500 500 0.045 900 true None
                                (t0_plus 9) ] in
  (_monthly_spend self == 0.0495)%Q
  /\ (sumQ (map ur_cost_usd (usage_records self)) == 0.0495)%Q.
Proof.
  cbn zeta.
  match goal with
  | |- (_monthly_spend (run_all ?s ?ops) == _)%Q /\ _ =>
      pose proof (monthly_spend_is_recorded_cost (tenant 100 None true ∅) t0 ops) as H
  end.
  cbn zeta in H. split.
  - vm_compute. reflexivity.
  - rewrite <- H; [vm_compute; reflexivity|]. repeat constructor.
Defined.


(** *** The usage report *)

Lemma fold_add_provider (l : list UsageRecord) (acc : gmap string ProviderStats)
    (p : string) :
  fold_left add_provider l acc !! p
  = match of_provider p l with
    | [] => acc !! p
    | rs =>
        let cur := default no_provider_stats (acc !! p) in
        Some {| ps_requests := ps_requests cur + len rs;
                ps_cost_usd := fold_left Qplus (map ur_cost_usd rs) (ps_cost_usd cur);
                ps_tokens := fold_left Z.add (map ur_tokens_total rs) (ps_tokens cur);
                ps_avg_latency_ms := ps_avg_latency_ms cur;
                ps_success_rate := ps_success_rate cur |}
    end.
Proof.
  revert acc. induction l as [|x l IH]; intros acc; [reflexivity|].
  cbn [fold_left]. rewrite IH. unfold of_provider; cbn [List.filter].
  fold (of_provider p l). unfold add_provider.
  destruct (String.eqb_spec (ur_provider x) p) as [->|Hne].
  - rewrite lookup_insert_eq.
    set (cur := default _ (acc !! p)).
    destruct (of_provider p l) as [|y rs]; [reflexivity|].
    cbn zeta. cbn [default from_option id ps_requests ps_cost_usd ps_tokens
                    ps_avg_latency_ms ps_success_rate map fold_left].
    f_equal. f_equal; try reflexivity. unfold len; cbn [length]. lia.
  - rewrite lookup_insert_ne by assumption. reflexivity.
Qed.

Lemma fold_add_model (l : list UsageRecord) (acc : gmap string ModelStats) (m : string) :
  fold_left add_model l acc !! m
  = match of_model m l with
    | [] => acc !! m
    | rs =>
        let cur := default no_model_stats (acc !! m) in
        Some {| ms_requests := ms_requests cur + len rs;
                ms_cost_usd := fold_left Qplus (map ur_cost_usd rs) (ms_cost_usd cur);
                ms_tokens := fold_left Z.add (map ur_tokens_total rs) (ms_tokens cur);
                ms_avg_latency_ms := ms_avg_latency_ms cur |}
    end.
Proof.
  revert acc. induction l as [|x l IH]; intros acc; [reflexivity|].
  cbn [fold_left]. rewrite IH. unfold of_model; cbn [List.filter].
  fold (of_model m l). unfold add_model.
  destruct (String.eqb_spec (ur_model x) m) as [->|Hne].
  - rewrite lookup_insert_eq.
    set (cur := default _ (acc !! m)).
    destruct (of_model m l) as [|y rs]; [reflexivity|].
    cbn zeta. cbn [default from_option id ms_requests ms_cost_usd ms_tokens
                    ms_avg_latency_ms map fold_left].
    f_equal. f_equal; try reflexivity. unfold len; cbn [length]. lia.
  - rewrite lookup_insert_ne by assumption. reflexivity.
Qed.

Lemma timedelta_value us r : timedelta us = Returns r -> r = us.
Proof. unfold timedelta. destruct (_ <=? _)%Z; [by intros [= <-]|discriminate]. Qed.

Lemma report_contents (days : Z) (clk : clock) (self : PolicyEnforcer)
    (rep : UsageReport) :
  snd (get_usage_report days clk self) = Returns rep ->
  let recent := recent_records days clk self in
  rep_total_requests rep = len recent
  /\ rep_total_tokens rep = sumZ (map ur_tokens_total recent)
  /\ rep_total_cost_usd rep = sumQ (map ur_cost_usd recent)
  /\ (forall p,
        rep_by_provider rep !! p
        = match of_provider p recent with
          | [] => None
          | rs =>
              Some {| ps_requests := len rs;
                      ps_cost_usd := sumQ (map ur_cost_usd rs);
                      ps_tokens := sumZ (map ur_tokens_total rs);
                      ps_avg_latency_ms :=
                        (sumQ (map ur_latency_ms recent) / inject_Z (len recent))%Q;
                      ps_success_rate :=
                        (inject_Z (len (List.filter ur_success recent))
                         / inject_Z (len recent) * 100)%Q |}
          end)
  /\ (forall m,
        rep_by_model rep !! m
        = match of_model m recent with
          | [] => None
          | rs =>
              Some {| ms_requests := len rs;
                      ms_cost_usd := sumQ (map ur_cost_usd rs);
                      ms_tokens := sumZ (map ur_tokens_total rs);
                      ms_avg_latency_ms :=
                        (sumQ (map ur_latency_ms rs) / inject_Z (len rs))%Q |}
          end).
Proof.
  unfold get_usage_report, bind, get, lift.
  destruct (timedelta (days * 86400000000)) as [delta|] eqn:Ed; [|discriminate].
  destruct (datetime_sub (utcnow clk) delta) as [cutoff|] eqn:Ec; [|discriminate].
  apply timedelta_value in Ed. apply TelemetryFacts.datetime_sub_value in Ec. subst.
  fold (recent_records days clk self). cbn zeta.
  destruct (recent_records days clk self) as [|r0 rs0] eqn:Er.
  - intros [= <-]. cbn. repeat split; intros; apply lookup_empty.
  - rewrite <- Er. clear Er. set (recent := recent_records days clk self).
    intros [= <-].
    cbn [rep_total_requests rep_total_tokens rep_total_cost_usd rep_by_provider rep_by_model].
    split; [reflexivity|]. split; [reflexivity|]. split; [reflexivity|]. split.
    + intros p. rewrite lookup_fmap, fold_add_provider, lookup_empty.
      destruct (of_provider p recent) as [|y rs]; [reflexivity|].
      reflexivity.
    + intros m. rewrite map_lookup_imap, fold_add_model, lookup_empty.
      fold (of_model m recent).
      destruct (of_model m recent) as [|y rs]; [reflexivity|].
      reflexivity.
Qed.


(** X9.  What a usage report holds.  The totals count, and sum the tokens
    and costs of, the records whose timestamp is within the last [days] days.
    A provider (a model) has an entry exactly when such a record names it,
    and the entry counts and sums that provider's (that model's) records.
    The average latency of a model's entry is taken over the model's records,
    while the average latency and the success rate of every provider's entry
    are taken over all the records of the window. *)
Theorem usage_report_contents (days : Z) (clk : clock) (self : PolicyEnforcer)
    (rep : UsageReport) :
  snd (get_usage_report days clk self) = Returns rep ->
  let recent := recent_records days clk self in
  rep_total_requests rep = len recent
  /\ rep_total_tokens rep = sumZ (map ur_tokens_total recent)
  /\ rep_total_cost_usd rep = sumQ (map ur_cost_usd recent)
  /\ (forall p,
        rep_by_provider rep !! p
        = match of_provider p recent with
          | [] => None
          | rs =>
              Some {| ps_requests := len rs;
                      ps_cost_usd := sumQ (map ur_cost_usd rs);
                      ps_tokens := sumZ (map ur_tokens_total rs);
                      ps_avg_latency_ms :=
                        (sumQ (map ur_latency_ms recent) / inject_Z (len recent))%Q;
                      ps_success_rate :=
                        (inject_Z (len (List.filter ur_success recent))
                         / inject_Z (len recent) * 100)%Q |}
          end)
  /\ (forall m,
        rep_by_model rep !! m
        = match of_model m recent with
          | [] => None
          | rs =>
              Some {| ms_requests := len rs;
                      ms_cost_usd := sumQ (map ur_cost_usd rs);
                      ms_tokens := sumZ (map ur_tokens_total rs);
                      ms_avg_latency_ms :=
                        (sumQ (map ur_latency_ms rs) / inject_Z (len rs))%Q |}
          end).
Proof. exact (report_contents days clk self rep). Qed.

Lemma usage_report_contents_witness :
  let self := run_all (PolicyEnforcer_init (tenant 100 None true ∅) t0)
                [ OpRecordUsage "openai" "gpt-4o-mini" 500 300 0.001 800 true None t0;
                  OpRecordUsage "openai" "gpt-4o" 1500 500 0.008 1200 true None (t0_plus 5);
                  OpRecordUsage "anthropic" "claude-3-5-sonnet" 1000 500 0.01 1500 false None
                                (t0_plus 9) ] in
  exists rep,
    snd (get_usage_report 30 (t0_plus 60) self) = Returns rep
    /\ rep_total_requests rep = 3%Z
    /\ (ps_requests <$> rep_by_provider rep !! "openai") = Some 2%Z
    /\ (ms_requests <$> rep_by_model rep !! "gpt-4o") = Some 1%Z.
Proof.
  cbn zeta.
  match goal with
  | |- exists rep, snd (get_usage_report _ _ ?s) = _ /\ _ => set (self := s)
  end.
  destruct (snd (get_usage_report 30 (t0_plus 60) self)) as [rep|e] eqn:E;
    [|vm_compute in E; discriminate].
  exists rep. split; [reflexivity|].
  destruct (usage_report_contents 30 (t0_plus 60) self rep E) as (Hn & _ & _ & Hp & Hm).
  split; [rewrite Hn; vm_compute; reflexivity|]. split.
  - rewrite Hp. vm_compute. reflexivity.
  - rewrite Hm. vm_compute. reflexivity.
Defined.

(** X10.  Round trip: record one usage in a new enforcer that tracks usage
    and ask for a report whose window includes the record; the report shows
    one request with that record's tokens and cost in the totals, in the
    entry of its provider and in the entry of its model. *)
Theorem recorded_usage_is_reported (pol : TenantPolicy) (clk0 clk clk' : clock)
    (prov model : string) (ti to_ : Z) (cost lat : Q) (ok : bool)
    (reason : option string) (days : Z) (rep : UsageReport) :
  track_usage pol = true ->
  (utcnow clk' - days * 86400000000 <= utcnow clk)%Z ->
  let self := fst (record_usage prov model ti to_ cost lat ok reason clk
                     (PolicyEnforcer_init pol clk0)) in
  snd (get_usage_report days clk' self) = Returns rep ->
  rep_total_requests rep = 1%Z
  /\ rep_total_tokens rep = (ti + to_)%Z
  /\ (rep_total_cost_usd rep == cost)%Q
  /\ (exists st, rep_by_provider rep !! prov = Some st
                 /\ ps_requests st = 1%Z /\ ps_tokens st = (ti + to_)%Z
                 /\ (ps_cost_usd st == cost)%Q /\ (ps_avg_latency_ms st == lat)%Q
                 /\ (ps_success_rate st == if ok then 100 else 0)%Q)
  /\ (exists st, rep_by_model rep !! model = Some st
                 /\ ms_requests st = 1%Z /\ ms_tokens st = (ti + to_)%Z
                 /\ (ms_cost_usd st == cost)%Q /\ (ms_avg_latency_ms st == lat)%Q)
  /\ (forall p, p <> prov -> rep_by_provider rep !! p = None)
  /\ (forall m, m <> model -> rep_by_model rep !! m = None).
Proof.
  intros Htrack Hwin self Hrep.
  pose proof (record_usage_state prov model ti to_ cost lat ok reason clk
                (PolicyEnforcer_init pol clk0)) as Hs.
  cbn zeta in Hs. cbn [policy PolicyEnforcer_init] in Hs. rewrite Htrack in Hs.
  destruct Hs as (r & Hrs & Hc & Htot & Hprov & Hmodel & Hts & Hlat & Hok & _).
  fold self in Hrs. cbn [usage_records PolicyEnforcer_init app] in Hrs.
  assert (Hrecent : recent_records days clk' self = [r]).
  { unfold recent_records. rewrite Hrs. cbn [List.filter]. rewrite Hts.
    by replace (utcnow clk' - days * 86400000000 <=? utcnow clk)%Z with true
      by (symmetry; apply Z.leb_le; assumption). }
  destruct (report_contents days clk' self rep Hrep) as (Hn & Htk & Hcost & Hp & Hm).
  rewrite Hrecent in *.
  assert (Hop : forall p, of_provider p [r] = if String.eqb prov p then [r] else []).
  { intros p. unfold of_provider; cbn [List.filter]. rewrite Hprov.
    by destruct (String.eqb prov p). }
  assert (Hom : forall m, of_model m [r] = if String.eqb model m then [r] else []).
  { intros m. unfold of_model; cbn [List.filter]. rewrite Hmodel.
    by destruct (String.eqb model m). }
  assert (Hone : forall x : Q, (0 + x == x)%Q) by (intros; ring).
  assert (Hdiv : forall x : Q, ((0 + x) / inject_Z 1 == x)%Q) by (intros; field).
  split; [exact Hn|]. split; [rewrite Htk; cbn; rewrite Htot; lia|].
  split; [rewrite Hcost; unfold sumQ; cbn [map fold_left]; rewrite Hc; apply Hone|].
  split; [|split; [|split]].
  - eexists. split; [rewrite Hp, Hop, String.eqb_refl; reflexivity|].
    cbn [ps_requests ps_tokens ps_cost_usd ps_avg_latency_ms ps_success_rate].
    unfold sumQ, sumZ, len; cbn [map fold_left length List.filter].
    rewrite Hc, Htot, Hlat, Hok.
    split; [reflexivity|]. split; [lia|]. split; [apply Hone|]. split; [apply Hdiv|].
    destruct ok; cbn [length]; vm_compute; reflexivity.
  - eexists. split; [rewrite Hm, Hom, String.eqb_refl; reflexivity|].
    cbn [ms_requests ms_tokens ms_cost_usd ms_avg_latency_ms].
    unfold sumQ, sumZ, len; cbn [map fold_left length].
    rewrite Hc, Htot, Hlat.
    split; [reflexivity|]. split; [lia|]. split; [apply Hone|apply Hdiv].
  - intros p Hne. rewrite Hp, Hop. apply String.eqb_neq in Hne.
    rewrite String.eqb_sym in Hne. by rewrite Hne.
  - intros m Hne. rewrite Hm, Hom. apply String.eqb_neq in Hne.
    rewrite String.eqb_sym in Hne. by rewrite Hne.
Qed.

Lemma recorded_usage_is_reported_witness :
  exists rep,
    snd (get_usage_report 30 (t0_plus 60)
           (fst (record_usage "openai" "gpt-4o" 1500 500 0.0045 1200 true None t0
                   (PolicyEnforcer_init (tenant 100 None true ∅) t0))))
    = Returns rep
    /\ rep_total_requests rep = 1%Z /\ (rep_total_cost_usd rep == 0.0045)%Q.
Proof.
  match goal with
  | |- exists rep, snd ?call = _ /\ _ => destruct (snd call) as [rep|e] eqn:E
  end; [|vm_compute in E; discriminate].
  exists rep. split; [reflexivity|].
  destruct (recorded_usage_is_reported (tenant 100 None true ∅) t0 t0 (t0_plus 60)
              "openai" "gpt-4o" 1500 500 0.0045 1200 true None 30 rep)
    as (Hn & _ & Hc & _).
  - reflexivity.
  - vm_compute. discriminate.
  - exact E.
  - split; [exact Hn|exact Hc].
Defined.

(** X11.  For a model of the pricing table the enforcer's estimate is the
    cost the telemetry collector computes for the assumed split of the
    tokens (the input share rounded down, the rest output), whatever the
    provider. *)
Theorem estimate_is_telemetry_cost_of_split (prov model : string) (toks : Z)
    (ratio : Q) (rates : Q * Q) :
  MODEL_COSTS !! model = Some rates ->
  let input_tokens := int_of_float (inject_Z toks * ratio) in
  estimate_cost model toks ratio
  = Telemetry._calculate_cost prov model input_tokens (toks - input_tokens).
Proof.
  intros H. cbn zeta. unfold estimate_cost, Telemetry._calculate_cost, get_model_pricing.
  rewrite H. by destruct rates.
Qed.

Lemma estimate_is_telemetry_cost_of_split_witness :
  estimate_cost "gpt-4o" 2000 default_input_ratio
  = Telemetry._calculate_cost "openai" "gpt-4o" 1400 600.
Proof.
  exact (estimate_is_telemetry_cost_of_split "openai" "gpt-4o" 2000 default_input_ratio
           (0.0025, 0.01)%Q ltac:(vm_compute; reflexivity)).
Defined.

End PolicyMore.

(* ===================================================================== *)
(** ** Further facts: the telemetry collector *)
(* ===================================================================== *)

Module TelemetryMore.
Import Telemetry TelemetryScenarios TelemetryFacts TelemetryViews.

(** *** The history after a run of [record] calls *)

Lemma after_records_snoc self ms m :
  after_records self (ms ++ [m]) = after_record (after_records self ms) m.
Proof. unfold after_records. by rewrite fold_left_app. Qed.

Lemma tail_drop {A} (k : nat) (l : list A) : tail (drop k l) = drop (S k) l.
Proof.
  revert l. induction k as [|k IH]; intros [|x l]; try reflexivity. apply IH.
Qed.

Lemma retained_history (n : Z) (ms : list LLMRequestMetrics) :
  (0 <= n)%Z ->
  _metrics (after_records (TelemetryCollector_init n) ms)
  = drop (length ms - Z.to_nat n) (map with_cost ms).
Proof.
  intros Hn. induction ms as [|m ms IH] using rev_ind; [reflexivity|].
  rewrite after_records_snoc.
  assert (Hok : history_ok n (after_records (TelemetryCollector_init n) ms)).
  { apply records_history_ok; [assumption|].
    split; [reflexivity|]. split; [exact Hn|apply init_indexed]. }
  destruct Hok as (Hmax & Hlen & Hidx).
  destruct (record_step _ m Hidx) as (self' & Hrec & _ & Hms & _).
  unfold after_record. rewrite Hrec. cbn [fst]. rewrite Hms, Hmax, IH.
  rewrite map_app, length_app. cbn [map length].
  assert (Hl : length (map with_cost ms) = length ms) by apply length_map.
  unfold len. rewrite length_drop, Hl.
  destruct (Z.ltb_spec n (Z.of_nat (length ms - (length ms - Z.to_nat n)) + 1)).
  - assert (Hge : (Z.to_nat n <= length ms)%nat) by lia.
    replace (length ms + 1 - Z.to_nat n)%nat with (S (length ms - Z.to_nat n)) by lia.
    rewrite <- (drop_app_le _ _ (length ms - Z.to_nat n)) by lia.
    apply tail_drop.
  - replace (length ms - Z.to_nat n)%nat with 0%nat by lia.
    replace (length ms + 1 - Z.to_nat n)%nat with 0%nat by lia. reflexivity.
Qed.


(** X12.  The history holds the latest entries: after recording [ms] in a
    collector built with [max_history = n >= 0], the history is the last [n]
    of the recorded metrics (each with its cost filled in), in recording
    order; nothing is dropped while fewer than [n] have been recorded. *)
Theorem history_keeps_the_latest (n : Z) (ms : list LLMRequestMetrics) :
  (0 <= n)%Z ->
  let self := after_records (TelemetryCollector_init n) ms in
  _metrics self = drop (length ms - Z.to_nat n) (map with_cost ms)
  /\ len (_metrics self) = Z.min n (len ms)
  /\ ((len ms <= n)%Z -> _metrics self = map with_cost ms).
Proof.
  intros Hn. cbn zeta. rewrite (retained_history n ms Hn).
  split; [reflexivity|]. split.
  - unfold len. rewrite length_drop, length_map. lia.
  - unfold len. intros Hle.
    replace (length ms - Z.to_nat n)%nat with 0%nat by lia. reflexivity.
Qed.

Lemma history_keeps_the_latest_witness :
  map request_id
      (_metrics (after_records (TelemetryCollector_init 2)
                   [ sample "req-0" "a" "gpt-4o" 100 50 120;
                     sample "req-1" "b" "gpt-4o" 100 50 120;
                     sample "req-2" "a" "gpt-4o" 100 50 120 ]))
  = ["req-1"; "req-2"].
Proof.
  destruct (history_keeps_the_latest 2
              [ sample "req-0" "a" "gpt-4o" 100 50 120;
                sample "req-1" "b" "gpt-4o" 100 50 120;
                sample "req-2" "a" "gpt-4o" 100 50 120 ]) as (H & _); [lia|].
  cbn zeta in H. rewrite H. vm_compute. reflexivity.
Defined.

(** *** Sorting and percentiles *)




Lemma insert_sorted_perm (x : Q) (l : list Q) : insert_sorted x l ≡ₚ x :: l.
Proof.
  induction l as [|y l IH]; cbn; [reflexivity|].
  destruct (Qgtb x y); [|reflexivity]. rewrite IH. apply Permutation_swap.
Qed.

Lemma sorted_perm (l : list Q) : sorted l ≡ₚ l.
Proof.
  unfold sorted. induction l as [|x l IH]; cbn; [reflexivity|].
  by rewrite insert_sorted_perm, IH.
Qed.










Lemma sorted_nonempty (l : list Q) : l <> [] -> sorted l <> [].
Proof.
  intros Hl Hs. apply Hl. apply Permutation_nil. by rewrite <- Hs, sorted_perm.
Qed.

(** The statistics part of [get_stats] never raises. *)
Lemma stats_returns cutoff now tenant (ms : list LLMRequestMetrics) :
  exists a, stats cutoff now tenant ms = Returns a.
Proof.
  unfold stats. destruct ms as [|m ms]; [eauto|]. unfold aggregate.
  set (lat := sorted (map latency_ms (m :: ms))).
  assert (Hne : lat <> []) by (apply sorted_nonempty; discriminate).
  rewrite !percentile_general by (assumption || lia). eauto.
Qed.



(** *** What [get_stats] returns and when it raises *)

Lemma stats_fields cutoff now tenant ms a :
  stats cutoff now tenant ms = Returns a ->
  total_requests a = len ms
  /\ successful_requests a = len (List.filter success ms)
  /\ failed_requests a = len (List.filter (fun m => negb (success m)) ms)
  /\ cached_requests a = len (List.filter cached ms)
  /\ total_input_tokens a = sumZ (map input_tokens ms)
  /\ total_output_tokens a = sumZ (map output_tokens ms)
  /\ total_cost_usd a = sumQ (map cost_usd ms)
  /\ by_provider a = fold_left (add_breakdown provider) ms ∅
  /\ by_model a = fold_left (add_breakdown model) ms ∅
  /\ errors_by_type a = fold_left add_error ms ∅.
Proof.
  unfold stats. destruct ms as [|m ms].
  - intros [= <-]. cbn. repeat split; reflexivity.
  - unfold aggregate.
    set (lat := sorted (map latency_ms (m :: ms))).
    assert (Hne : lat <> []) by (apply sorted_nonempty; discriminate).
    rewrite !percentile_general by (assumption || lia).
    intros [= <-]. cbn. repeat split; reflexivity.
Qed.

Lemma get_stats_inv period tenant now self s' a :
  get_stats period tenant now self = (s', Returns a) ->
  s' = self
  /\ exists delta,
       _parse_period period = Returns delta
       /\ datetime_sub now delta = Returns (period_start a)
       /\ stats (period_start a) now tenant (select self tenant (period_start a))
          = Returns a.
Proof.
  rewrite get_stats_run. intros [= <- H]. split; [reflexivity|].
  destruct (_parse_period period) as [delta|]; [|discriminate].
  destruct (datetime_sub now delta) as [cutoff|] eqn:Hc; [|discriminate].
  destruct (stats_period _ _ _ _ _ H) as (Hs & _). subst cutoff. eauto.
Qed.

Lemma get_stats_returns period tenant now self delta cutoff :
  _parse_period period = Returns delta ->
  datetime_sub now delta = Returns cutoff ->
  exists a, get_stats period tenant now self = (self, Returns a)
            /\ period_start a = cutoff.
Proof.
  intros Hd Hc. rewrite get_stats_run, Hd, Hc.
  destruct (stats_returns cutoff now tenant (select self tenant cutoff)) as [a Ha].
  exists a. rewrite Ha. split; [reflexivity|].
  by destruct (stats_period _ _ _ _ _ Ha) as (? & _).
Qed.



Lemma filter_partition {A} (f : A -> bool) (l : list A) :
  len l = (len (List.filter f l) + len (List.filter (fun x => negb (f x)) l))%Z.
Proof.
  unfold len. induction l as [|x l IH]; [reflexivity|].
  cbn [List.filter]. destruct (f x); cbn [negb length]; lia.
Qed.

Lemma filter_len_le {A} (f : A -> bool) (l : list A) :
  (0 <= len (List.filter f l) <= len l)%Z.
Proof.
  pose proof (filter_partition f l). unfold len in *. lia.
Qed.

(** X15.  In every result of [get_stats] the counts add up: each selected
    request is either successful or failed, so
    [total_requests = successful_requests + failed_requests], and the cached
    requests are among them.  The total is the number of entries of the
    window, and the token totals and the cost are their sums. *)
Theorem request_counts_add_up (period : string) (tenant : option string) (now : Z)
    (self s' : TelemetryCollector) (a : AggregatedMetrics) :
  get_stats period tenant now self = (s', Returns a) ->
  let sel := select self tenant (period_start a) in
  total_requests a = len sel
  /\ total_requests a = (successful_requests a + failed_requests a)%Z
  /\ (0 <= successful_requests a)%Z /\ (0 <= failed_requests a)%Z
  /\ (0 <= cached_requests a <= total_requests a)%Z
  /\ total_input_tokens a = sumZ (map input_tokens sel)
  /\ total_output_tokens a = sumZ (map output_tokens sel)
  /\ total_cost_usd a = sumQ (map cost_usd sel).
Proof.
  intros H. destruct (get_stats_inv _ _ _ _ _ _ H) as (_ & delta & _ & _ & Hs).
  cbn zeta. set (sel := select self tenant (period_start a)) in *.
  destruct (stats_fields _ _ _ _ _ Hs)
    as (Ht & Hok & Hf & Hc & Hi & Ho & Hcost & _).
  rewrite Ht, Hok, Hf, Hc, Hi, Ho, Hcost.
  pose proof (filter_partition success sel).
  pose proof (filter_len_le success sel).
  pose proof (filter_len_le (fun m => negb (success m)) sel).
  pose proof (filter_len_le cached sel).
  repeat split; try reflexivity; lia.
Qed.

Lemma request_counts_add_up_witness :
  exists a,
    get_stats "1h" None now0 ten_requests = (ten_requests, Returns a)
    /\ total_requests a = 10%Z
    /\ total_requests a = (successful_requests a + failed_requests a)%Z.
Proof.
  destruct (get_stats_returns "1h" None now0 ten_requests
              3600000000 (now0 - 3600000000))
    as (a & Ha & Hstart); [vm_compute; reflexivity|vm_compute; reflexivity|].
  exists a. split; [exact Ha|].
  destruct (request_counts_add_up "1h" None now0 ten_requests ten_requests a Ha)
    as (Ht & Hsum & _).
  split; [|exact Hsum].
  rewrite Ht, Hstart. vm_compute. reflexivity.
Defined.


(** *** The breakdowns *)

Lemma fold_add_breakdown (key : LLMRequestMetrics -> string)
    (l : list LLMRequestMetrics) (acc : gmap string Breakdown) (k : string) :
  fold_left (add_breakdown key) l acc !! k
  = match with_key key k l with
    | [] => acc !! k
    | rs =>
        let cur := default {| bd_requests := 0; bd_cost := 0; bd_tokens := 0 |}
                           (acc !! k) in
        Some {| bd_requests := bd_requests cur + len rs;
                bd_cost := fold_left Qplus (map cost_usd rs) (bd_cost cur);
                bd_tokens := fold_left Z.add (map total_tokens rs) (bd_tokens cur) |}
    end.
Proof.
  revert acc. induction l as [|x l IH]; intros acc; [reflexivity|].
  cbn [fold_left]. rewrite IH. unfold with_key; cbn [List.filter].
  fold (with_key key k l). unfold add_breakdown.
  destruct (String.eqb_spec (key x) k) as [->|Hne].
  - rewrite lookup_insert_eq.
    set (cur := default _ (acc !! k)).
    destruct (with_key key k l) as [|y rs]; [reflexivity|].
    cbn zeta. cbn [default from_option id bd_requests bd_cost bd_tokens map fold_left].
    f_equal. f_equal. unfold len; cbn [length]. lia.
  - rewrite lookup_insert_ne by assumption. reflexivity.
Qed.

Lemma breakdown_lookup (key : LLMRequestMetrics -> string)
    (l : list LLMRequestMetrics) (k : string) :
  fold_left (add_breakdown key) l ∅ !! k
  = match with_key key k l with
    | [] => None
    | rs => Some (breakdown_of rs)
    end.
Proof.
  rewrite fold_add_breakdown, lookup_empty.
  destruct (with_key key k l) as [|y rs]; reflexivity.
Qed.

Lemma fold_add_error (l : list LLMRequestMetrics) (acc : gmap string Z) (k : string) :
  fold_left add_error l acc !! k
  = match failures_of k l with
    | [] => acc !! k
    | fs => Some (default 0 (acc !! k) + len fs)%Z
    end.
Proof.
  revert acc. induction l as [|x l IH]; intros acc; [reflexivity|].
  cbn [fold_left]. rewrite IH. unfold failures_of; cbn [List.filter].
  fold (failures_of k l). unfold add_error.
  destruct (negb (success x) && str_truthy (error_type x)); cbn [andb]; [|reflexivity].
  destruct (String.eqb_spec (default "" (error_type x)) k) as [->|Hne].
  - rewrite lookup_insert_eq.
    destruct (failures_of _ l) as [|y fs]; [reflexivity|].
    cbn [default from_option id]. f_equal. unfold len; cbn [length]. lia.
  - rewrite lookup_insert_ne by assumption. reflexivity.
Qed.

(** X16.  The breakdowns of a [get_stats] result, key by key.  A provider (a
    model) has an entry exactly when the window holds a request of it, and
    the entry gives the number of those requests, the sum of their costs and
    the sum of their [total_tokens].  [errors_by_type] counts, under each
    error type, the failed requests of the window carrying that non-empty
    type; successful requests and failures without a type are not counted. *)
Theorem breakdowns_by_key (period : string) (tenant : option string) (now : Z)
    (self s' : TelemetryCollector) (a : AggregatedMetrics) :
  get_stats period tenant now self = (s', Returns a) ->
  let sel := select self tenant (period_start a) in
  (forall p, by_provider a !! p
             = match with_key provider p sel with
               | [] => None
               | rs => Some (breakdown_of rs)
               end)
  /\ (forall m, by_model a !! m
                = match with_key model m sel with
                  | [] => None
                  | rs => Some (breakdown_of rs)
                  end)
  /\ (forall k, errors_by_type a !! k
                = match failures_of k sel with
                  | [] => None
                  | fs => Some (len fs)
                  end).
Proof.
  intros H. destruct (get_stats_inv _ _ _ _ _ _ H) as (_ & delta & _ & _ & Hs).
  cbn zeta. set (sel := select self tenant (period_start a)) in *.
  destruct (stats_fields _ _ _ _ _ Hs) as (_ & _ & _ & _ & _ & _ & _ & -> & -> & ->).
  split; [|split].
  - intros p. apply breakdown_lookup.
  - intros m. apply breakdown_lookup.
  - intros k. rewrite fold_add_error, lookup_empty.
    destruct (failures_of k sel) as [|y fs]; reflexivity.
Qed.

Lemma breakdowns_by_key_witness :
  exists a,
    get_stats "1h" None now0 ten_requests = (ten_requests, Returns a)
    /\ by_provider a !! "openai"
       = Some {| bd_requests := 10; bd_cost := 0; bd_tokens := 0 |}
    /\ by_provider a !! "anthropic" = None.
Proof.
  destruct (get_stats_returns "1h" None now0 ten_requests
              3600000000 (now0 - 3600000000))
    as (a & Ha & Hstart); [vm_compute; reflexivity|vm_compute; reflexivity|].
  exists a. split; [exact Ha|].
  destruct (breakdowns_by_key "1h" None now0 ten_requests ten_requests a Ha)
    as (Hp & _).
  cbn zeta in Hp. rewrite !Hp, Hstart. split; vm_compute; reflexivity.
Defined.

(** *** The tenant filter *)





(** *** Period strings *)

Lemma split_last_cons (x : ascii) (s : string) :
  split_last (String x s)
  = match s with
    | EmptyString => Some (EmptyString, x)
    | _ => match split_last s with
           | Some (init, l) => Some (String x init, l)
           | None => None
           end
    end.
Proof. destruct s; reflexivity. Qed.

Lemma split_last_snoc (s : string) (c : ascii) :
  split_last (s ++ String c "") = Some (s, c).
Proof.
  induction s as [|x s IH]; [reflexivity|].
  change (String x s ++ String c "")%string with (String x (s ++ String c "")%string).
  rewrite split_last_cons, IH.
  destruct (s ++ String c "")%string eqn:E; [|reflexivity].
  destruct s; discriminate.
Qed.

Lemma parse_period_snoc (digits : string) (unit : ascii) :
  _parse_period (digits ++ String unit "")
  = match int_of_str digits with
    | None => Raises (Exn ValueError MsgPeriodFormat)
    | Some value =>
        if Ascii.eqb unit "h" then timedelta (value * 3600000000)
        else if Ascii.eqb unit "d" then timedelta (value * 86400000000)
        else if Ascii.eqb unit "m" then timedelta (value * 60000000)
        else Raises (Exn ValueError MsgPeriodUnit)
    end.
Proof. unfold _parse_period. by rewrite split_last_snoc. Qed.

(** X18.  The units of a period agree: a count of days is the period of 24
    times as many hours, and a count of hours the period of 60 times as many
    minutes, whatever the two counts are written like (sign, surrounding
    blanks, underscores), and also in whether the period is in range.
    The unit is case-sensitive and no other unit is accepted. *)
Theorem period_units_agree (a b : string) (n : Z) :
  int_of_str a = Some n ->
  (int_of_str b = Some (24 * n)%Z ->
     _parse_period (a ++ "d") = _parse_period (b ++ "h"))
  /\ (int_of_str b = Some (60 * n)%Z ->
       _parse_period (a ++ "h") = _parse_period (b ++ "m"))
  /\ (forall unit, unit <> "m"%char -> unit <> "h"%char -> unit <> "d"%char ->
       _parse_period (a ++ String unit "") = Raises (Exn ValueError MsgPeriodUnit)).
Proof.
  intros Ha. split; [|split].
  - intros Hb. rewrite !parse_period_snoc, Ha, Hb. cbn.
    f_equal. lia.
  - intros Hb. rewrite !parse_period_snoc, Ha, Hb. cbn.
    f_equal. lia.
  - intros unit Hm Hh Hd. rewrite parse_period_snoc, Ha.
    destruct (Ascii.eqb_spec unit "h"); [congruence|].
    destruct (Ascii.eqb_spec unit "d"); [congruence|].
    destruct (Ascii.eqb_spec unit "m"); [congruence|]. reflexivity.
Qed.

Lemma period_units_agree_witness :
  _parse_period "1d" = _parse_period "24h"
  /\ _parse_period "-2h" = _parse_period " -1_20 m"
  /\ _parse_period "1H" = Raises (Exn ValueError MsgPeriodUnit).
Proof.
  destruct (period_units_agree "1" "24" 1) as (Hd & _ & Hu); [vm_compute; reflexivity|].
  destruct (period_units_agree "-2" " -1_20 " (-2)) as (_ & Hh & _);
    [vm_compute; reflexivity|].
  split; [apply Hd; vm_compute; reflexivity|].
  split; [apply Hh; vm_compute; reflexivity|].
  apply (Hu "H"%char); discriminate.
Defined.


(** *** [record] on any collector *)

Lemma record_returns (self : TelemetryCollector) (m : LLMRequestMetrics) :
  exists s',
    record m self = (s', Returns tt)
    /\ max_history s' = max_history self
    /\ _metrics s'
       = (if (max_history self <? len (_metrics self) + 1)%Z
          then tail (_metrics self ++ [with_cost m])
          else _metrics self ++ [with_cost m]).
Proof.
  unfold record. rewrite bind_modify, bind_get.
  cbn [store max_history _metrics].
  assert (Hlen : len (_metrics self ++ [with_cost m]) = (len (_metrics self) + 1)%Z).
  { unfold len. rewrite length_app, Nat2Z.inj_add. cbn [length]. lia. }
  rewrite Hlen.
  destruct (max_history self <? len (_metrics self) + 1)%Z.
  - unfold trim. rewrite bind_get. cbn [store _metrics max_history].
    destruct (_metrics self ++ [with_cost m]) as [|x rest] eqn:E.
    + by destruct (_metrics self).
    + unfold put. eexists. split; [reflexivity|]. split; reflexivity.
  - eexists. split; [reflexivity|]. split; reflexivity.
Qed.

Lemma after_store_no_hooks (h : Exporting.Hooks) (m : LLMRequestMetrics)
    (s : TelemetryCollector) :
  Exporting.export_callback h = None -> Exporting.netrun_logging h = None ->
  Exporting.after_store h m s = (s, Returns tt).
Proof.
  intros Hc Hl. unfold Exporting.after_store, Exporting.export, Exporting._log_metrics, bind.
  rewrite Hc, Hl. reflexivity.
Qed.

Lemma after_store_raises (h : Exporting.Hooks) (m : LLMRequestMetrics)
    (s1 s2 : TelemetryCollector) (e : exn) :
  Exporting.after_store h m s1 = (s2, Raises e) ->
  (exists callback,
      Exporting.export_callback h = Some callback
      /\ callback m s1 = (s2, Raises e)
      /\ issubclass (exn_class e) Exception = false)
  \/ (exists logger,
        Exporting.netrun_logging h = Some logger
        /\ (Exporting.logger_info logger (Exporting.to_log_context m) = Raises e
            \/ exists e', Exporting.logger_error logger e' = Raises e)).
Proof.
  unfold Exporting.after_store, Exporting.export, Exporting._log_metrics,
    Exporting._log_export_error, bind, lift, ret, catches.
  destruct (Exporting.export_callback h) as [callback|].
  - destruct (callback m s1) as [s' [[]|e0]] eqn:Hcb.
    + destruct (Exporting.netrun_logging h) as [logger|]; [|discriminate].
      intros [= <- H]. right. eauto.
    + destruct (issubclass (exn_class e0) Exception) eqn:Hsub.
      * destruct (Exporting.netrun_logging h) as [logger|]; [|discriminate].
        destruct (Exporting.logger_error logger e0) as [[]|e1] eqn:Herr.
        -- intros [= <- H]. right. eauto.
        -- intros [= <- <-]. right. eauto.
      * intros [= <- <-]. left. eauto.
  - destruct (Exporting.netrun_logging h) as [logger|]; [|discriminate].
    intros [= <- H]. right. eauto.
Qed.

(** X23.  When [record] raises.  The history update never raises, on any
    collector: the entry is appended before the history is trimmed, so the
    [pop(0)] always finds an entry, also when [max_history] is zero or
    negative or the tenant index is out of step; it drops at most one entry,
    the oldest, and never changes [max_history].  The whole method then runs
    the export callback and the logging on the updated collector, and it
    raises only what the callback raises outside [Exception] or what a call
    of the logger raises; with no callback and no [netrun.logging] it never
    raises. *)
Theorem record_raises_only_through_hooks (h : Exporting.Hooks)
    (self : TelemetryCollector) (m : LLMRequestMetrics) :
  exists s1,
    record m self = (s1, Returns tt)
    /\ max_history s1 = max_history self
    /\ _metrics s1
       = (if (max_history self <? len (_metrics self) + 1)%Z
          then tail (_metrics self ++ [with_cost m])
          else _metrics self ++ [with_cost m])
    /\ Exporting.record_and_export h m self
       = Exporting.after_store h (with_cost m) s1
    /\ (Exporting.export_callback h = None -> Exporting.netrun_logging h = None ->
        Exporting.record_and_export h m self = (s1, Returns tt))
    /\ (forall s2 e,
          Exporting.record_and_export h m self = (s2, Raises e) ->
          (exists callback,
              Exporting.export_callback h = Some callback
              /\ callback (with_cost m) s1 = (s2, Raises e)
              /\ issubclass (exn_class e) Exception = false)
          \/ (exists logger,
                Exporting.netrun_logging h = Some logger
                /\ (Exporting.logger_info logger
                      (Exporting.to_log_context (with_cost m)) = Raises e
                    \/ exists e', Exporting.logger_error logger e' = Raises e))).
Proof.
  destruct (record_returns self m) as (s1 & Hrec & Hmax & Hms).
  assert (Hrun : Exporting.record_and_export h m self
                 = Exporting.after_store h (with_cost m) s1).
  { unfold Exporting.record_and_export, bind. by rewrite Hrec. }
  exists s1. split; [exact Hrec|]. split; [exact Hmax|]. split; [exact Hms|].
  split; [exact Hrun|]. split.
  - intros Hc Hl. rewrite Hrun. by apply after_store_no_hooks.
  - intros s2 e. rewrite Hrun. apply after_store_raises.
Qed.

End TelemetryMore.

(* ===================================================================== *)
(** ** Further facts: tracked requests *)
(* ===================================================================== *)

Module TrackingFacts.
Import Telemetry TelemetryScenarios TelemetryFacts Tracking.

Lemma tracked_run {A} (str : exn -> string) (async : bool) (prov mdl tenant : string)
    (user rid endp : option string) (fresh_id : string) (now : Z) (t_start t_end : Q)
    (body : M (RequestTracker * TelemetryCollector) A)
    (self self1 : TelemetryCollector) (tr1 : RequestTracker) (result : outcome A) :
  body (entered async prov mdl tenant user rid endp fresh_id now t_start, self)
  = ((tr1, self1), result) ->
  indexed self1 ->
  let m0 := match result with
            | Raises exc =>
                if catches Exception exc
                then failed (class_name (exn_class exc)) (str exc) (metrics tr1)
                else metrics tr1
            | Returns _ => metrics tr1
            end in
  let m := finished ((t_end - _start_time tr1) * 1000)%Q m0 in
  tracked str async prov mdl tenant user rid endp fresh_id now t_start t_end body self
  = (after_record self1 m, result)
  /\ indexed (after_record self1 m)
  /\ max_history (after_record self1 m) = max_history self1
  /\ _metrics (after_record self1 m)
     = (if (max_history self1 <? len (_metrics self1) + 1)%Z
        then tail (_metrics self1 ++ [with_cost m])
        else _metrics self1 ++ [with_cost m]).
Proof.
  intros Hb Hidx. cbn zeta. unfold tracked. rewrite Hb.
  set (m := finished _ _).
  assert (Hm : metrics (on_metrics (finished ((t_end - _start_time
                 match result with
                 | Returns _ => tr1
                 | Raises exc =>
                     if catches Exception exc
                     then on_metrics (failed (class_name (exn_class exc)) (str exc)) tr1
                     else tr1
                 end) * 1000)%Q)
                 match result with
                 | Returns _ => tr1
                 | Raises exc =>
                     if catches Exception exc
                     then on_metrics (failed (class_name (exn_class exc)) (str exc)) tr1
                     else tr1
                 end) = m).
  { unfold m. destruct result as [a|exc]; [reflexivity|].
    destruct (catches Exception exc); reflexivity. }
  rewrite Hm.
  destruct (record_step self1 m Hidx) as (self' & Hrec & Hmax & Hms & Hidx').
  unfold after_record. rewrite Hrec. cbn [fst]. auto.
Qed.


Lemma tracked_with_run {A} (str : exn -> string) (h : Exporting.Hooks) (async : bool)
    (prov mdl tenant : string) (user rid endp : option string) (fresh_id : string)
    (now : Z) (t_start t_end : Q)
    (body : M (RequestTracker * TelemetryCollector) A)
    (self self1 : TelemetryCollector) (tr1 : RequestTracker) (result : outcome A) :
  body (entered async prov mdl tenant user rid endp fresh_id now t_start, self)
  = ((tr1, self1), result) ->
  indexed self1 ->
  let m0 := match result with
            | Raises exc =>
                if catches Exception exc
                then failed (class_name (exn_class exc)) (str exc) (metrics tr1)
                else metrics tr1
            | Returns _ => metrics tr1
            end in
  let m := finished ((t_end - _start_time tr1) * 1000)%Q m0 in
  tracked_with str h async prov mdl tenant user rid endp fresh_id now t_start t_end
               body self
  = match Exporting.after_store h (with_cost m) (after_record self1 m) with
    | (s2, Raises e) => (s2, Raises e)
    | (s2, Returns _) => (s2, result)
    end.
Proof.
  intros Hb Hidx. cbn zeta. unfold tracked_with. rewrite Hb.
  set (m := finished _ _).
  assert (Hm : metrics (on_metrics (finished ((t_end - _start_time
                 match result with
                 | Returns _ => tr1
                 | Raises exc =>
                     if catches Exception exc
                     then on_metrics (failed (class_name (exn_class exc)) (str exc)) tr1
                     else tr1
                 end) * 1000)%Q)
                 match result with
                 | Returns _ => tr1
                 | Raises exc =>
                     if catches Exception exc
                     then on_metrics (failed (class_name (exn_class exc)) (str exc)) tr1
                     else tr1
                 end) = m).
  { unfold m. destruct result as [a|exc]; [reflexivity|].
    destruct (catches Exception exc); reflexivity. }
  rewrite Hm.
  destruct (record_step self1 m Hidx) as (self' & Hrec & _).
  unfold Exporting.record_and_export, bind, after_record. rewrite Hrec. reflexivity.
Qed.

(** X19.  A tracked block is recorded exactly once, whether it returns or
    raises: the entry is in the history before the export callback and the
    logging run.  It carries the latency [(end - start) * 1000] and
    [total_tokens = input_tokens + output_tokens] of the tracker as the
    block left it, and it is marked failed, with the class name and the text
    of the exception, exactly when the block raised an [Exception]; an
    exception outside [Exception] leaves the success flag and the error
    fields as the block left them.  The outcome of the block, the value it
    returns or the very exception it raises, is passed on unchanged unless
    the callback or the logger makes [record] raise, and then that exception
    takes its place; on a collector without callback and without
    [netrun.logging] it is always passed on.  This holds for [track_request]
    and for [track_request_async], on a collector whose tenant index is
    consistent when the block ends. *)
Theorem tracked_block_is_recorded_once {A} (str : exn -> string)
    (h : Exporting.Hooks) (async : bool)
    (prov mdl tenant : string) (user rid endp : option string) (fresh_id : string)
    (now : Z) (t_start t_end : Q)
    (body : M (RequestTracker * TelemetryCollector) A)
    (self self1 : TelemetryCollector) (tr1 : RequestTracker) (result : outcome A) :
  body (entered async prov mdl tenant user rid endp fresh_id now t_start, self)
  = ((tr1, self1), result) ->
  indexed self1 ->
  exists m s1,
    record m self1 = (s1, Returns tt)
    /\ indexed s1 /\ max_history s1 = max_history self1
    /\ _metrics s1
       = (if (max_history self1 <? len (_metrics self1) + 1)%Z
          then tail (_metrics self1 ++ [with_cost m])
          else _metrics self1 ++ [with_cost m])
    /\ tracked_with str h async prov mdl tenant user rid endp fresh_id now
                    t_start t_end body self
       = match Exporting.after_store h (with_cost m) s1 with
         | (s2, Raises e) => (s2, Raises e)
         | (s2, Returns _) => (s2, result)
         end
    /\ (Exporting.export_callback h = None -> Exporting.netrun_logging h = None ->
        tracked_with str h async prov mdl tenant user rid endp fresh_id now
                     t_start t_end body self
        = (s1, result))
    /\ tracked str async prov mdl tenant user rid endp fresh_id now t_start t_end
               body self
       = (s1, result)
    /\ latency_ms m = ((t_end - _start_time tr1) * 1000)%Q
    /\ total_tokens m
       = (input_tokens (metrics tr1) + output_tokens (metrics tr1))%Z
    /\ match result with
       | Raises exc =>
           if issubclass (exn_class exc) Exception
           then success m = false
                /\ error_type m = Some (class_name (exn_class exc))
                /\ error_message m = Some (str exc)
           else success m = success (metrics tr1)
                /\ error_type m = error_type (metrics tr1)
                /\ error_message m = error_message (metrics tr1)
       | Returns _ =>
           success m = success (metrics tr1)
           /\ error_type m = error_type (metrics tr1)
           /\ error_message m = error_message (metrics tr1)
       end.
Proof.
  intros Hb Hidx.
  destruct (tracked_run str async prov mdl tenant user rid endp fresh_id now
              t_start t_end body self self1 tr1 result Hb Hidx)
    as (Hrun & Hidx' & Hmax & Hms).
  pose proof (tracked_with_run str h async prov mdl tenant user rid endp fresh_id now
                t_start t_end body self self1 tr1 result Hb Hidx) as Hwith.
  cbn zeta in *.
  set (m := finished _ _) in *.
  destruct (record_step self1 m Hidx) as (s1 & Hrec & _).
  assert (Hs1 : after_record self1 m = s1) by (unfold after_record; by rewrite Hrec).
  rewrite Hs1 in *.
  exists m, s1. split; [exact Hrec|].
  split; [exact Hidx'|]. split; [exact Hmax|]. split; [exact Hms|].
  split; [exact Hwith|]. split.
  { intros Hc Hl. rewrite Hwith.
    unfold Exporting.after_store, Exporting.export, Exporting._log_metrics, bind.
    rewrite Hc, Hl. reflexivity. }
  split; [exact Hrun|]. split; [reflexivity|].
  unfold m. destruct result as [a|exc].
  - repeat split.
  - unfold catches. destruct (issubclass (exn_class exc) Exception); repeat split.
Qed.

Lemma tracked_block_is_recorded_once_witness :
  let body : M (RequestTracker * TelemetryCollector) unit :=
    (call (set_tokens 100 50) ;;; raise BaseException MsgOutOfRange)%py in
  exists m s',
    tracked_with (fun _ => "interrupted") Exporting.no_hooks true
                 "openai" "gpt-4o" "tenant-123" None None None
                 "0a1b2c3d" now0 1 3 body (TelemetryCollector_init 10)
    = (s', Raises (Exn BaseException MsgOutOfRange))
    /\ _metrics s' = [with_cost m]
    /\ success m = true /\ total_tokens m = 150%Z /\ latency_ms m = ((3 - 1) * 1000)%Q.
Proof.
  cbn zeta.
  destruct (tracked_block_is_recorded_once (A:=unit) (fun _ => "interrupted")
              Exporting.no_hooks true
              "openai" "gpt-4o" "tenant-123" None None None "0a1b2c3d" now0 1 3
              (call (set_tokens 100 50) ;;; raise BaseException MsgOutOfRange)%py
              (TelemetryCollector_init 10) (TelemetryCollector_init 10)
              (set_tokens 100 50
                 (entered true "openai" "gpt-4o" "tenant-123" None None None
                    "0a1b2c3d" now0 1))
              (Raises (Exn BaseException MsgOutOfRange)))
    as (m & s' & _ & _ & _ & Hms & _ & Hrun & _ & Hlat & Htok & Hflags);
    [reflexivity|apply init_indexed|].
  exists m, s'. cbn in Hflags, Htok, Hlat, Hms.
  destruct Hflags as (Hs & _).
  split; [apply Hrun; reflexivity|].
  repeat split; assumption.
Defined.

Lemma last_after_record (self : TelemetryCollector) (m : LLMRequestMetrics) :
  indexed self -> (1 <= max_history self)%Z ->
  last (_metrics (after_record self m)) = Some (with_cost m).
Proof.
  intros Hidx Hmax.
  destruct (record_step self m Hidx) as (self' & Hrec & _ & Hms & _).
  unfold after_record. rewrite Hrec. cbn [fst]. rewrite Hms.
  destruct (Z.ltb_spec (max_history self) (len (_metrics self) + 1)).
  - destruct (_metrics self) as [|x l]; [unfold len in *; cbn in *; lia|].
    cbn [app tail]. apply last_snoc.
  - apply last_snoc.
Qed.

Lemma tracked_setters (str : exn -> string) (async : bool) (prov mdl tenant : string)
    (user rid endp : option string) (fresh_id : string) (now : Z) (t_start t_end : Q)
    (f : RequestTracker -> RequestTracker) (self : TelemetryCollector) :
  indexed self ->
  let tr := f (entered async prov mdl tenant user rid endp fresh_id now t_start) in
  let m := finished ((t_end - _start_time tr) * 1000)%Q (metrics tr) in
  tracked str async prov mdl tenant user rid endp fresh_id now t_start t_end
          (call f) self
  = (after_record self m, Returns tt).
Proof.
  intros Hidx. cbn zeta.
  destruct (tracked_run str async prov mdl tenant user rid endp fresh_id now
              t_start t_end (call f) self self
              (f (entered async prov mdl tenant user rid endp fresh_id now t_start))
              (Returns tt)) as (Hrun & _); [reflexivity|assumption|].
  exact Hrun.
Qed.

(** X20.  Tokens set inside a tracked block are priced when the block ends.
    After a block that calls [set_tokens(i, o)] and [set_cost(c)], the newest
    entry of the history has [total_tokens = i + o], and its cost is [c],
    except that a cost of zero with [i + o > 0] is replaced by
    [_calculate_cost(provider, model, i, o)]: [set_cost] overrides the
    automatic calculation only with a non-zero cost. *)
Theorem tracked_tokens_are_priced (str : exn -> string) (async : bool)
    (prov mdl tenant : string) (user rid endp : option string) (fresh_id : string)
    (now : Z) (t_start t_end : Q) (i o : Z) (c : Q) (self : TelemetryCollector) :
  indexed self -> (1 <= max_history self)%Z ->
  exists e s',
    tracked str async prov mdl tenant user rid endp fresh_id now t_start t_end
            (call (fun t => set_cost c (set_tokens i o t))) self
    = (s', Returns tt)
    /\ last (_metrics s') = Some e
    /\ input_tokens e = i /\ output_tokens e = o /\ total_tokens e = (i + o)%Z
    /\ cost_usd e = (if Qeq_bool c 0 && (0 <? i + o)%Z
                     then _calculate_cost prov mdl i o else c)
    /\ latency_ms e = ((t_end - t_start) * 1000)%Q
    /\ success e = true /\ timestamp e = now
    /\ provider e = prov /\ model e = mdl /\ tenant_id e = tenant
    /\ request_id e = (if str_truthy rid then default "" rid else fresh_id).
Proof.
  intros Hidx Hmax.
  pose proof (tracked_setters str async prov mdl tenant user rid endp fresh_id
                now t_start t_end (fun t => set_cost c (set_tokens i o t)) self Hidx)
    as Hrun.
  cbn zeta in Hrun. eexists _, _. split; [exact Hrun|].
  split; [by apply last_after_record|].
  unfold with_cost. cbn [finished set_cost set_tokens on_metrics metrics set_cost_usd
    entered set_start_time RequestTracker_init _start_time cost_usd total_tokens
    input_tokens output_tokens provider model].
  destruct (Qeq_bool c 0 && (0 <? i + o)%Z); repeat split.
Qed.

Lemma tracked_tokens_are_priced_witness :
  exists e s',
    tracked (fun _ => "") false "openai" "gpt-4o" "tenant-123" None (Some "req-1") None
            "0a1b2c3d" now0 1 3 (call (fun t => set_cost 0 (set_tokens 1000 0 t)))
            (TelemetryCollector_init 10)
    = (s', Returns tt)
    /\ last (_metrics s') = Some e
    /\ total_tokens e = 1000%Z
    /\ cost_usd e = _calculate_cost "openai" "gpt-4o" 1000 0
    /\ request_id e = "req-1".
Proof.
  destruct (tracked_tokens_are_priced (fun _ => "") false "openai" "gpt-4o" "tenant-123"
              None (Some "req-1") None "0a1b2c3d" now0 1 3 1000 0 0
              (TelemetryCollector_init 10))
    as (e & s' & Hrun & Hlast & _ & _ & Htok & Hcost & _ & _ & _ & _ & _ & _ & Hid);
    [apply init_indexed|cbn; lia|].
  exists e, s'. repeat split; assumption.
Defined.


(** *** From a tracked block to the statistics *)

Lemma first_record (n : Z) (m : LLMRequestMetrics) :
  (1 <= n)%Z ->
  after_record (TelemetryCollector_init n) m
  = {| max_history := n;
       _metrics := [with_cost m];
       _by_tenant := <[tenant_id (with_cost m) := [with_cost m]]> ∅ |}.
Proof.
  intros Hn. unfold after_record, record. rewrite bind_modify, bind_get.
  cbn [store TelemetryCollector_init max_history _metrics _by_tenant app].
  unfold len. cbn [length].
  destruct (Z.ltb_spec n (Z.of_nat 1)); [lia|]. reflexivity.
Qed.

Lemma percentile_singleton (x : Q) (p : Z) : percentile_by_interpolation [x] p = x.
Proof. unfold percentile_by_interpolation. cbn. reflexivity. Qed.

Lemma select_first_record (n : Z) (m : LLMRequestMetrics) (flt : option string)
    (cutoff : Z) :
  (1 <= n)%Z -> (cutoff <= timestamp (with_cost m))%Z ->
  flt = None \/ flt = Some (tenant_id (with_cost m)) ->
  select (after_record (TelemetryCollector_init n) m) flt cutoff = [with_cost m].
Proof.
  intros Hn Hc Hflt. rewrite first_record by assumption.
  assert (Hf : List.filter (fun m0 => (cutoff <=? timestamp m0)%Z) [with_cost m]
               = [with_cost m]).
  { cbn [List.filter]. destruct (Z.leb_spec cutoff (timestamp (with_cost m))); [reflexivity|lia]. }
  unfold select, history_for. cbn [_metrics _by_tenant].
  destruct Hflt as [->| ->]; [exact Hf|].
  destruct (str_truthy _); [|exact Hf].
  cbn [default from_option id]. rewrite lookup_insert_eq. exact Hf.
Qed.

(** X21.  Round trip from a tracked block to the statistics.  In a new
    collector that keeps at least one entry, a block that only calls
    [set_tokens(i, o)] shows in [get_stats], for all tenants and for its own
    tenant alike and as long as the window reaches back to the time it was
    made, as one successful request with these token counts, the cost
    [_calculate_cost] gives them (zero when [i + o <= 0]), and all three
    percentiles and the average equal to its latency. *)
Theorem tracked_request_shows_in_stats (str : exn -> string) (async : bool)
    (prov mdl tenant : string) (user rid endp : option string) (fresh_id : string)
    (now : Z) (t_start t_end : Q) (i o n : Z)
    (period : string) (flt : option string) (now' delta cutoff : Z) :
  (1 <= n)%Z ->
  flt = None \/ flt = Some tenant ->
  _parse_period period = Returns delta ->
  datetime_sub now' delta = Returns cutoff ->
  (cutoff <= now)%Z ->
  exists s' a,
    tracked str async prov mdl tenant user rid endp fresh_id now t_start t_end
            (call (set_tokens i o)) (TelemetryCollector_init n)
    = (s', Returns tt)
    /\ get_stats period flt now' s' = (s', Returns a)
    /\ total_requests a = 1%Z
    /\ successful_requests a = 1%Z /\ failed_requests a = 0%Z
    /\ total_input_tokens a = i /\ total_output_tokens a = o
    /\ (total_cost_usd a
        == if (0 <? i + o)%Z then _calculate_cost prov mdl i o else 0)%Q
    /\ latency_p50 a = ((t_end - t_start) * 1000)%Q
    /\ latency_p95 a = ((t_end - t_start) * 1000)%Q
    /\ latency_p99 a = ((t_end - t_start) * 1000)%Q
    /\ (latency_avg a == (t_end - t_start) * 1000)%Q.
Proof.
  intros Hn Hflt Hd Hc Hcut.
  pose proof (tracked_setters str async prov mdl tenant user rid endp fresh_id
                now t_start t_end (set_tokens i o) (TelemetryCollector_init n)
                (init_indexed n)) as Hrun.
  cbn zeta in Hrun. set (m := finished _ _) in Hrun.
  assert (Hfields : tenant_id (with_cost m) = tenant /\ timestamp (with_cost m) = now
                    /\ success (with_cost m) = true
                    /\ input_tokens (with_cost m) = i /\ output_tokens (with_cost m) = o
                    /\ latency_ms (with_cost m) = ((t_end - t_start) * 1000)%Q
                    /\ cost_usd (with_cost m)
                       = if (0 <? i + o)%Z then _calculate_cost prov mdl i o else 0%Q).
  { unfold with_cost, m.
    cbn [finished set_tokens on_metrics metrics set_cost_usd
      entered set_start_time RequestTracker_init _start_time cost_usd total_tokens
      input_tokens output_tokens provider model].
    change (Qeq_bool 0 0) with true. cbn [andb].
    destruct (0 <? i + o)%Z; repeat split. }
  destruct Hfields as (Hten & Hts & Hok & Hi & Ho & Hlat & Hcost).
  assert (Hsel : select (after_record (TelemetryCollector_init n) m) flt cutoff
                 = [with_cost m]).
  { apply select_first_record; [assumption|lia|]. rewrite Hten. exact Hflt. }
  eexists _, _. split; [exact Hrun|].
  rewrite get_stats_run, Hd, Hc, Hsel.
  unfold stats, aggregate. cbn [map sorted foldr insert_sorted].
  rewrite !percentile_general by (discriminate || lia).
  rewrite !percentile_singleton.
  split; [reflexivity|].
  cbn [total_requests successful_requests failed_requests total_input_tokens
       total_output_tokens total_cost_usd latency_p50 latency_p95 latency_p99
       latency_avg List.filter map].
  rewrite Hok, Hi, Ho, Hlat, Hcost. cbn [negb].
  repeat split; try reflexivity.
  - unfold sumQ. cbn [fold_left]. ring.
  - unfold sumQ, len. cbn [fold_left length]. field.
Qed.

Lemma tracked_request_shows_in_stats_witness :
  exists s' a,
    tracked (fun _ => "") false "openai" "gpt-4o" "tenant-123" None None None
            "0a1b2c3d" now0 1 3 (call (set_tokens 1000 0)) (TelemetryCollector_init 10)
    = (s', Returns tt)
    /\ get_stats "1h" (Some "tenant-123") (now0 + 60000000) s' = (s', Returns a)
    /\ total_requests a = 1%Z
    /\ (total_cost_usd a == 25 # 10000)%Q
    /\ latency_p95 a = ((3 - 1) * 1000)%Q.
Proof.
  destruct (tracked_request_shows_in_stats (fun _ => "") false "openai" "gpt-4o"
              "tenant-123" None None None "0a1b2c3d" now0 1 3 1000 0 10
              "1h" (Some "tenant-123") (now0 + 60000000) 3600000000
              (now0 + 60000000 - 3600000000))
    as (s' & a & Hrun & Hstats & Ht & _ & _ & _ & _ & Hcost & _ & H95 & _);
    [lia|by right|vm_compute; reflexivity|vm_compute; reflexivity|vm_compute; discriminate|].
  exists s', a. repeat split; try assumption.
  rewrite Hcost. vm_compute. reflexivity.
Defined.

End TrackingFacts.

(* ===================================================================== *)
(** ** Further facts: cost breakdowns *)
(* ===================================================================== *)

Module CostReportFacts.
Import Telemetry TelemetryScenarios TelemetryFacts TelemetryViews CostReports.
Import TelemetryMore.

Lemma get_cost_breakdown_inv period tenant now self s' b :
  get_cost_breakdown period tenant now self = (s', Returns b) ->
  exists a,
    get_stats period tenant now self = (s', Returns a)
    /\ b = {| cb_total_cost_usd := total_cost_usd a;
              cb_by_provider := provider_cost (total_cost_usd a) <$> by_provider a;
              cb_by_model := model_cost <$> by_model a |}.
Proof.
  unfold get_cost_breakdown, bind, ret.
  destruct (get_stats period tenant now self) as [s1 [a|e]]; [|discriminate].
  intros [= <- <-]. eauto.
Qed.

Lemma fold_Qplus_filter_le (f : LLMRequestMetrics -> bool) (l : list LLMRequestMetrics)
    (a b : Q) :
  (forall e, In e l -> (0 <= cost_usd e)%Q) -> (0 <= a)%Q -> (a <= b)%Q ->
  (0 <= fold_left Qplus (map cost_usd (List.filter f l)) a)%Q
  /\ (fold_left Qplus (map cost_usd (List.filter f l)) a
      <= fold_left Qplus (map cost_usd l) b)%Q.
Proof.
  revert a b. induction l as [|x l IH]; intros a b Hl Ha Hab; [by split|].
  assert (Hx : (0 <= cost_usd x)%Q) by (apply Hl; by left).
  assert (Hl' : forall e, In e l -> (0 <= cost_usd e)%Q) by (intros e He; apply Hl; by right).
  cbn [List.filter map fold_left]. destruct (f x); cbn [map fold_left].
  - apply IH; [assumption|lra|lra].
  - apply IH; [assumption|lra|lra].
Qed.

(** X22.  The shares of a cost breakdown.  Every model listed has at least
    one request, so its average cost is its cost divided by its requests,
    never the fallback 0.  A provider's percentage is its cost times 100 over
    the total when the total is positive, and 0 otherwise; when no entry of
    the history has a negative cost, every percentage lies between 0 and
    100. *)
Theorem cost_breakdown_shares (period : string) (tenant : option string) (now : Z)
    (self s' : TelemetryCollector) (b : CostBreakdown) :
  get_cost_breakdown period tenant now self = (s', Returns b) ->
  (forall m mc, cb_by_model b !! m = Some mc ->
     (1 <= mc_requests mc)%Z
     /\ (mc_avg_cost mc * inject_Z (mc_requests mc) == mc_cost_usd mc)%Q)
  /\ (forall p pc, cb_by_provider b !! p = Some pc ->
        if Qgtb (cb_total_cost_usd b) 0
        then (pc_percentage pc * cb_total_cost_usd b == pc_cost_usd pc * 100)%Q
        else pc_percentage pc = 0%Q)
  /\ ((forall e, In e (history_for self tenant) -> (0 <= cost_usd e)%Q) ->
      forall p pc, cb_by_provider b !! p = Some pc ->
        (0 <= pc_percentage pc <= 100)%Q).
Proof.
  intros H. destruct (get_cost_breakdown_inv _ _ _ _ _ _ H) as (a & Ha & ->).
  cbn [cb_total_cost_usd cb_by_provider cb_by_model].
  destruct (get_stats_inv _ _ _ _ _ _ Ha) as (_ & delta & _ & _ & Hs).
  set (sel := select self tenant (period_start a)) in *.
  destruct (stats_fields _ _ _ _ _ Hs) as (_ & _ & _ & _ & _ & _ & Hcost & Hp & Hm & _).
  split; [|split].
  - intros m mc. rewrite lookup_fmap, Hm, breakdown_lookup.
    destruct (with_key model m sel) as [|x rs] eqn:E; [discriminate|].
    intros [= <-]. cbn [model_cost breakdown_of mc_requests mc_avg_cost mc_cost_usd
                         bd_requests bd_cost].
    assert (Hlen : (1 <= len (x :: rs))%Z) by (unfold len; cbn [length]; lia).
    split; [exact Hlen|].
    destruct (Z.ltb_spec 0 (len (x :: rs))); [|lia].
    field. intros Hz. assert (Hq : (0 < inject_Z (len (x :: rs)))%Q).
    { change 0%Q with (inject_Z 0). rewrite <- Zlt_Qlt. lia. }
    rewrite Hz in Hq. by apply Qlt_irrefl in Hq.
  - intros p pc. rewrite lookup_fmap.
    destruct (by_provider a !! p) as [d|]; [|discriminate].
    intros [= <-]. cbn [provider_cost pc_percentage pc_cost_usd].
    destruct (Qgtb (total_cost_usd a) 0) eqn:Hg; [|reflexivity].
    apply PolicyFacts.Qgtb_true in Hg. field. intros Hz. rewrite Hz in Hg.
    by apply Qlt_irrefl in Hg.
  - intros Hnn p pc. rewrite lookup_fmap, Hp, breakdown_lookup.
    destruct (with_key provider p sel) as [|x rs] eqn:E; [discriminate|].
    intros [= <-]. cbn [provider_cost breakdown_of pc_percentage bd_cost].
    destruct (Qgtb (total_cost_usd a) 0) eqn:Hg; [|split; [apply Qle_refl|discriminate]].
    apply PolicyFacts.Qgtb_true in Hg.
    assert (Hsel : forall e, In e sel -> (0 <= cost_usd e)%Q).
    { intros e He. apply Hnn. unfold sel, select in He.
      by apply filter_In in He as [? _]. }
    destruct (fold_Qplus_filter_le (fun m => String.eqb (provider m) p) sel 0 0 Hsel
                ltac:(apply Qle_refl) ltac:(apply Qle_refl)) as (H0 & Hle).
    fold (with_key provider p sel) in H0, Hle. rewrite E in H0, Hle.
    fold (sumQ (map cost_usd (x :: rs))) in H0, Hle.
    fold (sumQ (map cost_usd sel)) in Hle. rewrite <- Hcost in Hle.
    set (c := sumQ (map cost_usd (x :: rs))) in *.
    set (t := total_cost_usd a) in *. clearbody c t.
    assert (Hshare : (0 <= c / t <= 1)%Q).
    { split.
      - apply Qle_shift_div_l; [assumption|]. lra.
      - apply Qle_shift_div_r; [assumption|]. lra. }
    set (r := (c / t)%Q) in *. clearbody r. lra.
Qed.


Lemma get_cost_breakdown_returns period tenant now self delta cutoff :
  _parse_period period = Returns delta ->
  datetime_sub now delta = Returns cutoff ->
  exists b, get_cost_breakdown period tenant now self = (self, Returns b)
            /\ forall p, cb_by_provider b !! p
                 = provider_cost (cb_total_cost_usd b)
                   <$> fold_left (add_breakdown provider) (select self tenant cutoff) ∅ !! p.
Proof.
  intros Hd Hc.
  destruct (get_stats_returns period tenant now self delta cutoff Hd Hc)
    as (a & Ha & Hstart).
  destruct (get_stats_inv _ _ _ _ _ _ Ha) as (_ & _ & _ & _ & Hs).
  destruct (stats_fields _ _ _ _ _ Hs) as (_ & _ & _ & _ & _ & _ & _ & Hp & _).
  eexists. unfold get_cost_breakdown, bind, ret. rewrite Ha. split; [reflexivity|].
  intros p. cbn [cb_by_provider cb_total_cost_usd].
  by rewrite lookup_fmap, Hp, Hstart.
Qed.

Lemma cost_breakdown_shares_witness :
  let self := after_records (TelemetryCollector_init 10)
                [ sample "req-0" "a" "gpt-4o" 1000 0 120;
                  sample "req-1" "b" "gpt-4o-mini" 1000 0 100 ] in
  exists b pc,
    get_cost_breakdown "1h" None now0 self = (self, Returns b)
    /\ cb_by_provider b !! "openai" = Some pc
    /\ (0 <= pc_percentage pc <= 100)%Q.
Proof.
  cbn zeta.
  set (self := after_records (TelemetryCollector_init 10)
                 [ sample "req-0" "a" "gpt-4o" 1000 0 120;
                   sample "req-1" "b" "gpt-4o-mini" 1000 0 100 ]).
  destruct (get_cost_breakdown_returns "1h" None now0 self
              3600000000 (now0 - 3600000000))
    as (b & Hb & Hlook); [vm_compute; reflexivity|vm_compute; reflexivity|].
  specialize (Hlook "openai").
  destruct (fold_left (add_breakdown provider)
              (select self None (now0 - 3600000000)) ∅ !! "openai") as [d|] eqn:Hd;
    [|vm_compute in Hd; discriminate].
  exists b, (provider_cost (cb_total_cost_usd b) d).
  split; [exact Hb|]. split; [exact Hlook|].
  destruct (cost_breakdown_shares "1h" None now0 self self b Hb) as (_ & _ & Hshare).
  apply (Hshare ltac:(intros e He; vm_compute in He;
                      destruct He as [<-|[<-|[]]]; vm_compute; discriminate)
                "openai" _ Hlook).
Defined.

End CostReportFacts.
